(** * Conversation orchestration and request construction of the chat client

    A shallow embedding of [src/services/geminiService.ts] (the request
    builder and the two image services) and of the session handlers of
    [src/App.tsx] ([handleSendMessage], [handleEditImage],
    [handleDeleteConversation]), followed by the properties of the
    specification that these functions decide.

    Conventions.
    - A JavaScript string is a [string]; one character stands for one code
      unit.  Only code-unit-wise operations are used ([split] on a
      one-character separator, [substring], [startsWith], concatenation,
      emptiness tests).
    - [undefined] is [None]; an optional field is an [option].
    - A thrown exception is [Throw e]; an [async] function is a computation in
      the monad [M], which keeps what the function has done so far (its log of
      state updates and backend requests) also when it throws.
    - React state is changed only through setters.  A handler reads the state
      of the render that created it (a [Store] snapshot) and emits setter
      calls; [setConversations] is always called with an updater function,
      which is kept here as first-order data ([Updater]) together with its
      body ([applyUpdater]). *)

From Stdlib Require Import String Ascii List Bool NArith Arith Lia.
From Stdlib Require Import DecimalString.
Import ListNotations.
Local Open Scope string_scope.
Local Open Scope list_scope.

(* ===================================================================== *)
(** ** JavaScript strings *)
(* ===================================================================== *)

Module JS.

(** [s.split(sep)] for a one-character separator: never empty. *)
Fixpoint split (sep : ascii) (s : string) : list string :=
  match s with
  | EmptyString => [EmptyString]
  | String c rest =>
      if Ascii.eqb c sep then EmptyString :: split sep rest
      else match split sep rest with
           | [] => [String c EmptyString]
           | seg :: segs => String c seg :: segs
           end
  end.

(** Truthiness of a string: every string but the empty one. *)
Definition truthy (s : string) : bool :=
  match s with EmptyString => false | String _ _ => true end.

(** Truthiness of [string | undefined]. *)
Definition truthyOpt (s : option string) : bool :=
  match s with None => false | Some s => truthy s end.

(** [a || b] on strings. *)
Definition orElse (a b : string) : string := if truthy a then a else b.

(** [s.substring(0, n)]. *)
Definition substring0 (n : nat) (s : string) : string := String.substring 0 n s.

(** [s.startsWith(p)]. *)
Definition startsWith (p s : string) : bool := String.prefix p s.

(** Rendering of a non-negative integer inside a template literal. *)
Definition ofNumber (n : N) : string := NilEmpty.string_of_uint (N.to_uint n).

(** Rendering of [string | undefined] inside a template literal. *)
Definition ofOpt (s : option string) : string :=
  match s with Some s => s | None => "undefined" end.

(** The characters matched by [\s] and removed by [trim()], among the code
    units below 256. *)
Definition isSpace (c : ascii) : bool :=
  let n := nat_of_ascii c in
  ((n =? 9) || (n =? 10) || (n =? 11) || (n =? 12) || (n =? 13)
   || (n =? 32) || (n =? 160))%nat.

Fixpoint trimStart (s : string) : string :=
  match s with
  | String c rest => if isSpace c then trimStart rest else s
  | EmptyString => EmptyString
  end.

Fixpoint trimEnd (s : string) : string :=
  match s with
  | EmptyString => EmptyString
  | String c rest =>
      match trimEnd rest with
      | EmptyString => if isSpace c then EmptyString else String c EmptyString
      | rest' => String c rest'
      end
  end.

Definition trim (s : string) : string := trimEnd (trimStart s).

(** [s.replace(/\s/g, '_')]. *)
Fixpoint replaceSpaces (s : string) : string :=
  match s with
  | EmptyString => EmptyString
  | String c rest =>
      String (if isSpace c then "_"%char else c) (replaceSpaces rest)
  end.

(** [s.includes(c)] for a one-character [c]. *)
Fixpoint contains (c : ascii) (s : string) : bool :=
  match s with
  | EmptyString => false
  | String c' rest => Ascii.eqb c' c || contains c rest
  end.

(** The double quote, as a one-character string. *)
Definition dquote : string := String (ascii_of_nat 34) EmptyString.

End JS.

(* ===================================================================== *)
(** ** Exceptions *)
(* ===================================================================== *)

(** What the modelled code can throw: a [TypeError] of the runtime (a method
    called on [undefined]: the attachment's data string has no scheme
    delimiter, or a backend response lacks an expected field), the [Error] of
    [editImage] when the backend returned no image, and a failure of the
    backend request itself. *)
Inductive Error : Type :=
| TypeError
| NoImageReturned
| BackendRequestError (msg : string).

Inductive result (A : Type) : Type :=
| Ok (a : A)
| Throw (e : Error).
Arguments Ok {A} a.
Arguments Throw {A} e.

Definition rbind {A B} (r : result A) (f : A -> result B) : result B :=
  match r with Ok a => f a | Throw e => Throw e end.

(** [arr.map(f)] where [f] may throw: the first exception aborts the map. *)
Fixpoint rmap {A B} (f : A -> result B) (l : list A) : result (list B) :=
  match l with
  | [] => Ok []
  | a :: l' => rbind (f a) (fun b => rbind (rmap f l') (fun bs => Ok (b :: bs)))
  end.

(* ===================================================================== *)
(** ** Data model ([types.ts], as the code uses it) *)
(* ===================================================================== *)

Inductive Role : Type := user | model.

Inductive SendMode : Type :=
| ModeDefault      (* 'default' *)
| ModeNoThinking   (* 'no-thinking' *)
| ModeSearch       (* 'search' *)
| ModeImage.       (* 'image' *)

Record UploadedFile : Type := {
  file_id : string;
  file_name : string;
  file_type : string;
  file_size : nat;
  file_data : string;
  file_description : option string
}.

Record WebSource : Type := { web_uri : string; web_title : string }.
Record GroundingChunk : Type := { web : option WebSource }.

Record Message : Type := {
  msg_id : string;
  msg_role : Role;
  msg_text : string;
  msg_files : option (list UploadedFile);
  msg_timestamp : N;
  msg_groundingChunks : option (list GroundingChunk)
}.

Record Conversation : Type := {
  conv_id : string;
  conv_title : string;
  conv_messages : list Message;
  conv_createdAt : N
}.

(** The two fields of [Settings] that the core reads; the theme, colour, font
    and font size are read by the presentation layer only. *)
Record Settings : Type := {
  systemPrompt : string;
  useSearch : bool
}.

(* ===================================================================== *)
(** ** Backend request and response shapes (the SDK's, as the code uses them) *)
(* ===================================================================== *)

Record Blob : Type := { mimeType : string; data : option string }.

Record Part : Type := { text : option string; inlineData : option Blob }.

Definition textPart (s : string) : Part :=
  {| text := Some s; inlineData := None |}.
Definition dataPart (mt : string) (d : option string) : Part :=
  {| text := None; inlineData := Some {| mimeType := mt; data := d |} |}.

Record Content : Type := { role : option Role; parts : list Part }.

Inductive Tool : Type := googleSearch.
Inductive Modality : Type := IMAGE | TEXT.
Record ThinkingConfig : Type := { thinkingBudget : N }.

Record Config : Type := {
  systemInstruction : option string;
  tools : option (list Tool);
  thinkingConfig : option ThinkingConfig;
  responseModalities : option (list Modality)
}.

Record GenerateContentParameters : Type := {
  gc_model : string;
  gc_contents : list Content;
  gc_config : Config
}.

Record GenerateImagesParameters : Type := {
  gi_model : string;
  gi_prompt : string;
  gi_numberOfImages : nat;
  gi_outputMimeType : string
}.

Record Image : Type := { imageBytes : string }.
Record GeneratedImage : Type := { image : Image }.
Record GenerateImagesResponse : Type := { generatedImages : list GeneratedImage }.

Record GroundingMetadata : Type := {
  groundingChunks : option (list GroundingChunk)
}.
Record Candidate : Type := {
  content : option Content;
  groundingMetadata : option GroundingMetadata
}.
(** A response, and also one fragment of a streamed response: [resp_text] is
    the value of the getter [text] of the fragment, its text delta, which is
    [undefined] for a fragment without a text part. *)
Record GenerateContentResponse : Type := {
  resp_text : option string;
  candidates : option (list Candidate)
}.

(** A streamed response: finite and forward-only; it ends normally or by
    throwing. *)
Inductive Stream : Type :=
| StreamEnd
| StreamThrow (e : Error)
| StreamChunk (chunk : GenerateContentResponse) (rest : Stream).

Definition textModel : string := "gemini-2.5-flash".
Definition imageModel : string := "imagen-4.0-generate-001".
Definition imageEditModel : string := "gemini-2.5-flash-image-preview".

(* ===================================================================== *)
(** ** geminiService.ts, the pure part: attachments and history *)
(* ===================================================================== *)

(** The text pushed before a file's data (lines 106-110 and 152-156). *)
Definition prefaceFor (file : UploadedFile) : string :=
  if JS.truthyOpt (file_description file) then
    "This file, which I've named " ++ JS.dquote
      ++ JS.ofOpt (file_description file) ++ JS.dquote
      ++ ", has the original filename " ++ JS.dquote
      ++ file_name file ++ JS.dquote ++ "."
  else
    "This is the file with the original filename " ++ JS.dquote
      ++ file_name file ++ JS.dquote ++ ".".

(** The two lines that take a data string apart (49-50, 113-114, 159-160):
    [const [meta, base64Data] = data.split(',')] and
    [const mimeType = meta.split(':')[1].split(';')[0]].  The second throws
    when [meta] has no colon. *)
Definition splitData (d : string) : result Blob :=
  let segs := JS.split ","%char d in
  let meta := hd EmptyString segs in
  let base64Data := nth_error segs 1 in
  match nth_error (JS.split ":"%char meta) 1 with
  | None => Throw TypeError
  | Some scheme =>
      Ok {| mimeType := hd EmptyString (JS.split ";"%char scheme);
            data := base64Data |}
  end.

(** The body of the [forEach] over files: push the preface, then the data
    part, onto [parts]. *)
Fixpoint pushFiles (files : list UploadedFile) (acc : list Part)
  : result (list Part) :=
  match files with
  | [] => Ok acc
  | file :: rest =>
      let acc := acc ++ [textPart (prefaceFor file)] in
      rbind (splitData (file_data file)) (fun b =>
      pushFiles rest (acc ++ [{| text := None; inlineData := Some b |}]))
  end.

(** [msg.files && msg.files.length > 0]. *)
Definition hasFiles (msg : Message) : bool :=
  match msg_files msg with
  | Some (_ :: _) => true
  | _ => false
  end.

Definition filesOf (msg : Message) : list UploadedFile :=
  match msg_files msg with Some fs => fs | None => [] end.

Definition isUser (r : Role) : bool :=
  match r with user => true | model => false end.

(** The callback of [history.map] in [mapHistoryToGenAI]. *)
Definition mapMessage (msg : Message) : result Content :=
  if isUser (msg_role msg) && hasFiles msg then
    rbind (pushFiles (filesOf msg) []) (fun ps =>
    let ps := if JS.truthy (msg_text msg)
              then ps ++ [textPart (msg_text msg)] else ps in
    Ok {| role := Some (msg_role msg); parts := ps |})
  else
    let ps := if JS.truthy (msg_text msg)
              then [textPart (msg_text msg)] else [] in
    Ok {| role := Some (msg_role msg); parts := ps |}.

Definition mapHistoryToGenAI (history : list Message) : result (list Content) :=
  rmap mapMessage history.

(** [streamResponse] up to its [await]: the request it sends. *)
Definition useSearchFlag (settings : Settings) (sendMode : SendMode) : bool :=
  (match sendMode with ModeSearch => true | _ => false end)
  || (useSearch settings
      && match sendMode with ModeDefault => true | _ => false end).

Definition buildRequest (history : list Message)
    (newText : string) (newFiles : list UploadedFile)
    (settings : Settings) (sendMode : SendMode)
  : result GenerateContentParameters :=
  rbind (mapHistoryToGenAI history) (fun finalHistory =>
  rbind (pushFiles newFiles []) (fun newParts =>
  let newParts := if JS.truthy newText
                  then newParts ++ [textPart newText] else newParts in
  let newContent := {| role := Some user; parts := newParts |} in
  let useSearch := useSearchFlag settings sendMode in
  let useNoThinking :=
    match sendMode with ModeNoThinking => true | _ => false end in
  let config :=
    {| systemInstruction :=
         if JS.truthy (systemPrompt settings)
         then Some (systemPrompt settings) else None;
       tools :=
         if useSearch && (length newFiles =? 0)%nat
         then Some [googleSearch] else None;
       thinkingConfig :=
         if useNoThinking then Some {| thinkingBudget := 0%N |} else None;
       responseModalities := None |} in
  Ok {| gc_model := textModel;
        gc_contents := finalHistory ++ [newContent];
        gc_config := config |})).

(* ===================================================================== *)
(** ** The conversation store and the setter calls of the handlers *)
(* ===================================================================== *)

(** The updater functions passed to [setConversations] in [App.tsx], one
    constructor for each arrow function of the source. *)
Inductive Updater : Type :=
| UPrepend (c : Conversation)
    (* prev => [c, ...prev] *)
| UDeleteConversation (id : string)
    (* prev => prev.filter(c => c.id !== id) *)
| UDeleteMessage (convId messageId : string)
    (* prev => prev.map(c => c.id === convId
         ? {...c, messages: c.messages.filter(m => m.id !== messageId)} : c) *)
| UAppendMessage (convId : string) (m : Message)
    (* prev => prev.map(c => c.id === convId
         ? {...c, messages: [...c.messages, m]} : c) *)
| UUserMessage (convId : string) (userMessage : Message) (text : string)
    (* prev => prev.map(updateWithUserMessage) *)
| UPatchMessage (convId messageId : string) (streamedText : string)
    (groundingChunks : option (list GroundingChunk)).
    (* prev => prev.map(c => c.id === convId ? {...c, messages:
         c.messages.map(m => m.id === messageId
           ? {...m, text: streamedText, groundingChunks} : m)} : c) *)

Definition withMessages (c : Conversation) (ms : list Message) : Conversation :=
  {| conv_id := conv_id c; conv_title := conv_title c;
     conv_messages := ms; conv_createdAt := conv_createdAt c |}.

(** The title given to a conversation from the text of a turn:
    [text.substring(0, 30) || 'New Conversation']. *)
Definition titleFrom (text : string) : string :=
  JS.orElse (JS.substring0 30 text) "New Conversation".

(** [updateWithUserMessage] of [handleSendMessage] (lines 192-198). *)
Definition updateWithUserMessage (convId : string) (userMessage : Message)
    (text : string) (convo : Conversation) : Conversation :=
  if conv_id convo =? convId then
    {| conv_id := conv_id convo;
       conv_title := if (length (conv_messages convo) =? 0)%nat
                     then titleFrom text else conv_title convo;
       conv_messages := conv_messages convo ++ [userMessage];
       conv_createdAt := conv_createdAt convo |}
  else convo.

Definition patchMessage (messageId streamedText : string)
    (groundingChunks : option (list GroundingChunk)) (m : Message) : Message :=
  if msg_id m =? messageId then
    {| msg_id := msg_id m; msg_role := msg_role m; msg_text := streamedText;
       msg_files := msg_files m; msg_timestamp := msg_timestamp m;
       msg_groundingChunks := groundingChunks |}
  else m.

Definition applyUpdater (u : Updater) (prev : list Conversation)
  : list Conversation :=
  match u with
  | UPrepend c => c :: prev
  | UDeleteConversation id =>
      filter (fun c => negb (conv_id c =? id)) prev
  | UDeleteMessage convId messageId =>
      map (fun c =>
             if conv_id c =? convId then
               withMessages c
                 (filter (fun m => negb (msg_id m =? messageId)) (conv_messages c))
             else c) prev
  | UAppendMessage convId m =>
      map (fun c =>
             if conv_id c =? convId
             then withMessages c (conv_messages c ++ [m]) else c) prev
  | UUserMessage convId userMessage text =>
      map (updateWithUserMessage convId userMessage text) prev
  | UPatchMessage convId messageId streamedText groundingChunks =>
      map (fun c =>
             if conv_id c =? convId then
               withMessages c
                 (map (patchMessage messageId streamedText groundingChunks)
                      (conv_messages c))
             else c) prev
  end.

(** The requests awaited from the backend. *)
Inductive BackendCall : Type :=
| GenerateImages (req : GenerateImagesParameters)
| GenerateContent (req : GenerateContentParameters)
| GenerateContentStream (req : GenerateContentParameters).

(** What a handler does that the rest of the program can observe, in order. *)
Inductive Action : Type :=
| SetConversations (u : Updater)
| SetCurrentConversationId (id : option string)
| SetIsThinking (b : bool)
| Await (call : BackendCall)
| ConsoleError (label : string) (e : Error).

(** The state of [App]: the conversation list, the active conversation and
    the response-in-flight flag. *)
Record Store : Type := {
  conversations : list Conversation;
  currentConversationId : option string;
  isThinking : bool
}.

Definition step (s : Store) (a : Action) : Store :=
  match a with
  | SetConversations u =>
      {| conversations := applyUpdater u (conversations s);
         currentConversationId := currentConversationId s;
         isThinking := isThinking s |}
  | SetCurrentConversationId id =>
      {| conversations := conversations s;
         currentConversationId := id;
         isThinking := isThinking s |}
  | SetIsThinking b =>
      {| conversations := conversations s;
         currentConversationId := currentConversationId s;
         isThinking := b |}
  | Await _ | ConsoleError _ _ => s
  end.

Definition run (log : list Action) (s : Store) : Store := fold_left step log s.

(** [conversations.find(c => c.id === currentConversationId) || null]. *)
Definition currentConversation (s : Store) : option Conversation :=
  match currentConversationId s with
  | None => None
  | Some id => find (fun c => conv_id c =? id) (conversations s)
  end.

(* ===================================================================== *)
(** ** The monad of the asynchronous functions *)
(* ===================================================================== *)

(** The environment of a run: the successive readings of the clock
    ([Date.now()] and [new Date()]) and the answer of the backend to each
    request. *)
Record Env : Type := {
  clock : nat -> N;
  models_generateImages :
    GenerateImagesParameters -> result GenerateImagesResponse;
  models_generateContent :
    GenerateContentParameters -> result GenerateContentResponse;
  models_generateContentStream :
    GenerateContentParameters -> result Stream
}.

(** A computation reads the environment, advances the count of clock
    readings, and yields its log and either a value or an exception. *)
Definition M (A : Type) : Type := Env -> nat -> list Action * nat * result A.

Definition ret {A} (a : A) : M A := fun _ k => ([], k, Ok a).

Definition bind {A B} (m : M A) (f : A -> M B) : M B :=
  fun env k =>
    let '(l1, k1, r1) := m env k in
    match r1 with
    | Ok a => let '(l2, k2, r2) := f a env k1 in (l1 ++ l2, k2, r2)
    | Throw e => (l1, k1, Throw e)
    end.

Definition throw {A} (e : Error) : M A := fun _ k => ([], k, Throw e).

Definition lift {A} (r : result A) : M A := fun _ k => ([], k, r).

Definition emit (a : Action) : M unit := fun _ k => ([a], k, Ok tt).

(** [Date.now()], and the time of [new Date()]. *)
Definition now : M N := fun env k => ([], S k, Ok (clock env k)).

Definition await_generateImages (req : GenerateImagesParameters)
  : M GenerateImagesResponse :=
  fun env k => ([Await (GenerateImages req)], k, models_generateImages env req).

Definition await_generateContent (req : GenerateContentParameters)
  : M GenerateContentResponse :=
  fun env k => ([Await (GenerateContent req)], k, models_generateContent env req).

Definition await_generateContentStream (req : GenerateContentParameters)
  : M Stream :=
  fun env k =>
    ([Await (GenerateContentStream req)], k, models_generateContentStream env req).

(** [try { body } catch (error) { handler }]. *)
Definition tryCatch {A} (body : M A) (handler : Error -> M A) : M A :=
  fun env k =>
    let '(l1, k1, r1) := body env k in
    match r1 with
    | Ok a => (l1, k1, Ok a)
    | Throw e => let '(l2, k2, r2) := handler e env k1 in (l1 ++ l2, k2, r2)
    end.

(** [try { body } finally { fin }]. *)
Definition tryFinally {A} (body : M A) (fin : M unit) : M A :=
  fun env k =>
    let '(l1, k1, r1) := body env k in
    let '(l2, k2, r2) := fin env k1 in
    (l1 ++ l2, k2, match r2 with Ok _ => r1 | Throw e => Throw e end).

Declare Scope M_scope.
Delimit Scope M_scope with M.
Notation "x <- c ;; k" := (bind c (fun x => k))
  (at level 61, c at next level, right associativity) : M_scope.
Notation "' p <- c ;; k" := (bind c (fun x => match x with p => k end))
  (at level 61, p pattern, c at next level, right associativity) : M_scope.
Notation "c ;; k" := (bind c (fun _ => k))
  (at level 61, right associativity) : M_scope.
Local Open Scope M_scope.

Definition logOf {A} (x : list Action * nat * result A) : list Action :=
  fst (fst x).
Definition tickOf {A} (x : list Action * nat * result A) : nat := snd (fst x).
Definition resultOf {A} (x : list Action * nat * result A) : result A := snd x.

(* ===================================================================== *)
(** ** geminiService.ts, the asynchronous part *)
(* ===================================================================== *)

(** The file that [generateImage] returns for the image bytes [b], when the
    clock reads [t] (lines 32-39). *)
Definition generatedFile (prompt : string) (t : N) (b : string) : UploadedFile :=
  {| file_id := "img-" ++ JS.ofNumber t;
     file_name := JS.replaceSpaces (JS.trim (JS.substring0 30 prompt)) ++ ".png";
     file_type := "image/png";
     file_size := String.length b;
     file_data := "data:image/png;base64," ++ b;
     file_description :=
       Some ("Generated image for prompt: " ++ JS.dquote ++ prompt
             ++ JS.dquote)%string |}.

(** The file that [editImage] builds from an image part of the response
    (lines 79-86). *)
Definition editedFile (prompt : string) (imageFile : UploadedFile) (t : N)
    (newMimeType b : string) : UploadedFile :=
  {| file_id := "img-edit-" ++ JS.ofNumber t;
     file_name := "edited_" ++ file_name imageFile;
     file_type := newMimeType;
     file_size := String.length b;
     file_data := "data:" ++ newMimeType ++ ";base64," ++ b;
     file_description :=
       Some ("Edited image for prompt: " ++ JS.dquote ++ prompt
             ++ JS.dquote)%string |}.

(** The request of [generateImage] (lines 20-27). *)
Definition imageRequest (prompt : string) : GenerateImagesParameters :=
  {| gi_model := imageModel; gi_prompt := prompt;
     gi_numberOfImages := 1;
     gi_outputMimeType := "image/png" |}.

Definition generateImage (prompt : string) : M UploadedFile :=
  response <- await_generateImages (imageRequest prompt) ;;
  match generatedImages response with
  | [] => throw TypeError
  | g :: _ =>
      let base64ImageBytes := imageBytes (image g) in
      t <- now ;;
      ret (generatedFile prompt t base64ImageBytes)
  end.

(** The loop of [editImage] over the parts of the response (lines 72-88). *)
Fixpoint editLoop (prompt : string) (imageFile : UploadedFile)
    (ps : list Part) (responseText : string) (newImageFile : option UploadedFile)
  : M (string * option UploadedFile) :=
  match ps with
  | [] => ret (responseText, newImageFile)
  | part :: rest =>
      if JS.truthyOpt (text part) then
        editLoop prompt imageFile rest
          (responseText ++ JS.ofOpt (text part))%string newImageFile
      else
        match inlineData part with
        | Some blob =>
            let newBase64 := data blob in
            let newMimeType := mimeType blob in
            t <- now ;;
            match newBase64 with
            | None => throw TypeError
            | Some b =>
                editLoop prompt imageFile rest responseText
                  (Some (editedFile prompt imageFile t newMimeType b))
            end
        | None => editLoop prompt imageFile rest responseText newImageFile
        end
  end.

(** The request of [editImage]: the image part of the file, then the prompt. *)
Definition editRequest (prompt : string) (b : Blob) : GenerateContentParameters :=
  {| gc_model := imageEditModel;
     gc_contents :=
       [ {| role := None;
            parts := [ {| text := None; inlineData := Some b |};
                       textPart prompt ] |} ];
     gc_config := {| systemInstruction := None; tools := None;
                     thinkingConfig := None;
                     responseModalities := Some [IMAGE; TEXT] |} |}.

Definition editImage (prompt : string) (imageFile : UploadedFile)
  : M (string * UploadedFile) :=
  b <- lift (splitData (file_data imageFile)) ;;
  response <- await_generateContent (editRequest prompt b) ;;
  ps <- match candidates response with
        | Some (c :: _) =>
            match content c with
            | Some ct => ret (parts ct)
            | None => throw TypeError
            end
        | _ => throw TypeError
        end ;;
  '(responseText, newImageFile) <- editLoop prompt imageFile ps EmptyString None ;;
  match newImageFile with
  | None => throw NoImageReturned
  | Some f => ret (responseText, f)
  end.

Definition streamResponse (history : list Message)
    (newText : string) (newFiles : list UploadedFile)
    (settings : Settings) (sendMode : SendMode) : M Stream :=
  req <- lift (buildRequest history newText newFiles settings sendMode) ;;
  await_generateContentStream req.

(* ===================================================================== *)
(** ** App.tsx: the handlers *)
(* ===================================================================== *)

Definition apologySend : string :=
  "Sorry, something went wrong. Please try again.".
Definition apologyEdit : string :=
  "Sorry, I couldn't edit that image. Please try again.".

Definition isImageMode (m : SendMode) : bool :=
  match m with ModeImage => true | _ => false end.

(** [handleNewConversation]. *)
Definition handleNewConversation : M unit :=
  t <- now ;;
  createdAt <- now ;;
  let newConversation :=
    {| conv_id := "conv-" ++ JS.ofNumber t;
       conv_title := "New Conversation";
       conv_messages := [];
       conv_createdAt := createdAt |} in
  emit (SetConversations (UPrepend newConversation)) ;;
  emit (SetCurrentConversationId (Some (conv_id newConversation))).

(** [handleDeleteConversation], in a render whose state is [s]. *)
Definition handleDeleteConversation (s : Store) (id : string) : M unit :=
  emit (SetConversations (UDeleteConversation id)) ;;
  if match currentConversationId s with
     | Some cur => cur =? id
     | None => false
     end
  then
    let remainingConversations :=
      filter (fun c => negb (conv_id c =? id)) (conversations s) in
    emit (SetCurrentConversationId
            match remainingConversations with
            | c :: _ => Some (conv_id c)
            | [] => None
            end)
  else ret tt.

(** [handleDeleteMessage], in a render whose state is [s]. *)
Definition handleDeleteMessage (s : Store) (messageId : string) : M unit :=
  match currentConversationId s with
  | None => ret tt
  | Some cur =>
      if JS.truthy cur
      then emit (SetConversations (UDeleteMessage cur messageId))
      else ret tt
  end.

(** A user turn created when the clock reads [t], then [timestamp]. *)
Definition userMessage (t timestamp : N) (text : string)
    (files : list UploadedFile) : Message :=
  {| msg_id := "msg-" ++ JS.ofNumber t;
     msg_role := user;
     msg_text := text;
     msg_files := Some files;
     msg_timestamp := timestamp;
     msg_groundingChunks := None |}.

(** A model turn created when the clock reads [t], then [timestamp]; its id
    ends in [suffix]. *)
Definition botMessage (suffix : string) (t timestamp : N) (text : string)
    (files : option (list UploadedFile))
    (groundingChunks : option (list GroundingChunk)) : Message :=
  {| msg_id := "msg-" ++ JS.ofNumber t ++ suffix;
     msg_role := model;
     msg_text := text;
     msg_files := files;
     msg_timestamp := timestamp;
     msg_groundingChunks := groundingChunks |}.

(** A model turn that reports a failure: no files, no grounding chunks. *)
Definition errorBotMessage (t timestamp : N) (errorMessage : string) : Message :=
  botMessage "-bot-error" t timestamp errorMessage None None.

(** The [catch] block of a handler: log the error, append the apology turn. *)
Definition catchBlock (label errorMessage convId : string) (error : Error)
  : M unit :=
  emit (ConsoleError label error) ;;
  t <- now ;;
  timestamp <- now ;;
  emit (SetConversations
          (UAppendMessage convId (errorBotMessage t timestamp errorMessage))).

(** The [try] block of [handleEditImage] (lines 131-139). *)
Definition editBody (convId prompt : string) (fileToEdit : UploadedFile)
  : M unit :=
  ' (text, file) <- editImage prompt fileToEdit ;;
  t <- now ;;
  timestamp <- now ;;
  let modelMessage :=
    botMessage "-bot-edit" t timestamp text (Some [file]) None in
  emit (SetConversations (UAppendMessage convId modelMessage)).

(** [handleEditImage], in a render whose state is [s]. *)
Definition handleEditImage (s : Store) (prompt : string)
    (fileToEdit : UploadedFile) : M unit :=
  match currentConversation s with
  | None => ret tt
  | Some conv =>
      let convId := conv_id conv in
      t <- now ;;
      timestamp <- now ;;
      emit (SetConversations
              (UAppendMessage convId
                 (userMessage t timestamp prompt [fileToEdit]))) ;;
      emit (SetIsThinking true) ;;
      tryFinally
        (tryCatch (editBody convId prompt fileToEdit)
           (catchBlock "Error editing image:" apologyEdit convId))
        (emit (SetIsThinking false))
  end.

(** [chunk.candidates?.[0]?.groundingMetadata?.groundingChunks]. *)
Definition chunkGrounding (chunk : GenerateContentResponse)
  : option (list GroundingChunk) :=
  match candidates chunk with
  | Some (c :: _) =>
      match groundingMetadata c with
      | Some gm => groundingChunks gm
      | None => None
      end
  | _ => None
  end.

(** The [for await] loop of [handleSendMessage] (lines 248-259).
    [modelMessage] is the object built before the stream was requested. *)
Fixpoint streamLoop (convId : string) (modelMessage : Message)
    (responseStream : Stream) (streamedText : string) : M unit :=
  match responseStream with
  | StreamEnd => ret tt
  | StreamThrow e => throw e
  | StreamChunk chunk rest =>
      let streamedText :=
        (streamedText ++ JS.ofOpt (resp_text chunk))%string in
      let groundingChunks :=
        match chunkGrounding chunk with
        | Some g => Some g
        | None => msg_groundingChunks modelMessage
        end in
      emit (SetConversations
              (UPatchMessage convId (msg_id modelMessage) streamedText
                 groundingChunks)) ;;
      streamLoop convId modelMessage rest streamedText
  end.

(** The image-to-image branch of [handleSendMessage] (lines 211-220), for
    the first file [file0] of the send. *)
Definition imageEditBranch (convId text : string) (file0 : UploadedFile)
  : M unit :=
  ' (responseText, editedFile) <- editImage text file0 ;;
  t <- now ;;
  timestamp <- now ;;
  let modelMessage :=
    botMessage "-bot-img-edit" t timestamp responseText (Some [editedFile])
      None in
  emit (SetConversations (UAppendMessage convId modelMessage)).

(** The text-to-image branch of [handleSendMessage] (lines 223-232). *)
Definition imageGenerateBranch (convId text : string) : M unit :=
  generatedFile <- generateImage text ;;
  t <- now ;;
  timestamp <- now ;;
  let modelImageMessage :=
    botMessage "-bot-img" t timestamp EmptyString (Some [generatedFile]) None in
  emit (SetConversations (UAppendMessage convId modelImageMessage)).

(** The streaming branch of [handleSendMessage] (lines 235-259). *)
Definition streamBranch (history : list Message) (convId text : string)
    (files : list UploadedFile) (settings : Settings) (sendMode : SendMode)
  : M unit :=
  t <- now ;;
  timestamp <- now ;;
  let modelMessage :=
    botMessage "-bot" t timestamp EmptyString None (Some []) in
  emit (SetConversations (UAppendMessage convId modelMessage)) ;;
  responseStream <- streamResponse history text files settings sendMode ;;
  streamLoop convId modelMessage responseStream EmptyString.

(** The [try] block of [handleSendMessage] (lines 209-260); the test of the
    image branch is
    [files.length > 0 && files[0].type.startsWith('image/')]. *)
Definition sendBody (history : list Message) (convId text : string)
    (files : list UploadedFile) (settings : Settings) (sendMode : SendMode)
  : M unit :=
  if isImageMode sendMode then
    match files with
    | file0 :: _ =>
        if JS.startsWith "image/" (file_type file0)
        then imageEditBranch convId text file0
        else imageGenerateBranch convId text
    | [] => imageGenerateBranch convId text
    end
  else streamBranch history convId text files settings sendMode.

(** Lines 156-170 of [handleSendMessage]: the conversation to update, and
    whether it is a new one. *)
Definition resolveConversation (s : Store) (text : string)
  : M (Conversation * bool) :=
  match currentConversation s with
  | Some c => ret (c, false)
  | None =>
      t <- now ;;
      let newConvId := ("conv-" ++ JS.ofNumber t)%string in
      createdAt <- now ;;
      let newConversation :=
        {| conv_id := newConvId;
           conv_title := titleFrom text;
           conv_messages := [];
           conv_createdAt := createdAt |} in
      emit (SetCurrentConversationId (Some newConvId)) ;;
      ret (newConversation, true)
  end.

(** [handleSendMessage] up to its [try] (lines 156-206), in a render whose
    state is [s]: the conversation to update is resolved, the user turn is
    added to it, and the response-in-flight flag is set.  The result is
    [conversationToUpdate]. *)
Definition sendPrologue (s : Store) (text : string) (files : list UploadedFile)
    (sendMode : SendMode) : M Conversation :=
  ' (conversationToUpdate, isNewConversation) <- resolveConversation s text ;;
  let convId := conv_id conversationToUpdate in
  let filesForUserMessage :=
    if isImageMode sendMode && (length files =? 0)%nat then [] else files in
  t <- now ;;
  timestamp <- now ;;
  let userMessage := userMessage t timestamp text filesForUserMessage in
  (if isNewConversation
   then emit (SetConversations
                (UPrepend (withMessages conversationToUpdate [userMessage])))
   else emit (SetConversations (UUserMessage convId userMessage text))) ;;
  emit (SetIsThinking true) ;;
  ret conversationToUpdate.

(** [handleSendMessage], in a render whose state is [s] and whose settings
    are [settings]. *)
Definition handleSendMessage (s : Store) (settings : Settings)
    (text : string) (files : list UploadedFile) (sendMode : SendMode) : M unit :=
  conversationToUpdate <- sendPrologue s text files sendMode ;;
  let history := conv_messages conversationToUpdate in
  let convId := conv_id conversationToUpdate in
  tryFinally
    (tryCatch (sendBody history convId text files settings sendMode)
       (catchBlock "Error processing message:" apologySend convId))
    (emit (SetIsThinking false)).

(* ===================================================================== *)
(** ** Observations on logs, and concrete data used by the examples *)
(* ===================================================================== *)

(** The parts that a file contributes to a request when its data string
    splits into [b]: the preface text, then the data. *)
Definition fileParts (fb : UploadedFile * Blob) : list Part :=
  [ textPart (prefaceFor (fst fb));
    {| text := None; inlineData := Some (snd fb) |} ].

Definition interleaved (files : list UploadedFile) (blobs : list Blob)
  : list Part :=
  flat_map fileParts (combine files blobs).

(** The self-describing data string of a payload of a given media type:
    [data:<mediaType>;base64,<payload>]. *)
Definition dataUri (mediaType payload : string) : string :=
  "data:" ++ mediaType ++ ";base64," ++ payload.

(** The data strings of [files], taken apart in order. *)
Definition splitAll (files : list UploadedFile) : result (list Blob) :=
  rmap (fun f => splitData (file_data f)) files.

(** The search tool is present in a request. *)
Definition searchEnabled (req : GenerateContentParameters) : Prop :=
  tools (gc_config req) = Some [googleSearch].

Definition isTextPart (p : Part) : bool :=
  match text p, inlineData p with Some _, None => true | _, _ => false end.

(** The turns that an action adds to the store: the turns of a prepended
    conversation, an appended turn, the user turn of [updateWithUserMessage]. *)
Definition addedBy (a : Action) : list Message :=
  match a with
  | SetConversations (UPrepend c) => conv_messages c
  | SetConversations (UAppendMessage _ m) => [m]
  | SetConversations (UUserMessage _ m _) => [m]
  | _ => []
  end.

Definition added (log : list Action) : list Message := flat_map addedBy log.

Definition isModel (m : Message) : bool :=
  match msg_role m with model => true | user => false end.

(** The model turns that a log adds to the store, in order. *)
Definition modelTurnsAdded (log : list Action) : list Message :=
  filter isModel (added log).

(** The model turns that a log adds with the text [t]. *)
Definition apologiesIn (t : string) (log : list Action) : list Message :=
  filter (fun m => msg_text m =? t) (modelTurnsAdded log).

(** The backend requests of a log, in order. *)
Fixpoint awaited (log : list Action) : list BackendCall :=
  match log with
  | [] => []
  | Await c :: rest => c :: awaited rest
  | _ :: rest => awaited rest
  end.

(** The values given to the response-in-flight flag by a log, in order. *)
Fixpoint thinkingWrites (log : list Action) : list bool :=
  match log with
  | [] => []
  | SetIsThinking b :: rest => b :: thinkingWrites rest
  | _ :: rest => thinkingWrites rest
  end.

(** The value of the response-in-flight flag at each backend request of a
    log that starts with the flag at [flag]. *)
Fixpoint flagAtAwaits (flag : bool) (log : list Action) : list bool :=
  match log with
  | [] => []
  | SetIsThinking b :: rest => flagAtAwaits b rest
  | Await _ :: rest => flag :: flagAtAwaits flag rest
  | _ :: rest => flagAtAwaits flag rest
  end.

(** What the [try] and [catch] blocks of the two send handlers do: they
    append a turn, patch a turn, call the backend, or log an error. *)
Definition benign (a : Action) : Prop :=
  match a with
  | SetConversations (UAppendMessage _ _)
  | SetConversations (UPatchMessage _ _ _ _)
  | Await _
  | ConsoleError _ _ => True
  | _ => False
  end.

(** Every action of every run of [m] satisfies [P]. *)
Definition emits {A} (P : Action -> Prop) (m : M A) : Prop :=
  forall env k, Forall P (logOf (m env k)).

(** The grounding chunks of every turn of every conversation of a store. *)
Definition referencesOf (s : Store)
  : list (list (option (list GroundingChunk))) :=
  map (fun c => map msg_groundingChunks (conv_messages c)) (conversations s).

(** The first conversation of a store with id [id]. *)
Definition convOf (id : string) (s : Store) : option Conversation :=
  find (fun c => conv_id c =? id) (conversations s).

(** The title of the first conversation of a list with id [id]. *)
Definition titleOf (id : string) (convs : list Conversation) : option string :=
  option_map conv_title (find (fun c => conv_id c =? id) convs).

(** The text of a response: its non-empty text parts, concatenated. *)
Fixpoint responseTextOf (ps : list Part) : string :=
  match ps with
  | [] => EmptyString
  | p :: rest =>
      if JS.truthyOpt (text p)
      then (JS.ofOpt (text p) ++ responseTextOf rest)%string
      else responseTextOf rest
  end.

Module Sample.

Definition png : UploadedFile :=
  {| file_id := "file-1"; file_name := "cat.png"; file_type := "image/png";
     file_size := 3; file_data := "data:image/png;base64,AAAA";
     file_description := Some "my cat" |}.

Definition pdf : UploadedFile :=
  {| file_id := "file-2"; file_name := "notes.pdf";
     file_type := "application/pdf"; file_size := 3;
     file_data := "data:application/pdf;base64,BBBB";
     file_description := Some EmptyString |}.

(** A file whose data string has no scheme delimiter. *)
Definition broken : UploadedFile :=
  {| file_id := "file-3"; file_name := "x.bin"; file_type := "image/png";
     file_size := 3; file_data := "AAAA"; file_description := None |}.

Definition userTurn (files : option (list UploadedFile)) (t : string)
  : Message :=
  {| msg_id := "msg-1"; msg_role := user; msg_text := t; msg_files := files;
     msg_timestamp := 1%N; msg_groundingChunks := None |}.

Definition modelTurn (files : option (list UploadedFile)) (t : string)
  : Message :=
  {| msg_id := "msg-2-bot"; msg_role := model; msg_text := t;
     msg_files := files; msg_timestamp := 2%N;
     msg_groundingChunks := None |}.

Definition settingsOn : Settings :=
  {| systemPrompt := "Be brief."; useSearch := true |}.
Definition settingsOff : Settings :=
  {| systemPrompt := EmptyString; useSearch := false |}.

Definition source : GroundingChunk :=
  {| web := Some {| web_uri := "https://example.org";
                    web_title := "Example" |} |}.

Definition conv1 : Conversation :=
  {| conv_id := "conv-1"; conv_title := "New Conversation";
     conv_messages := []; conv_createdAt := 1%N |}.
Definition conv2 : Conversation :=
  {| conv_id := "conv-2"; conv_title := "Older";
     conv_messages := [userTurn None "hello"; modelTurn None "hi"];
     conv_createdAt := 0%N |}.

Definition store1 : Store :=
  {| conversations := [conv1; conv2];
     currentConversationId := Some "conv-1";
     isThinking := false |}.

Definition storeNone : Store :=
  {| conversations := [conv2]; currentConversationId := None;
     isThinking := false |}.

(** A fragment with text [t] and, optionally, grounding chunks. *)
Definition fragment (t : string) (g : option (list GroundingChunk))
  : GenerateContentResponse :=
  {| resp_text := Some t;
     candidates :=
       Some [ {| content := None;
                 groundingMetadata :=
                   match g with
                   | Some l => Some {| groundingChunks := Some l |}
                   | None => None
                   end |} ] |}.

(** The backend of the examples: it answers an image request with one
    image, an edit request with a text part and an image part, and a
    stream request with two fragments, the first one with a source. *)
Definition env : Env :=
  {| clock := fun n => N.of_nat (100 + n);
     models_generateImages := fun _ =>
       Ok {| generatedImages := [ {| image := {| imageBytes := "CCCC" |} |} ] |};
     models_generateContent := fun _ =>
       Ok {| resp_text := Some "done";
             candidates :=
               Some [ {| content :=
                           Some {| role := Some model;
                                   parts := [ textPart "done";
                                              dataPart "image/png" (Some "DDDD") ] |};
                         groundingMetadata := None |} ] |};
     models_generateContentStream := fun _ =>
       Ok (StreamChunk (fragment "a" (Some [source]))
             (StreamChunk (fragment "b" None) StreamEnd)) |}.

(** A backend whose every request fails with [e]. *)
Definition failing (e : Error) : Env :=
  {| clock := fun n => N.of_nat (100 + n);
     models_generateImages := fun _ => Throw e;
     models_generateContent := fun _ => Throw e;
     models_generateContentStream := fun _ => Throw e |}.

(** A backend that answers an edit request without an image. *)
Definition noImage : Env :=
  {| clock := fun n => N.of_nat (100 + n);
     models_generateImages := fun _ => Ok {| generatedImages := [] |};
     models_generateContent := fun _ =>
       Ok {| resp_text := Some "sorry";
             candidates :=
               Some [ {| content :=
                           Some {| role := Some model;
                                   parts := [ textPart "sorry" ] |};
                         groundingMetadata := None |} ] |};
     models_generateContentStream := fun _ => Ok (StreamThrow TypeError) |}.

(** A backend whose stream has a fragment with the text "a" and then a
    fragment without text. *)
Definition textless : Env :=
  {| clock := fun n => N.of_nat (100 + n);
     models_generateImages := fun _ => Ok {| generatedImages := [] |};
     models_generateContent := fun _ => Throw TypeError;
     models_generateContentStream := fun _ =>
       Ok (StreamChunk (fragment "a" None)
             (StreamChunk {| resp_text := None; candidates := None |}
                StreamEnd)) |}.

End Sample.

(* ===================================================================== *)
(** ** Further observations on the request builder and the services *)
(* ===================================================================== *)

(** A data string has a colon before its first comma. *)
Definition splittable (d : string) : bool :=
  JS.contains ":"%char (hd EmptyString (JS.split ","%char d)).

(** The turns whose projection reads no data string, or only data strings
    that can be taken apart. *)
Definition turnReadable (m : Message) : bool :=
  negb (isUser (msg_role m) && hasFiles m)
  || forallb (fun f => splittable (file_data f)) (filesOf m).

(** The parts of a response that the loop of [editImage] takes as images:
    no text (or an empty one) and inline data. *)
Definition isImagePart (p : Part) : bool :=
  negb (JS.truthyOpt (text p))
  && match inlineData p with Some _ => true | None => false end.

(** An image part whose inline data holds no [data] field. *)
Definition isBrokenImagePart (p : Part) : bool :=
  isImagePart p
  && match inlineData p with
     | Some blob => match data blob with None => true | Some _ => false end
     | None => false
     end.

(** [s.endsWith(suffix)]. *)
Fixpoint endsWith (suffix s : string) : bool :=
  (s =? suffix)
  || match s with
     | EmptyString => false
     | String _ rest => endsWith suffix rest
     end.

(** The last image part of a response, if it has one. *)
Fixpoint lastImagePart (ps : list Part) : option Part :=
  match ps with
  | [] => None
  | p :: rest =>
      match lastImagePart rest with
      | Some q => Some q
      | None => if isImagePart p then Some p else None
      end
  end.

(* ===================================================================== *)
(** ** Further observations on the store and on streams *)
(* ===================================================================== *)

(** The active id is none, or the id of a conversation of the list. *)
Definition activeValid (s : Store) : Prop :=
  match currentConversationId s with
  | None => True
  | Some id => convOf id s <> None
  end.

(** The conversations of a list whose id is not [id], in order. *)
Definition others (id : string) (convs : list Conversation) : list Conversation :=
  filter (fun c => negb (conv_id c =? id)) convs.

(** An action that changes no conversation but those with id [id]. *)
Definition touchesOnly (id : string) (a : Action) : Prop :=
  match a with
  | SetConversations (UPrepend c) => conv_id c = id
  | SetConversations (UAppendMessage convId _)
  | SetConversations (UUserMessage convId _ _)
  | SetConversations (UPatchMessage convId _ _ _)
  | SetConversations (UDeleteMessage convId _) => convId = id
  | SetConversations (UDeleteConversation _) => False
  | _ => True
  end.

(** The fragments of a stream, in order, and the exception that ends it, if
    it does not end normally. *)
Fixpoint chunksOf (st : Stream) : list GenerateContentResponse :=
  match st with
  | StreamEnd | StreamThrow _ => []
  | StreamChunk chunk rest => chunk :: chunksOf rest
  end.

Fixpoint streamError (st : Stream) : option Error :=
  match st with
  | StreamEnd => None
  | StreamThrow e => Some e
  | StreamChunk _ rest => streamError rest
  end.

(** The texts of a list of fragments, concatenated as [+=] does it: a
    fragment without text contributes the text [undefined]. *)
Definition joinTexts (chunks : list GenerateContentResponse) : string :=
  fold_right (fun c acc => (JS.ofOpt (resp_text c) ++ acc)%string)
    EmptyString chunks.

(** The last fragment of a stream, if it has one. *)
Fixpoint lastChunk (st : Stream) : option GenerateContentResponse :=
  match st with
  | StreamEnd | StreamThrow _ => None
  | StreamChunk chunk rest =>
      match lastChunk rest with
      | Some c => Some c
      | None => Some chunk
      end
  end.

(** The grounding chunks that the patch of a fragment carries: those of the
    fragment, or else those of the model turn as it was built. *)
Definition groundingFor (modelMessage : Message)
    (chunk : GenerateContentResponse) : option (list GroundingChunk) :=
  match chunkGrounding chunk with
  | Some g => Some g
  | None => msg_groundingChunks modelMessage
  end.

(* ===================================================================== *)
(** ** The composer: [components/ChatView.tsx] *)
(* ===================================================================== *)

(** The calls that [ChatView] makes on its props.  [App] passes
    [handleSendMessage], [handleEditImage] and [handleDeleteMessage] for
    them ([App.tsx], lines 299-306). *)
Inductive PropCall : Type :=
| OnSendMessage (text : string) (files : list UploadedFile) (sendMode : SendMode)
| OnEditImage (prompt : string) (fileToEdit : UploadedFile)
| OnDeleteMessage (messageId : string).

(** The handler of [App] behind a call, in a render whose state is [s]. *)
Definition callProp (s : Store) (settings : Settings) (c : PropCall) : M unit :=
  match c with
  | OnSendMessage text files sendMode =>
      handleSendMessage s settings text files sendMode
  | OnEditImage prompt fileToEdit => handleEditImage s prompt fileToEdit
  | OnDeleteMessage messageId => handleDeleteMessage s messageId
  end.

Module ChatView.

(** The state of the component (lines 27-34), without the refs.  The events
    of the component are handled one at a time with a render after each, so
    a handler reads the state that the event before it left; a handler is a
    function of that state. *)
Record State : Type := {
  prompt : string;
  uploadedFiles : list UploadedFile;
  isUploadMode : bool;
  editingFileId : option string;
  editingDescription : option string;
  isSendMenuOpen : bool;
  imageInModal : option (string * UploadedFile);
  fileForEditing : option UploadedFile
}.

Definition initial : State :=
  {| prompt := EmptyString; uploadedFiles := []; isUploadMode := false;
     editingFileId := None; editingDescription := Some EmptyString;
     isSendMenuOpen := false; imageInModal := None; fileForEditing := None |}.

Definition setPrompt (x : string) (v : State) : State :=
  {| prompt := x; uploadedFiles := uploadedFiles v;
     isUploadMode := isUploadMode v; editingFileId := editingFileId v;
     editingDescription := editingDescription v;
     isSendMenuOpen := isSendMenuOpen v; imageInModal := imageInModal v;
     fileForEditing := fileForEditing v |}.

Definition setUploadedFiles (x : list UploadedFile) (v : State) : State :=
  {| prompt := prompt v; uploadedFiles := x;
     isUploadMode := isUploadMode v; editingFileId := editingFileId v;
     editingDescription := editingDescription v;
     isSendMenuOpen := isSendMenuOpen v; imageInModal := imageInModal v;
     fileForEditing := fileForEditing v |}.

Definition setIsUploadMode (x : bool) (v : State) : State :=
  {| prompt := prompt v; uploadedFiles := uploadedFiles v;
     isUploadMode := x; editingFileId := editingFileId v;
     editingDescription := editingDescription v;
     isSendMenuOpen := isSendMenuOpen v; imageInModal := imageInModal v;
     fileForEditing := fileForEditing v |}.

Definition setEditingFileId (x : option string) (v : State) : State :=
  {| prompt := prompt v; uploadedFiles := uploadedFiles v;
     isUploadMode := isUploadMode v; editingFileId := x;
     editingDescription := editingDescription v;
     isSendMenuOpen := isSendMenuOpen v; imageInModal := imageInModal v;
     fileForEditing := fileForEditing v |}.

Definition setEditingDescription (x : option string) (v : State) : State :=
  {| prompt := prompt v; uploadedFiles := uploadedFiles v;
     isUploadMode := isUploadMode v; editingFileId := editingFileId v;
     editingDescription := x;
     isSendMenuOpen := isSendMenuOpen v; imageInModal := imageInModal v;
     fileForEditing := fileForEditing v |}.

Definition setIsSendMenuOpen (x : bool) (v : State) : State :=
  {| prompt := prompt v; uploadedFiles := uploadedFiles v;
     isUploadMode := isUploadMode v; editingFileId := editingFileId v;
     editingDescription := editingDescription v;
     isSendMenuOpen := x; imageInModal := imageInModal v;
     fileForEditing := fileForEditing v |}.

Definition setImageInModal (x : option (string * UploadedFile)) (v : State)
  : State :=
  {| prompt := prompt v; uploadedFiles := uploadedFiles v;
     isUploadMode := isUploadMode v; editingFileId := editingFileId v;
     editingDescription := editingDescription v;
     isSendMenuOpen := isSendMenuOpen v; imageInModal := x;
     fileForEditing := fileForEditing v |}.

Definition setFileForEditing (x : option UploadedFile) (v : State) : State :=
  {| prompt := prompt v; uploadedFiles := uploadedFiles v;
     isUploadMode := isUploadMode v; editingFileId := editingFileId v;
     editingDescription := editingDescription v;
     isSendMenuOpen := isSendMenuOpen v; imageInModal := imageInModal v;
     fileForEditing := x |}.

(** [{ ...f, description }]. *)
Definition withDescription (f : UploadedFile) (description : option string)
  : UploadedFile :=
  {| file_id := file_id f; file_name := file_name f; file_type := file_type f;
     file_size := file_size f; file_data := file_data f;
     file_description := description |}.

(** [fileForEditing?.id === id], for a string [id]. *)
Definition editingIs (id : string) (v : State) : bool :=
  match fileForEditing v with
  | Some f => (file_id f =? id)%string
  | None => false
  end.

(** A file chosen in the file picker. *)
Record File : Type := { name : string; type : string; size : nat }.

(** [newFile] of [reader.onload] (lines 81-88): [t] is the clock and
    [random] the text of the random number. *)
Definition newFile (t : N) (random : string) (file : File) (result : string)
  : UploadedFile :=
  {| file_id := "file-" ++ JS.ofNumber t ++ "-" ++ random;
     file_name := name file;
     file_type := type file;
     file_size := size file;
     file_data := result;
     file_description := Some EmptyString |}.

(** [handleFileChange] (lines 70-99).  Besides the next state, the files
    for which a reader is started, in order, and the number of alerts.  The
    count that is compared with the limit is the one of the render, for all
    the files of the selection. *)
Definition handleFileChange (selectedFiles : option (list File)) (v : State)
  : State * list File * nat :=
  match selectedFiles with
  | None => (v, [], 0)
  | Some selected =>
      let forEach (acc : list File * nat) (file : File) :=
        if (4 <=? length (uploadedFiles v))%nat
        then (fst acc, S (snd acc))
        else (fst acc ++ [file], snd acc) in
      let out := fold_left forEach selected ([], 0) in
      (setIsUploadMode false v, fst out, snd out)
  end.

(** [reader.onload] (lines 80-90). *)
Definition onload (t : N) (random : string) (file : File) (result : string)
    (v : State) : State :=
  setUploadedFiles (uploadedFiles v ++ [newFile t random file result]) v.

(** [handleRemoveFile] (lines 108-113). *)
Definition handleRemoveFile (fileId : string) (v : State) : State :=
  let v1 :=
    setUploadedFiles
      (filter (fun f => negb (file_id f =? fileId)%string) (uploadedFiles v))
      v in
  if editingIs fileId v then setFileForEditing None v1 else v1.

(** [handleEditDescription] (lines 115-118). *)
Definition handleEditDescription (file : UploadedFile) (v : State) : State :=
  setEditingDescription (file_description file)
    (setEditingFileId (Some (file_id file)) v).

(** [handleSaveDescription] (lines 120-128). *)
Definition handleSaveDescription (v : State) : State :=
  match editingFileId v with
  | None => v
  | Some id =>
      if negb (JS.truthy id) then v
      else
        let v1 :=
          setUploadedFiles
            (map (fun f => if (file_id f =? id)%string
                           then withDescription f (editingDescription v)
                           else f)
               (uploadedFiles v))
            v in
        let v2 :=
          if editingIs id v
          then setFileForEditing
                 (match fileForEditing v1 with
                  | Some prev =>
                      Some (withDescription prev (editingDescription v))
                  | None => None
                  end)
                 v1
          else v1 in
        setEditingDescription (Some EmptyString) (setEditingFileId None v2)
  end.

(** [handleSendMessage] (lines 136-149). *)
Definition handleSendMessage (mode : SendMode) (v : State)
  : State * list PropCall :=
  if (JS.trim (prompt v) =? EmptyString)%string
     && (length (uploadedFiles v) =? 0)%nat
  then (v, [])
  else
    let dispatched :=
      match fileForEditing v with
      | Some f => (setFileForEditing None v, [OnEditImage (prompt v) f])
      | None => (v, [OnSendMessage (prompt v) (uploadedFiles v) mode])
      end in
    (setIsSendMenuOpen false
       (setUploadedFiles [] (setPrompt EmptyString (fst dispatched))),
     snd dispatched).

(** [handleKeyDown] (lines 151-156). *)
Definition handleKeyDown (key : string) (shiftKey : bool) (v : State)
  : State * list PropCall :=
  if (key =? "Enter")%string && negb shiftKey
  then handleSendMessage ModeDefault v
  else (v, []).

(** [handleSendClick] (lines 171-175). *)
Definition handleSendClick (v : State) : State * list PropCall :=
  if negb (isSendMenuOpen v) then handleSendMessage ModeDefault v else (v, []).

(** Lines 177-179. *)
Definition hasPrompt (v : State) : bool :=
  negb (JS.trim (prompt v) =? EmptyString)%string.

Definition hasOneImage (v : State) : bool :=
  (length (uploadedFiles v) =? 1)%nat
  && match uploadedFiles v with
     | f :: _ => JS.startsWith "image/" (file_type f)
     | [] => false
     end.

Definition canGenerateImage (v : State) : bool :=
  ((length (uploadedFiles v) =? 0)%nat && hasPrompt v)
  || (hasOneImage v && hasPrompt v).

(** The entries of the send menu (lines 181-199), without their icons. *)
Record SendOption : Type := {
  mode : SendMode;
  label : string;
  disabled : bool
}.

Definition sendOptions (v : State) : list SendOption :=
  [ {| mode := ModeNoThinking; label := "Quick Response"; disabled := false |};
    {| mode := ModeSearch; label := "Search Web";
       disabled := (0 <? length (uploadedFiles v))%nat |};
    {| mode := ModeImage;
       label := if hasOneImage v then "Generate with Image" else "Generate Image";
       disabled := negb (canGenerateImage v) |} ].

Definition sameMode (a b : SendMode) : bool :=
  match a, b with
  | ModeDefault, ModeDefault | ModeNoThinking, ModeNoThinking
  | ModeSearch, ModeSearch | ModeImage, ModeImage => true
  | _, _ => false
  end.

(** A click on the entry of the send menu for [m] (lines 330-346): the menu
    is rendered when it is open, and a disabled button gets no click. *)
Definition optionClick (m : SendMode) (v : State) : State * list PropCall :=
  if isSendMenuOpen v
     && existsb (fun o => sameMode (mode o) m && negb (disabled o))
          (sendOptions v)
  then handleSendMessage m v
  else (v, []).

(** [onDelete] of the modal (lines 357-362). *)
Definition modalDelete (v : State) : State * list PropCall :=
  match imageInModal v with
  | Some (messageId, _) =>
      (setImageInModal None v, [OnDeleteMessage messageId])
  | None => (v, [])
  end.

(** [onEdit] of the modal (lines 363-370). *)
Definition modalEdit (v : State) : State :=
  match imageInModal v with
  | Some (_, file) =>
      setImageInModal None
        (setUploadedFiles [file] (setFileForEditing (Some file) v))
  | None => v
  end.

(** The effect on [currentConversation] (lines 63-68). *)
Definition conversationEffect (v : State) : State :=
  setFileForEditing None
    (setIsUploadMode false (setUploadedFiles [] (setPrompt EmptyString v))).

(** What can happen to the component.  Every event is taken to be possible
    in every state, with any argument; the component renders some of its
    controls in some states only (the send menu when it is open, the modal
    when a picture is shown), so the states reached through these events
    include the states that the component can reach. *)
Inductive Event : Type :=
| PromptChange (value : string)
| KeyDown (key : string) (shiftKey : bool)
| SendClick
| LongPress
| BackdropClick
| OptionClick (m : SendMode)
| UploadModeClick (open : bool)
| FileChange (selectedFiles : option (list File))
| ReaderLoad (t : N) (random : string) (file : File) (result : string)
| RemoveFileClick (fileId : string)
| DescriptionClick (file : UploadedFile)
| DescriptionChange (value : string)
| DescriptionSave
| ImageClick (messageId : string) (file : UploadedFile)
| ModalClose
| ModalDelete
| ModalEdit
| ConversationChanged.

Definition step (v : State) (ev : Event) : State * list PropCall :=
  match ev with
  | PromptChange value => (setPrompt value v, [])
  | KeyDown key shiftKey => handleKeyDown key shiftKey v
  | SendClick => handleSendClick v
  | LongPress => (setIsSendMenuOpen true v, [])
  | BackdropClick => (setIsSendMenuOpen false v, [])
  | OptionClick m => optionClick m v
  | UploadModeClick open => (setIsUploadMode open v, [])
  | FileChange selectedFiles => (fst (fst (handleFileChange selectedFiles v)), [])
  | ReaderLoad t random file result => (onload t random file result v, [])
  | RemoveFileClick fileId => (handleRemoveFile fileId v, [])
  | DescriptionClick file => (handleEditDescription file v, [])
  | DescriptionChange value => (setEditingDescription (Some value) v, [])
  | DescriptionSave => (handleSaveDescription v, [])
  | ImageClick messageId file => (setImageInModal (Some (messageId, file)) v, [])
  | ModalClose => (setImageInModal None v, [])
  | ModalDelete => modalDelete v
  | ModalEdit => (modalEdit v, [])
  | ConversationChanged => (conversationEffect v, [])
  end.

(** A sequence of events: the state it leaves and the calls it made, in
    order. *)
Fixpoint run (evs : list Event) (v : State) : State * list PropCall :=
  match evs with
  | [] => (v, [])
  | ev :: rest =>
      let out := run rest (fst (step v ev)) in
      (fst out, snd (step v ev) ++ snd out)
  end.

(** The file marked for editing is one of the staged files. *)
Definition marked (v : State) : Prop :=
  match fileForEditing v with
  | Some f => In f (uploadedFiles v)
  | None => True
  end.

(** The state after the readers started by a selection have loaded their
    files, in the order of the selection. *)
Fixpoint loadAll (loads : list (N * string * File * string)) (v : State)
  : State :=
  match loads with
  | [] => v
  | (t, random, file, result) :: rest =>
      loadAll rest (onload t random file result v)
  end.

End ChatView.

(** The backend requests of a send of [App], from the turns that the
    conversation of the send had in the render of the send. *)
Definition requestsOfSend (history : list Message) (text : string)
    (files : list UploadedFile) (settings : Settings) (sendMode : SendMode)
  : list BackendCall :=
  if isImageMode sendMode then
    match files with
    | file0 :: _ =>
        if JS.startsWith "image/" (file_type file0)
        then match splitData (file_data file0) with
             | Ok b => [GenerateContent (editRequest text b)]
             | Throw _ => []
             end
        else [GenerateImages (imageRequest text)]
    | [] => [GenerateImages (imageRequest text)]
    end
  else
    match buildRequest history text files settings sendMode with
    | Ok req => [GenerateContentStream req]
    | Throw _ => []
    end.

(** The turns that the current conversation has in a render, none without a
    current conversation. *)
Definition historyOf (s : Store) : list Message :=
  match currentConversation s with
  | Some c => conv_messages c
  | None => []
  end.

Module SampleView.

(** The composer with a picture opened in the modal. *)
Definition viewing : ChatView.State :=
  ChatView.setImageInModal (Some ("msg-1", Sample.png)) ChatView.initial.

Definition photo : ChatView.File :=
  {| ChatView.name := "a.png"; ChatView.type := "image/png";
     ChatView.size := 3 |}.

End SampleView.

(* ===================================================================== *)
(** ** What the blocks of a send do to the turns *)
(* ===================================================================== *)

(** The ids that the streaming branch gives to its model turn. *)
Definition botId (id : string) : Prop :=
  exists t, id = ("msg-" ++ JS.ofNumber t ++ "-bot")%string.

(** What the [try], [catch] and [finally] blocks of a send emit: a model
    turn appended, a patch of the turns with the id of a streamed model
    turn, a backend request, an error report, a write of the flag. *)
Definition modelWrite (a : Action) : Prop :=
  match a with
  | SetConversations (UAppendMessage _ m) => isModel m = true
  | SetConversations (UPatchMessage _ messageId _ _) => botId messageId
  | Await _ | ConsoleError _ _ | SetIsThinking _ => True
  | _ => False
  end.

(** The turns [ms] are the turns [history], one for one, up to what a patch
    changes: their texts and grounding chunks. *)
Definition sameTurns (ms history : list Message) : Prop :=
  map msg_id ms = map msg_id history
  /\ map msg_role ms = map msg_role history
  /\ map msg_files ms = map msg_files history
  /\ map msg_timestamp ms = map msg_timestamp history.

(* ===================================================================== *)
(** ** Properties of the request builder *)
(* ===================================================================== *)

Lemma rmap_length {A B} (f : A -> result B) (l : list A) (bs : list B) :
  rmap f l = Ok bs -> length bs = length l.
Proof.
  revert bs; induction l as [|a l IH]; intros bs H; simpl in H.
  - now inversion H.
  - destruct (f a) as [b|e]; simpl in H; [|discriminate].
    destruct (rmap f l) as [bs'|e]; simpl in H; [|discriminate].
    inversion H; subst; simpl. now rewrite (IH bs' eq_refl).
Qed.

Lemma pushFiles_ok (files : list UploadedFile) :
  forall blobs acc,
    splitAll files = Ok blobs ->
    pushFiles files acc = Ok (acc ++ interleaved files blobs).
Proof.
  unfold splitAll.
  induction files as [|f fs IH]; intros blobs acc H; simpl in H.
  - inversion H; subst. simpl. now rewrite app_nil_r.
  - destruct (splitData (file_data f)) as [b|e] eqn:Hb; simpl in H; [|discriminate].
    destruct (rmap _ fs) as [bs|e] eqn:Hbs; simpl in H; [|discriminate].
    inversion H; subst; clear H.
    simpl. rewrite Hb. simpl. rewrite (IH bs _ eq_refl).
    unfold interleaved. simpl. now rewrite <- !app_assoc.
Qed.

Lemma pushFiles_throw (files : list UploadedFile) :
  forall e acc, splitAll files = Throw e -> pushFiles files acc = Throw e.
Proof.
  unfold splitAll.
  induction files as [|f fs IH]; intros e acc H; simpl in H; [discriminate|].
  simpl. destruct (splitData (file_data f)) as [b|e'] eqn:Hb; simpl in *.
  - destruct (rmap _ fs) as [bs|e''] eqn:Hbs; simpl in H; [discriminate|].
    inversion H; subst. now apply IH.
  - now inversion H.
Qed.

Lemma interleaved_length (files : list UploadedFile) (blobs : list Blob) :
  length blobs = length files ->
  length (interleaved files blobs) = 2 * length files.
Proof.
  revert blobs; induction files as [|f fs IH]; intros [|b bs] H;
    simpl in *; try discriminate; [reflexivity|].
  unfold interleaved in *. rewrite (IH bs) by lia. lia.
Qed.

Lemma truthy_true (s : string) : s <> EmptyString -> JS.truthy s = true.
Proof. destruct s; [congruence | reflexivity]. Qed.

Lemma truthy_iff (s : string) : JS.truthy s = true <-> s <> EmptyString.
Proof. destruct s; simpl; split; congruence. Qed.

(** The projection of a history is the projection of each of its turns, in
    order; it throws as soon as the projection of one turn throws. *)
Lemma mapHistoryToGenAI_pointwise (history : list Message) (cs : list Content) :
  mapHistoryToGenAI history = Ok cs <->
  Forall2 (fun m c => mapMessage m = Ok c) history cs.
Proof.
  unfold mapHistoryToGenAI. revert cs.
  induction history as [|m h IH]; intros cs; simpl.
  - split; intros H; [inversion H; constructor | now inversion H].
  - destruct (mapMessage m) as [c|e] eqn:Hm; simpl.
    + destruct (rmap mapMessage h) as [cs'|e] eqn:Hh; simpl.
      * split; intros H.
        -- inversion H; subst. constructor; [exact Hm | now apply IH].
        -- inversion H as [|? c' ? cs'' Hc Hrest]; subst.
           apply IH in Hrest. congruence.
      * split; intros H; [discriminate|].
        inversion H as [|? c' ? cs'' Hc Hrest]; subst.
        apply IH in Hrest. discriminate.
    + split; intros H; [discriminate|].
      inversion H as [|? c' ? cs'' Hc Hrest]; subst. congruence.
Qed.

(** *** Data strings that can be taken apart *)

Lemma split_absent (sep : ascii) (s : string) :
  JS.contains sep s = false -> JS.split sep s = [s].
Proof.
  induction s as [|c s IH]; simpl; [reflexivity|].
  intros H. apply orb_false_iff in H. destruct H as [Hc Hs].
  now rewrite Hc, (IH Hs).
Qed.

Lemma split_at (sep : ascii) (a b : string) :
  JS.contains sep a = false ->
  JS.split sep (a ++ String sep b) = a :: JS.split sep b.
Proof.
  induction a as [|c a IH]; simpl.
  - intros _. now rewrite Ascii.eqb_refl.
  - intros H. apply orb_false_iff in H. destruct H as [Hc Ha].
    now rewrite Hc, (IH Ha).
Qed.

Lemma contains_app (c : ascii) (a b : string) :
  JS.contains c (a ++ b) = JS.contains c a || JS.contains c b.
Proof.
  induction a as [|c' a IH]; simpl; [reflexivity|].
  now rewrite IH, orb_assoc.
Qed.

Lemma string_app_assoc (a b c : string) :
  ((a ++ b) ++ c = a ++ (b ++ c))%string.
Proof. induction a as [|x a IH]; simpl; [reflexivity | now rewrite IH]. Qed.

(** A data string of the form [data:<mediaType>;base64,<payload>], where the
    media type holds no colon, semicolon or comma and the payload no comma,
    is taken apart into its media type and its payload. *)
Lemma splitData_dataUri (mediaType payload : string) :
  JS.contains ","%char mediaType = false ->
  JS.contains ":"%char mediaType = false ->
  JS.contains ";"%char mediaType = false ->
  JS.contains ","%char payload = false ->
  splitData (dataUri mediaType payload)
  = Ok {| mimeType := mediaType; data := Some payload |}.
Proof.
  intros Hcomma Hcolon Hsemi Hpay. unfold splitData, dataUri.
  assert (Hdata : ("data:" ++ mediaType ++ ";base64," ++ payload
                   = ("data:" ++ mediaType ++ ";base64")
                       ++ String ","%char payload)%string).
  { change ";base64,"%string with (";base64" ++ ",")%string.
    now rewrite !string_app_assoc. }
  rewrite Hdata, split_at, (split_absent _ payload Hpay).
  - cbn [hd nth_error].
    change ("data:" ++ mediaType ++ ";base64")%string
      with ("data" ++ String ":"%char (mediaType ++ ";base64"))%string.
    rewrite split_at by reflexivity.
    rewrite split_absent
      by (rewrite contains_app, Hcolon; reflexivity).
    cbn [nth_error].
    change (mediaType ++ ";base64")%string
      with (mediaType ++ String ";"%char "base64")%string.
    now rewrite split_at by exact Hsemi.
  - rewrite !contains_app, Hcomma. reflexivity.
Qed.

Lemma split_nonempty (sep : ascii) (s : string) : JS.split sep s <> [].
Proof.
  destruct s as [|c s]; simpl; [discriminate|].
  destruct (Ascii.eqb c sep); [discriminate|].
  destruct (JS.split sep s); discriminate.
Qed.

Lemma split_second (sep : ascii) (s : string) :
  nth_error (JS.split sep s) 1 <> None <-> JS.contains sep s = true.
Proof.
  induction s as [|c s IH]; simpl.
  - split; [intros H; now contradiction H | discriminate].
  - destruct (Ascii.eqb c sep); simpl.
    + split; [reflexivity|]. intros _.
      pose proof (split_nonempty sep s). destruct (JS.split sep s);
        [contradiction | discriminate].
    + pose proof (split_nonempty sep s) as Hne.
      destruct (JS.split sep s) as [|seg segs]; [contradiction|].
      exact IH.
Qed.

(** A data string can be taken apart exactly when it has a colon before its
    first comma. *)
Lemma splitData_ok_iff (d : string) :
  (exists b, splitData d = Ok b)
  <-> JS.contains ":"%char (hd EmptyString (JS.split ","%char d)) = true.
Proof.
  unfold splitData. rewrite <- split_second.
  destruct (nth_error (JS.split ":"%char (hd EmptyString (JS.split ","%char d))) 1)
    as [scheme|]; split.
  - discriminate.
  - intros _. eexists. reflexivity.
  - intros [b H]. discriminate.
  - intros H. now contradiction H.
Qed.

(** C1, as the code has it.  For a user turn with N >= 1 attachments and
    non-empty text, whenever every attachment's data string can be taken
    apart (it has a colon before its first comma), the projection of the
    turn is, in order, for each attachment its preface text part and then its
    data part, followed by one text part holding the turn's text: 2N+1 parts.
    When some data string cannot be taken apart, the projection throws.  A
    model turn, or a user turn without attachments, projects to one text part
    holding its text, and to no part when its text is empty. *)
Theorem mapHistoryToGenAI_turn (m : Message) :
  (forall fs,
      msg_role m = user -> msg_files m = Some fs -> fs <> [] ->
      msg_text m <> EmptyString ->
      (forall blobs,
          splitAll fs = Ok blobs ->
          mapHistoryToGenAI [m]
          = Ok [ {| role := Some user;
                    parts := interleaved fs blobs ++ [textPart (msg_text m)] |} ]
          /\ length (interleaved fs blobs ++ [textPart (msg_text m)])
             = 2 * length fs + 1)
      /\ (forall e, splitAll fs = Throw e -> mapHistoryToGenAI [m] = Throw e))
  /\ (msg_role m = model \/ msg_files m = None \/ msg_files m = Some [] ->
      mapHistoryToGenAI [m]
      = Ok [ {| role := Some (msg_role m);
                parts := if JS.truthy (msg_text m)
                         then [textPart (msg_text m)] else [] |} ]
      /\ (msg_text m = EmptyString -> mapMessage m
                                      = Ok {| role := Some (msg_role m);
                                              parts := [] |})).
Proof.
  split.
  - intros fs Hrole Hfiles Hne Htext.
    assert (Hbranch : isUser (msg_role m) && hasFiles m = true).
    { rewrite Hrole. unfold hasFiles. rewrite Hfiles.
      destruct fs; [congruence | reflexivity]. }
    split.
    + intros blobs Hsplit. split.
      * unfold mapHistoryToGenAI. simpl. unfold mapMessage.
        rewrite Hbranch. unfold filesOf. rewrite Hfiles.
        rewrite (pushFiles_ok fs blobs [] Hsplit). simpl.
        rewrite (truthy_true _ Htext), Hrole. reflexivity.
      * rewrite length_app, interleaved_length.
        -- simpl. lia.
        -- exact (rmap_length _ _ _ Hsplit).
    + intros e Hsplit. unfold mapHistoryToGenAI. simpl. unfold mapMessage.
      rewrite Hbranch. unfold filesOf. rewrite Hfiles.
      now rewrite (pushFiles_throw fs e [] Hsplit).
  - intros H.
    assert (Hbranch : isUser (msg_role m) && hasFiles m = false).
    { unfold hasFiles. destruct H as [H | [H | H]]; rewrite H.
      - reflexivity.
      - apply andb_false_r.
      - apply andb_false_r. }
    split.
    + unfold mapHistoryToGenAI. simpl. unfold mapMessage. rewrite Hbranch.
      reflexivity.
    + intros Hempty. unfold mapMessage. rewrite Hbranch, Hempty. reflexivity.
Qed.

(** A user turn with two well-formed attachments and text projects to five
    parts; a model turn that carries an image projects to its text alone. *)
Lemma mapHistoryToGenAI_turn_witness :
  mapHistoryToGenAI [Sample.userTurn (Some [Sample.png; Sample.pdf]) "look"]
  = Ok [ {| role := Some user;
            parts :=
              [ textPart (prefaceFor Sample.png);
                dataPart "image/png" (Some "AAAA");
                textPart (prefaceFor Sample.pdf);
                dataPart "application/pdf" (Some "BBBB");
                textPart "look" ] |} ]
  /\ mapHistoryToGenAI [Sample.modelTurn (Some [Sample.png]) "here"]
     = Ok [ {| role := Some model; parts := [textPart "here"] |} ].
Proof.
  split.
  - refine (proj1 (proj1 (proj1 (mapHistoryToGenAI_turn
                      (Sample.userTurn (Some [Sample.png; Sample.pdf]) "look"))
                    [Sample.png; Sample.pdf] eq_refl eq_refl _ _)
                   [ {| mimeType := "image/png"; data := Some "AAAA" |};
                     {| mimeType := "application/pdf"; data := Some "BBBB" |} ]
                   eq_refl)); discriminate.
  - apply (proj2 (mapHistoryToGenAI_turn
                    (Sample.modelTurn (Some [Sample.png]) "here"))).
    left. reflexivity.
Defined.

(** C1 as stated fails: a user turn with one attachment and non-empty text
    whose data string has no scheme delimiter has no projection at all. *)
Lemma mapHistoryToGenAI_malformed_attachment :
  let m := Sample.userTurn (Some [Sample.broken]) "look" in
  msg_role m = user
  /\ msg_files m = Some [Sample.broken]
  /\ msg_text m <> EmptyString
  /\ mapHistoryToGenAI [m] = Throw TypeError
  /\ ~ (exists cs, mapHistoryToGenAI [m] = Ok cs).
Proof.
  cbv zeta. repeat split; try reflexivity; try discriminate.
  intros [cs H]. vm_compute in H. discriminate.
Qed.

Lemma useSearchFlag_iff (settings : Settings) (sendMode : SendMode) :
  useSearchFlag settings sendMode = true
  <-> sendMode = ModeSearch
      \/ (sendMode = ModeDefault /\ useSearch settings = true).
Proof.
  unfold useSearchFlag.
  destruct sendMode, (useSearch settings); simpl; split; intros H;
    try reflexivity; try discriminate; auto;
    destruct H as [H | [H1 H2]]; discriminate.
Qed.

Lemma buildRequest_tools history newText newFiles settings sendMode req :
  buildRequest history newText newFiles settings sendMode = Ok req ->
  tools (gc_config req)
  = if useSearchFlag settings sendMode && (length newFiles =? 0)%nat
    then Some [googleSearch] else None.
Proof.
  unfold buildRequest. intros H.
  destruct (mapHistoryToGenAI history); simpl in H; [|discriminate].
  destruct (pushFiles newFiles []); simpl in H; [|discriminate].
  inversion H; subst. reflexivity.
Qed.

Lemma streamResponse_awaited history newText newFiles settings sendMode env k :
  awaited (logOf (streamResponse history newText newFiles settings sendMode env k))
  = match buildRequest history newText newFiles settings sendMode with
    | Ok req => [GenerateContentStream req]
    | Throw _ => []
    end.
Proof.
  unfold streamResponse, bind, lift, await_generateContentStream, logOf.
  destruct (buildRequest history newText newFiles settings sendMode);
    reflexivity.
Qed.

(** C2.  The effective search flag is true exactly when the mode is
    'search', or the mode is 'default' and [settings.useSearch] is true.  In
    every request that the builder produces, and so in every request that
    [streamResponse] sends, the search tool is enabled exactly when that flag
    is true and the new turn has no file; with a file it is never enabled,
    whatever the mode and the settings. *)
Theorem search_tool_enabled_iff
    (history : list Message) (newText : string) (newFiles : list UploadedFile)
    (settings : Settings) (sendMode : SendMode) :
  (useSearchFlag settings sendMode = true
   <-> sendMode = ModeSearch
       \/ (sendMode = ModeDefault /\ useSearch settings = true))
  /\ (forall req,
        buildRequest history newText newFiles settings sendMode = Ok req ->
        (searchEnabled req
         <-> useSearchFlag settings sendMode = true /\ newFiles = [])
        /\ (~ searchEnabled req -> tools (gc_config req) = None)
        /\ (newFiles <> [] -> tools (gc_config req) = None))
  /\ (forall env k req,
        In (GenerateContentStream req)
           (awaited (logOf (streamResponse history newText newFiles settings
                              sendMode env k))) ->
        buildRequest history newText newFiles settings sendMode = Ok req).
Proof.
  split; [apply useSearchFlag_iff|]. split.
  - intros req Hreq. unfold searchEnabled.
    rewrite (buildRequest_tools _ _ _ _ _ _ Hreq).
    destruct (useSearchFlag settings sendMode); destruct newFiles; simpl;
      repeat split; intros; try tauto; try congruence;
      try (destruct H; congruence).
  - intros env k req Hin. rewrite streamResponse_awaited in Hin.
    destruct (buildRequest history newText newFiles settings sendMode);
      simpl in Hin; [|contradiction].
    destruct Hin as [Hin | []]. now inversion Hin.
Qed.

(** In 'search' mode without files the request carries the search tool; with
    a file it does not, also when the settings prefer search. *)
Lemma search_tool_enabled_iff_witness :
  (forall req,
      buildRequest [] "query" [] Sample.settingsOff ModeSearch = Ok req ->
      searchEnabled req)
  /\ (forall req,
        buildRequest [] "describe this" [Sample.png] Sample.settingsOn
          ModeDefault = Ok req ->
        tools (gc_config req) = None)
  /\ (exists req,
        buildRequest [] "query" [] Sample.settingsOff ModeSearch = Ok req).
Proof.
  split; [|split].
  - intros req Hreq.
    apply (proj1 (proj2 (search_tool_enabled_iff
                           [] "query" [] Sample.settingsOff ModeSearch))
             req Hreq).
    split; reflexivity.
  - intros req Hreq.
    apply (proj1 (proj2 (search_tool_enabled_iff
                           [] "describe this" [Sample.png] Sample.settingsOn
                           ModeDefault)) req Hreq).
    discriminate.
  - eexists. reflexivity.
Defined.

(* ===================================================================== *)
(** ** Properties of the conversation store *)
(* ===================================================================== *)

Lemma run_app (l1 l2 : list Action) (s : Store) :
  run (l1 ++ l2) s = run l2 (run l1 s).
Proof. unfold run. apply fold_left_app. Qed.

Lemma find_map_id (f : Conversation -> Conversation) (id : string)
    (l : list Conversation) :
  (forall c, conv_id (f c) = conv_id c) ->
  find (fun c => conv_id c =? id) (map f l)
  = option_map f (find (fun c => conv_id c =? id) l).
Proof.
  intros Hid. induction l as [|c l IH]; simpl; [reflexivity|].
  rewrite Hid. destruct (conv_id c =? id); [reflexivity | exact IH].
Qed.

Lemma currentConversation_id (s : Store) (c : Conversation) :
  currentConversation s = Some c ->
  find (fun c' => conv_id c' =? conv_id c) (conversations s) = Some c.
Proof.
  unfold currentConversation. destruct (currentConversationId s) as [id|];
    [|discriminate].
  intros H. pose proof (find_some _ _ H) as [_ Heq].
  apply String.eqb_eq in Heq. now rewrite Heq.
Qed.

Lemma filter_id_absent (id : string) (prev : list Conversation) :
  Forall (fun c => conv_id c <> id)
         (filter (fun c => negb (conv_id c =? id)) prev).
Proof.
  apply Forall_forall. intros c Hin. apply filter_In in Hin.
  destruct Hin as [_ H]. intros Heq. apply String.eqb_eq in Heq.
  rewrite Heq in H. discriminate.
Qed.

Lemma map_absent (f : Conversation -> Conversation) (id : string)
    (prev : list Conversation) :
  Forall (fun c => conv_id c <> id) prev ->
  map (fun c => if conv_id c =? id then f c else c) prev = prev.
Proof.
  induction 1 as [|c l Hc _ IH]; simpl; [reflexivity|].
  apply String.eqb_neq in Hc. now rewrite Hc, IH.
Qed.

(** A patch or an append addressed to a conversation that is not in the
    list leaves the list as it is. *)
Lemma patch_absent convId messageId streamedText g prev :
  Forall (fun c => conv_id c <> convId) prev ->
  applyUpdater (UPatchMessage convId messageId streamedText g) prev = prev.
Proof. intros H. simpl. now apply map_absent. Qed.

Lemma append_absent convId m prev :
  Forall (fun c => conv_id c <> convId) prev ->
  applyUpdater (UAppendMessage convId m) prev = prev.
Proof. intros H. simpl. now apply map_absent. Qed.

(** The log of the streaming loop holds patches of one turn of one
    conversation, and nothing else. *)
Lemma streamLoop_patches convId modelMessage responseStream :
  forall streamedText env k,
    Forall (fun a => exists t g,
                a = SetConversations
                      (UPatchMessage convId (msg_id modelMessage) t g))
           (logOf (streamLoop convId modelMessage responseStream streamedText
                     env k)).
Proof.
  induction responseStream as [| e | chunk rest IH]; intros streamedText env k.
  - constructor.
  - constructor.
  - simpl. unfold bind, emit. simpl.
    specialize (IH (streamedText ++ JS.ofOpt (resp_text chunk))%string env k).
    destruct (streamLoop convId modelMessage rest _ env k) as [[l k'] r].
    simpl in *. constructor; [eauto | exact IH].
Qed.

Lemma patches_absent convId messageId (log : list Action) :
  Forall (fun a => exists t g,
              a = SetConversations (UPatchMessage convId messageId t g)) log ->
  forall s,
    Forall (fun c => conv_id c <> convId) (conversations s) ->
    run log s = s.
Proof.
  induction 1 as [|a l [t [g Ha]] _ IH]; intros s Hs; [reflexivity|].
  subst a. unfold run in *. cbn [fold_left].
  assert (Hstep : step s (SetConversations (UPatchMessage convId messageId t g))
                  = s).
  { unfold step. rewrite patch_absent by exact Hs. now destruct s. }
  rewrite Hstep. now apply IH.
Qed.

(** C5.  A streaming patch addressed to a conversation that is not in the
    list returns the list unchanged; so does it after the conversation has
    been deleted; and when a conversation is deleted at any point of the
    streaming loop, the patches that the loop still applies change nothing.
    The updaters are total functions: none of them can throw. *)
Theorem patch_after_delete_is_noop
    (convId messageId streamedText : string)
    (g : option (list GroundingChunk)) (prev : list Conversation) :
  (Forall (fun c => conv_id c <> convId) prev ->
   applyUpdater (UPatchMessage convId messageId streamedText g) prev = prev)
  /\ applyUpdater (UPatchMessage convId messageId streamedText g)
       (applyUpdater (UDeleteConversation convId) prev)
     = applyUpdater (UDeleteConversation convId) prev
  /\ (forall modelMessage responseStream acc env k before after s,
        logOf (streamLoop convId modelMessage responseStream acc env k)
        = before ++ after ->
        let deleted :=
          step (run before s) (SetConversations (UDeleteConversation convId)) in
        run after deleted = deleted).
Proof.
  split; [apply patch_absent|]. split.
  - apply patch_absent. simpl. apply filter_id_absent.
  - intros modelMessage responseStream acc env k before after s Hlog deleted.
    pose proof (streamLoop_patches convId modelMessage responseStream acc env k)
      as Hall.
    rewrite Hlog in Hall. apply Forall_app in Hall. destruct Hall as [_ Hafter].
    apply (patches_absent _ _ _ Hafter). subst deleted. simpl.
    apply filter_id_absent.
Qed.

(** The second of two fragments arrives after the conversation was deleted:
    the store stays as the deletion left it. *)
Lemma patch_after_delete_is_noop_witness :
  let log :=
    logOf (streamLoop "conv-1" (botMessage "-bot" 102 103 EmptyString None (Some []))
             (StreamChunk (Sample.fragment "a" (Some [Sample.source]))
                (StreamChunk (Sample.fragment "b" None) StreamEnd))
             EmptyString Sample.env 0) in
  let deleted :=
    step (run (firstn 1 log) Sample.store1)
         (SetConversations (UDeleteConversation "conv-1")) in
  conversations deleted = [Sample.conv2]
  /\ run (skipn 1 log) deleted = deleted.
Proof.
  split; [reflexivity|].
  exact (proj2 (proj2 (patch_after_delete_is_noop
                         "conv-1" EmptyString EmptyString None []))
           (botMessage "-bot" 102 103 EmptyString None (Some []))
           (StreamChunk (Sample.fragment "a" (Some [Sample.source]))
              (StreamChunk (Sample.fragment "b" None) StreamEnd))
           EmptyString Sample.env 0 _ _ Sample.store1 eq_refl).
Defined.

(** C10.  [handleDeleteConversation] removes the conversation from the list.
    When it is the active one, the active id becomes the id of the first
    conversation that remains, or none when none remains; otherwise the
    active id is unchanged. *)
Theorem delete_reassigns_active (s : Store) (id : string) (env : Env) (k : nat) :
  let out := handleDeleteConversation s id env k in
  let s' := run (logOf out) s in
  let remaining := filter (fun c => negb (conv_id c =? id)) (conversations s) in
  resultOf out = Ok tt
  /\ conversations s' = remaining
  /\ (currentConversationId s = Some id ->
      currentConversationId s' = option_map conv_id (hd_error remaining))
  /\ (currentConversationId s <> Some id ->
      currentConversationId s' = currentConversationId s).
Proof.
  cbv zeta. unfold handleDeleteConversation, bind, emit, logOf, resultOf.
  destruct (currentConversationId s) as [cur|] eqn:Hcur.
  - destruct (cur =? id) eqn:Heq; unfold run; cbn.
    + apply String.eqb_eq in Heq. subst cur. repeat split.
      * intros _. now destruct (filter _ (conversations s)).
      * congruence.
    + rewrite Hcur. repeat split.
      intros H. inversion H; subst. rewrite String.eqb_refl in Heq.
      discriminate.
  - unfold run; cbn. rewrite Hcur. repeat split. discriminate.
Qed.

(* ===================================================================== *)
(** ** What the asynchronous functions emit *)
(* ===================================================================== *)

Section Emits.

Variable P : Action -> Prop.

Lemma emits_ret {A} (a : A) : emits P (ret a).
Proof. intros env k. constructor. Qed.

Lemma emits_throw {A} (e : Error) : emits P (@throw A e).
Proof. intros env k. constructor. Qed.

Lemma emits_lift {A} (r : result A) : emits P (lift r).
Proof. intros env k. constructor. Qed.

Lemma emits_now : emits P now.
Proof. intros env k. constructor. Qed.

Lemma emits_emit (a : Action) : P a -> emits P (emit a).
Proof. intros Ha env k. repeat constructor. exact Ha. Qed.

Lemma emits_bind {A B} (m : M A) (f : A -> M B) :
  emits P m -> (forall a, emits P (f a)) -> emits P (bind m f).
Proof.
  intros Hm Hf env k. unfold bind, logOf.
  specialize (Hm env k). unfold logOf in Hm.
  destruct (m env k) as [[l1 k1] [a|e]]; simpl in *; [|exact Hm].
  specialize (Hf a env k1). unfold logOf in Hf.
  destruct (f a env k1) as [[l2 k2] r2]; simpl in *.
  apply Forall_app. split; assumption.
Qed.

Lemma emits_tryCatch {A} (body : M A) (handler : Error -> M A) :
  emits P body -> (forall e, emits P (handler e)) ->
  emits P (tryCatch body handler).
Proof.
  intros Hm Hf env k. unfold tryCatch, logOf.
  specialize (Hm env k). unfold logOf in Hm.
  destruct (body env k) as [[l1 k1] [a|e]]; simpl in *; [exact Hm|].
  specialize (Hf e env k1). unfold logOf in Hf.
  destruct (handler e env k1) as [[l2 k2] r2]; simpl in *.
  apply Forall_app. split; assumption.
Qed.

End Emits.

Lemma editLoop_silent prompt imageFile ps :
  forall responseText newImageFile env k,
    logOf (editLoop prompt imageFile ps responseText newImageFile env k) = [].
Proof.
  induction ps as [|part rest IH]; intros responseText newImageFile env k;
    simpl; [reflexivity|].
  destruct (JS.truthyOpt (text part)); [apply IH|].
  destruct (inlineData part) as [blob|]; [|apply IH].
  unfold bind, now; simpl.
  destruct (data blob) as [b|]; [|reflexivity].
  specialize (IH responseText
                (Some (editedFile prompt imageFile (clock env k) (mimeType blob) b))
                env (S k)).
  unfold logOf in *.
  destruct (editLoop prompt imageFile rest responseText _ env (S k))
    as [[l k'] r]. simpl in *. now subst.
Qed.

Lemma emits_editLoop P prompt imageFile ps responseText newImageFile :
  emits P (editLoop prompt imageFile ps responseText newImageFile).
Proof. intros env k. rewrite editLoop_silent. constructor. Qed.

Lemma emits_await_generateImages (P : Action -> Prop) req :
  (forall c, P (Await c)) -> emits P (await_generateImages req).
Proof. intros HP env k. repeat constructor. apply HP. Qed.

Lemma emits_await_generateContent (P : Action -> Prop) req :
  (forall c, P (Await c)) -> emits P (await_generateContent req).
Proof. intros HP env k. repeat constructor. apply HP. Qed.

Lemma emits_await_generateContentStream (P : Action -> Prop) req :
  (forall c, P (Await c)) -> emits P (await_generateContentStream req).
Proof. intros HP env k. repeat constructor. apply HP. Qed.

Create HintDb emits.
#[local] Hint Resolve emits_ret emits_throw emits_lift emits_now emits_editLoop
  emits_await_generateImages emits_await_generateContent
  emits_await_generateContentStream : emits.

(** One step through a computation written with [bind]: split at the bind,
    or close the goal with a lemma on a primitive. *)
Ltac emits_step :=
  first [ solve [auto with emits]
        | apply emits_emit; solve [exact I | reflexivity | auto]
        | apply emits_bind; [| intros ?] ].

Lemma emits_editImage (P : Action -> Prop) prompt imageFile :
  (forall c, P (Await c)) -> emits P (editImage prompt imageFile).
Proof.
  intros HP. unfold editImage.
  apply emits_bind; [auto with emits | intros b].
  apply emits_bind; [auto with emits | intros response].
  apply emits_bind; [| intros ps].
  - destruct (candidates response) as [[|c cs]|]; auto with emits.
    destruct (content c); auto with emits.
  - apply emits_bind; [auto with emits | intros [responseText [f|]]];
      auto with emits.
Qed.

Lemma emits_generateImage (P : Action -> Prop) prompt :
  (forall c, P (Await c)) -> emits P (generateImage prompt).
Proof.
  intros HP. unfold generateImage.
  apply emits_bind; [auto with emits | intros response].
  destruct (generatedImages response); repeat emits_step.
Qed.

Lemma emits_streamResponse (P : Action -> Prop) history text files settings mode :
  (forall c, P (Await c)) ->
  emits P (streamResponse history text files settings mode).
Proof. intros HP. unfold streamResponse. repeat emits_step. Qed.

Lemma emits_streamLoop (P : Action -> Prop) convId modelMessage responseStream acc :
  (forall id mid t g, P (SetConversations (UPatchMessage id mid t g))) ->
  emits P (streamLoop convId modelMessage responseStream acc).
Proof.
  intros HP env k.
  eapply Forall_impl; [|apply streamLoop_patches].
  intros a [t [g Ha]]. subst a. apply HP.
Qed.

#[local] Hint Resolve emits_editImage emits_generateImage emits_streamResponse
  emits_streamLoop : emits.

Lemma benign_await (c : BackendCall) : benign (Await c).
Proof. exact I. Qed.

Lemma benign_patch id mid t g :
  benign (SetConversations (UPatchMessage id mid t g)).
Proof. exact I. Qed.

#[local] Hint Resolve benign_await benign_patch : emits.

(** The [try] and [catch] blocks of the send handlers emit benign actions
    only: they never touch the response-in-flight flag or the active id, and
    they change the conversation list only by appending or patching a turn. *)
Lemma sendBody_benign history convId text files settings sendMode :
  emits benign (sendBody history convId text files settings sendMode).
Proof.
  unfold sendBody.
  assert (Hgen : emits benign (imageGenerateBranch convId text))
    by (unfold imageGenerateBranch; repeat emits_step).
  destruct (isImageMode sendMode).
  - destruct files as [|file0 rest]; [exact Hgen|].
    destruct (JS.startsWith "image/" (file_type file0)); [|exact Hgen].
    unfold imageEditBranch.
    apply emits_bind; [auto with emits | intros [rt ef]].
    repeat emits_step.
  - unfold streamBranch. repeat emits_step.
Qed.

Lemma editBody_benign convId prompt fileToEdit :
  emits benign (editBody convId prompt fileToEdit).
Proof.
  unfold editBody.
  apply emits_bind; [auto with emits | intros [rt ef]].
  repeat emits_step.
Qed.

Lemma catchBlock_run label errorMessage convId e env k :
  catchBlock label errorMessage convId e env k
  = ([ ConsoleError label e;
       SetConversations
         (UAppendMessage convId
            (errorBotMessage (clock env k) (clock env (S k)) errorMessage)) ],
     S (S k), Ok tt).
Proof. reflexivity. Qed.

Lemma catchBlock_benign label errorMessage convId e :
  emits benign (catchBlock label errorMessage convId e).
Proof. intros env k. rewrite catchBlock_run. repeat constructor. Qed.

(** A guarded block, [try { body } catch { ... } finally { ... }], settles
    without an exception; its log is the log of the body, then the log of
    the [catch] block when the body threw, then the reset of the flag. *)
Lemma guarded_run (body : M unit) label errorMessage convId env k :
  tryFinally (tryCatch body (catchBlock label errorMessage convId))
    (emit (SetIsThinking false)) env k
  = match resultOf (body env k) with
    | Ok _ =>
        (logOf (body env k) ++ [SetIsThinking false],
         tickOf (body env k), Ok tt)
    | Throw e =>
        (logOf (body env k)
         ++ [ ConsoleError label e;
              SetConversations
                (UAppendMessage convId
                   (errorBotMessage (clock env (tickOf (body env k)))
                      (clock env (S (tickOf (body env k)))) errorMessage));
              SetIsThinking false ],
         S (S (tickOf (body env k))), Ok tt)
    end.
Proof.
  unfold tryFinally, tryCatch, emit, logOf, tickOf, resultOf.
  destruct (body env k) as [[l k1] [[]|e]]; simpl; [reflexivity|].
  now rewrite <- app_assoc.
Qed.

(* ===================================================================== *)
(** ** The shape of a send *)
(* ===================================================================== *)

Lemma filesForUserMessage_eq (sendMode : SendMode) (files : list UploadedFile) :
  (if isImageMode sendMode && (length files =? 0)%nat then [] else files) = files.
Proof. destruct files; [destruct (isImageMode sendMode)|rewrite andb_false_r]; reflexivity. Qed.

(** The prologue of a send on an existing conversation. *)
Lemma sendPrologue_existing s text files sendMode env k c :
  currentConversation s = Some c ->
  sendPrologue s text files sendMode env k
  = ([ SetConversations
         (UUserMessage (conv_id c)
            (userMessage (clock env k) (clock env (S k)) text files) text);
       SetIsThinking true ],
     S (S k), Ok c).
Proof.
  intros Hc. unfold sendPrologue, resolveConversation. rewrite Hc.
  unfold bind, ret, now, emit. simpl.
  now rewrite filesForUserMessage_eq.
Qed.

(** The prologue of a send when no conversation is active. *)
Lemma sendPrologue_new s text files sendMode env k :
  currentConversation s = None ->
  let c := {| conv_id := "conv-" ++ JS.ofNumber (clock env k);
              conv_title := titleFrom text;
              conv_messages := [];
              conv_createdAt := clock env (S k) |} in
  sendPrologue s text files sendMode env k
  = ([ SetCurrentConversationId (Some (conv_id c));
       SetConversations
         (UPrepend
            (withMessages c
               [userMessage (clock env (S (S k))) (clock env (S (S (S k))))
                  text files]));
       SetIsThinking true ],
     S (S (S (S k))), Ok c).
Proof.
  intros Hc. unfold sendPrologue, resolveConversation. rewrite Hc.
  unfold bind, ret, now, emit. simpl.
  now rewrite filesForUserMessage_eq.
Qed.

Lemma sendPrologue_ok s text files sendMode env k :
  exists conv, resultOf (sendPrologue s text files sendMode env k) = Ok conv.
Proof.
  destruct (currentConversation s) as [c|] eqn:Hc.
  - rewrite (sendPrologue_existing _ _ _ _ _ _ _ Hc). now exists c.
  - rewrite (sendPrologue_new _ _ _ _ _ _ Hc). eexists. reflexivity.
Qed.

(** What the prologue emits: no backend request, no model turn, and one
    write of the flag, at its end. *)
Lemma sendPrologue_shape s text files sendMode env k :
  exists pre,
    logOf (sendPrologue s text files sendMode env k) = pre ++ [SetIsThinking true]
    /\ awaited pre = [] /\ thinkingWrites pre = [] /\ modelTurnsAdded pre = [].
Proof.
  destruct (currentConversation s) as [c|] eqn:Hc.
  - rewrite (sendPrologue_existing _ _ _ _ _ _ _ Hc).
    eexists [_]. repeat split.
  - rewrite (sendPrologue_new _ _ _ _ _ _ Hc).
    eexists [_; _]. repeat split.
Qed.

(** A send is its prologue followed by its guarded block. *)
Lemma handleSendMessage_run s settings text files sendMode env k conv :
  resultOf (sendPrologue s text files sendMode env k) = Ok conv ->
  let p := sendPrologue s text files sendMode env k in
  let g := tryFinally
             (tryCatch
                (sendBody (conv_messages conv) (conv_id conv) text files
                   settings sendMode)
                (catchBlock "Error processing message:" apologySend
                   (conv_id conv)))
             (emit (SetIsThinking false)) env (tickOf p) in
  handleSendMessage s settings text files sendMode env k
  = (logOf p ++ logOf g, tickOf g, resultOf g).
Proof.
  intros Hp. cbv zeta. unfold handleSendMessage, bind.
  unfold resultOf, logOf, tickOf in *.
  destruct (sendPrologue s text files sendMode env k) as [[lp kp] rp].
  simpl in *. subst rp.
  destruct (tryFinally _ _ env kp) as [[lg kg] rg]. reflexivity.
Qed.

Lemma handleEditImage_run s prompt fileToEdit env k conv :
  currentConversation s = Some conv ->
  let g := tryFinally
             (tryCatch (editBody (conv_id conv) prompt fileToEdit)
                (catchBlock "Error editing image:" apologyEdit (conv_id conv)))
             (emit (SetIsThinking false)) env (S (S k)) in
  handleEditImage s prompt fileToEdit env k
  = ([ SetConversations
         (UAppendMessage (conv_id conv)
            (userMessage (clock env k) (clock env (S k)) prompt [fileToEdit]));
       SetIsThinking true ] ++ logOf g,
     tickOf g, resultOf g).
Proof.
  intros Hc. cbv zeta. unfold handleEditImage. rewrite Hc.
  unfold bind, now, emit. simpl.
  unfold resultOf, logOf, tickOf.
  destruct (tryFinally _ _ env (S (S k))) as [[lg kg] rg]. reflexivity.
Qed.

Lemma logOf_mk {A} l k (r : result A) : logOf (l, k, r) = l.
Proof. reflexivity. Qed.

Lemma resultOf_mk {A} (l : list Action) (k : nat) (r : result A) :
  resultOf (l, k, r) = r.
Proof. reflexivity. Qed.

(** *** Observations distribute over concatenation *)

Lemma awaited_app l1 l2 : awaited (l1 ++ l2) = awaited l1 ++ awaited l2.
Proof.
  induction l1 as [|a l1 IH]; simpl; [reflexivity|].
  destruct a; simpl; now rewrite IH.
Qed.

Lemma thinkingWrites_app l1 l2 :
  thinkingWrites (l1 ++ l2) = thinkingWrites l1 ++ thinkingWrites l2.
Proof.
  induction l1 as [|a l1 IH]; simpl; [reflexivity|].
  destruct a; simpl; now rewrite IH.
Qed.

Lemma added_app l1 l2 : added (l1 ++ l2) = added l1 ++ added l2.
Proof. unfold added. apply flat_map_app. Qed.

Lemma modelTurnsAdded_app l1 l2 :
  modelTurnsAdded (l1 ++ l2) = modelTurnsAdded l1 ++ modelTurnsAdded l2.
Proof. unfold modelTurnsAdded. now rewrite added_app, filter_app. Qed.

Lemma last_cons_default {A} (l : list A) :
  forall x d1 d2, last (x :: l) d1 = last (x :: l) d2.
Proof.
  induction l as [|y l IH]; intros x d1 d2; [reflexivity|].
  change (last (y :: l) d1 = last (y :: l) d2). apply IH.
Qed.

Lemma flagAtAwaits_app flag l1 l2 :
  flagAtAwaits flag (l1 ++ l2)
  = flagAtAwaits flag l1 ++ flagAtAwaits (last (thinkingWrites l1) flag) l2.
Proof.
  revert flag; induction l1 as [|a l1 IH]; intros flag; simpl; [reflexivity|].
  destruct a; simpl; rewrite IH; try reflexivity.
  destruct (thinkingWrites l1) as [|b0 l] eqn:E; [reflexivity|].
  now rewrite (last_cons_default l b0 flag b).
Qed.

Lemma isThinking_run l s :
  isThinking (run l s) = last (thinkingWrites l) (isThinking s).
Proof.
  unfold run. revert s; induction l as [|a l IH]; intros s; simpl;
    [reflexivity|].
  rewrite IH. destruct a; simpl; try reflexivity.
  destruct (thinkingWrites l) as [|b0 l']; [reflexivity|].
  apply last_cons_default.
Qed.

Lemma benign_thinkingWrites l : Forall benign l -> thinkingWrites l = [].
Proof.
  induction 1 as [|a l Ha _ IH]; [reflexivity|].
  destruct a as [[]| | | |]; simpl in *; try contradiction; exact IH.
Qed.

Lemma benign_flagAtAwaits flag l :
  Forall benign l -> Forall (eq flag) (flagAtAwaits flag l).
Proof.
  induction 1 as [|a l Ha _ IH]; [constructor|].
  destruct a as [[]| | | |]; simpl in *; try contradiction;
    try exact IH. constructor; [reflexivity | exact IH].
Qed.

(** The log of a guarded block whose body and handler are benign. *)
Lemma guarded_shape (body : M unit) label errorMessage convId env k :
  emits benign body ->
  exists mid,
    logOf (tryFinally (tryCatch body (catchBlock label errorMessage convId))
             (emit (SetIsThinking false)) env k)
    = mid ++ [SetIsThinking false]
    /\ Forall benign mid
    /\ resultOf (tryFinally (tryCatch body (catchBlock label errorMessage convId))
                   (emit (SetIsThinking false)) env k) = Ok tt.
Proof.
  intros Hb. rewrite guarded_run. specialize (Hb env k).
  destruct (resultOf (body env k)) as [[]|e].
  - exists (logOf (body env k)). repeat split. exact Hb.
  - exists (logOf (body env k)
            ++ [ ConsoleError label e;
                 SetConversations
                   (UAppendMessage convId
                      (errorBotMessage (clock env (tickOf (body env k)))
                         (clock env (S (tickOf (body env k)))) errorMessage)) ]).
    repeat split.
    + unfold logOf at 1. simpl. now rewrite <- app_assoc.
    + apply Forall_app. split; [exact Hb | repeat constructor].
Qed.

Lemma flagAtAwaits_no_await flag l : awaited l = [] -> flagAtAwaits flag l = [].
Proof.
  revert flag; induction l as [|a l IH]; intros flag H; [reflexivity|].
  destruct a; simpl in *; try discriminate; now apply IH.
Qed.

(** The flag through a log made of a prologue that ends by setting the flag
    and a guarded block. *)
Lemma bracket_shape pre mid flag0 :
  awaited pre = [] -> thinkingWrites pre = [] -> Forall benign mid ->
  let log := (pre ++ [SetIsThinking true]) ++ (mid ++ [SetIsThinking false]) in
  thinkingWrites log = [true; false]
  /\ Forall (eq true) (flagAtAwaits flag0 log)
  /\ (forall s0, isThinking (run log s0) = false).
Proof.
  intros Hpa Hpt Hmid log. subst log.
  assert (Ht : thinkingWrites
                 ((pre ++ [SetIsThinking true]) ++ mid ++ [SetIsThinking false])
               = [true; false]).
  { rewrite !thinkingWrites_app, Hpt, (benign_thinkingWrites _ Hmid).
    reflexivity. }
  split; [exact Ht|]. split.
  - rewrite (flagAtAwaits_app flag0 (pre ++ [SetIsThinking true])).
    rewrite thinkingWrites_app, Hpt. cbn [app thinkingWrites last].
    rewrite (flagAtAwaits_app flag0 pre), (flagAtAwaits_no_await _ _ Hpa).
    cbn [flagAtAwaits app].
    rewrite (flagAtAwaits_app true mid). cbn [flagAtAwaits].
    rewrite app_nil_r. now apply benign_flagAtAwaits.
  - intros s0. rewrite isThinking_run, Ht. reflexivity.
Qed.

(** C8.  Every send sets the response-in-flight flag once and clears it
    once, in this order; every backend request of the send is made while the
    flag is set; the send settles without an exception, whether its backend
    operation succeeded or failed, and then the flag is clear.  The same
    holds for the editing shortcut, which does something only when a
    conversation is active. *)
Theorem response_in_flight_bracket
    (s : Store) (settings : Settings) (text : string)
    (files : list UploadedFile) (sendMode : SendMode)
    (prompt : string) (fileToEdit : UploadedFile)
    (env : Env) (k : nat) (flag0 : bool) :
  (let out := handleSendMessage s settings text files sendMode env k in
   resultOf out = Ok tt
   /\ thinkingWrites (logOf out) = [true; false]
   /\ Forall (eq true) (flagAtAwaits flag0 (logOf out))
   /\ (forall s0, isThinking (run (logOf out) s0) = false))
  /\ (currentConversation s <> None ->
      let out := handleEditImage s prompt fileToEdit env k in
      resultOf out = Ok tt
      /\ thinkingWrites (logOf out) = [true; false]
      /\ Forall (eq true) (flagAtAwaits flag0 (logOf out))
      /\ (forall s0, isThinking (run (logOf out) s0) = false)).
Proof.
  split.
  - cbv zeta.
    destruct (sendPrologue_ok s text files sendMode env k) as [conv Hconv].
    rewrite (handleSendMessage_run _ _ _ _ _ _ _ _ Hconv).
    destruct (sendPrologue_shape s text files sendMode env k)
      as [pre [Hpre [Hpa [Hpt _]]]].
    destruct (guarded_shape
                (sendBody (conv_messages conv) (conv_id conv) text files
                   settings sendMode)
                "Error processing message:" apologySend (conv_id conv) env
                (tickOf (sendPrologue s text files sendMode env k))
                (sendBody_benign _ _ _ _ _ _))
      as [mid [Hmid [Hben Hres]]].
    rewrite !logOf_mk, resultOf_mk, Hpre, Hmid.
    split; [exact Hres|]. now apply bracket_shape.
  - intros Hcur. cbv zeta.
    destruct (currentConversation s) as [conv|] eqn:Hc; [|congruence].
    rewrite (handleEditImage_run _ _ _ _ _ _ Hc).
    destruct (guarded_shape (editBody (conv_id conv) prompt fileToEdit)
                "Error editing image:" apologyEdit (conv_id conv) env
                (S (S k)) (editBody_benign _ _ _))
      as [mid [Hmid [Hben Hres]]].
    rewrite !logOf_mk, resultOf_mk, Hmid.
    split; [exact Hres|].
    apply (bracket_shape
             [SetConversations
                (UAppendMessage (conv_id conv)
                   (userMessage (clock env k) (clock env (S k)) prompt
                      [fileToEdit]))] mid flag0); auto.
Qed.

(** A streamed send and an edit against a failing backend: in both, the flag
    is set at the one request and is clear at the end. *)
Lemma response_in_flight_bracket_witness :
  (let out := handleSendMessage Sample.store1 Sample.settingsOn "query" []
                ModeSearch Sample.env 0 in
   flagAtAwaits false (logOf out) = [true]
   /\ isThinking (run (logOf out) Sample.store1) = false)
  /\ (let out := handleEditImage Sample.store1 "brighter" Sample.png
                   (Sample.failing NoImageReturned) 0 in
      resultOf out = Ok tt
      /\ thinkingWrites (logOf out) = [true; false]
      /\ flagAtAwaits false (logOf out) = [true]).
Proof.
  pose proof (response_in_flight_bracket Sample.store1 Sample.settingsOn
                "query" [] ModeSearch "brighter" Sample.png Sample.env 0 false)
    as [Hsend _].
  pose proof (response_in_flight_bracket Sample.store1 Sample.settingsOn
                "query" [] ModeSearch "brighter" Sample.png
                (Sample.failing NoImageReturned) 0 false)
    as [_ Hedit].
  split.
  - split; [reflexivity|]. apply Hsend.
  - assert (Hcur : currentConversation Sample.store1 <> None) by discriminate.
    destruct (Hedit Hcur) as [H1 [H2 _]].
    split; [exact H1|]. split; [exact H2|]. reflexivity.
Defined.

(* ===================================================================== *)
(** ** Failure of the backend operation *)
(* ===================================================================== *)

Lemma logOf_bind {A B} (m : M A) (f : A -> M B) env k :
  logOf (bind m f env k)
  = logOf (m env k)
    ++ match resultOf (m env k) with
       | Ok a => logOf (f a env (tickOf (m env k)))
       | Throw _ => []
       end.
Proof.
  unfold bind, logOf, resultOf, tickOf.
  destruct (m env k) as [[l1 k1] [a|e]]; simpl.
  - now destruct (f a env k1) as [[l2 k2] r2].
  - now rewrite app_nil_r.
Qed.

Lemma resultOf_bind {A B} (m : M A) (f : A -> M B) env k :
  resultOf (bind m f env k)
  = match resultOf (m env k) with
    | Ok a => resultOf (f a env (tickOf (m env k)))
    | Throw e => Throw e
    end.
Proof.
  unfold bind, resultOf, tickOf.
  destruct (m env k) as [[l1 k1] [a|e]]; simpl; [|reflexivity].
  now destruct (f a env k1) as [[l2 k2] r2].
Qed.

Lemma silent_added (l : list Action) :
  Forall (fun a => addedBy a = []) l -> added l = [].
Proof.
  induction 1 as [|a l Ha _ IH]; [reflexivity|].
  unfold added in *. simpl. now rewrite Ha, IH.
Qed.

(** An image branch appends its model turn as its last step: when the
    branch throws, it has added no turn. *)
Lemma imageGenerateBranch_throw convId text env k e :
  resultOf (imageGenerateBranch convId text env k) = Throw e ->
  added (logOf (imageGenerateBranch convId text env k)) = [].
Proof.
  intros H. unfold imageGenerateBranch in *. rewrite resultOf_bind in H.
  rewrite logOf_bind.
  destruct (resultOf (generateImage text env k)) as [f|] eqn:E.
  - discriminate.
  - rewrite app_nil_r.
    apply silent_added. apply emits_generateImage. reflexivity.
Qed.

Lemma imageEditBranch_throw convId text file0 env k e :
  resultOf (imageEditBranch convId text file0 env k) = Throw e ->
  added (logOf (imageEditBranch convId text file0 env k)) = [].
Proof.
  intros H. unfold imageEditBranch in *. rewrite resultOf_bind in H.
  rewrite logOf_bind.
  destruct (resultOf (editImage text file0 env k)) as [[rt ef]|] eqn:E.
  - discriminate.
  - rewrite app_nil_r.
    apply silent_added. apply emits_editImage. reflexivity.
Qed.

Lemma editBody_throw convId prompt fileToEdit env k e :
  resultOf (editBody convId prompt fileToEdit env k) = Throw e ->
  added (logOf (editBody convId prompt fileToEdit env k)) = [].
Proof.
  intros H. unfold editBody in *. rewrite resultOf_bind in H.
  rewrite logOf_bind.
  destruct (resultOf (editImage prompt fileToEdit env k)) as [[rt ef]|] eqn:E.
  - discriminate.
  - rewrite app_nil_r.
    apply silent_added. apply emits_editImage. reflexivity.
Qed.

(** The streaming branch adds its empty model turn, and no other turn. *)
Lemma streamBranch_added history convId text files settings sendMode env k :
  added (logOf (streamBranch history convId text files settings sendMode env k))
  = [botMessage "-bot" (clock env k) (clock env (S k)) EmptyString None (Some [])].
Proof.
  unfold streamBranch.
  rewrite logOf_bind. simpl. rewrite logOf_bind. simpl.
  rewrite logOf_bind. simpl tickOf. simpl resultOf.
  change (logOf (emit ?a env ?k)) with [a]. rewrite added_app.
  rewrite (silent_added (logOf _)); [reflexivity|].
  apply emits_bind.
  - apply emits_streamResponse. reflexivity.
  - intros st. apply emits_streamLoop. reflexivity.
Qed.

(** When the [try] block of a send throws, the turns it has added have an
    empty text: the streaming branch has added its empty model turn, the
    image branches have added nothing. *)
Lemma sendBody_throw_added history convId text files settings sendMode env k e :
  resultOf (sendBody history convId text files settings sendMode env k)
  = Throw e ->
  Forall (fun m => msg_text m = EmptyString)
         (added (logOf (sendBody history convId text files settings sendMode
                          env k))).
Proof.
  unfold sendBody. destruct (isImageMode sendMode).
  - destruct files as [|file0 rest].
    + intros H. rewrite (imageGenerateBranch_throw _ _ _ _ _ H). constructor.
    + destruct (JS.startsWith "image/" (file_type file0)); intros H.
      * rewrite (imageEditBranch_throw _ _ _ _ _ _ H). constructor.
      * rewrite (imageGenerateBranch_throw _ _ _ _ _ H). constructor.
  - intros _. rewrite streamBranch_added. repeat constructor.
Qed.

Lemma no_apology_among_empty (t : string) (l : list Message) :
  t <> EmptyString ->
  Forall (fun m => msg_text m = EmptyString) l ->
  filter (fun m => msg_text m =? t) (filter isModel l) = [].
Proof.
  intros Ht. induction 1 as [|m l Hm _ IH]; [reflexivity|].
  simpl. destruct (isModel m); [|exact IH].
  simpl. rewrite Hm.
  destruct (EmptyString =? t) eqn:E; [|exact IH].
  apply String.eqb_eq in E. congruence.
Qed.

(** *** Where an appended turn lands *)

Lemma appendTo_id (id : string) (m : Message) (c : Conversation) :
  conv_id (if conv_id c =? id
           then withMessages c (conv_messages c ++ [m]) else c)
  = conv_id c.
Proof. destruct (conv_id c =? id); reflexivity. Qed.

Lemma append_lands (id : string) (m : Message) (s : Store) (c : Conversation) :
  convOf id s = Some c ->
  convOf id (step s (SetConversations (UAppendMessage id m)))
  = Some (withMessages c (conv_messages c ++ [m])).
Proof.
  unfold convOf. intros Hc. cbn [step conversations applyUpdater].
  rewrite find_map_id by (intros; apply appendTo_id).
  rewrite Hc. simpl. apply find_some in Hc. destruct Hc as [_ Hid].
  now rewrite Hid.
Qed.

Lemma benign_present (id : string) (l : list Action) :
  Forall benign l ->
  forall s c, convOf id s = Some c -> exists c', convOf id (run l s) = Some c'.
Proof.
  unfold run. induction 1 as [|a l Ha _ IH]; intros s c Hc; [now exists c|].
  cbn [fold_left].
  assert (Hstep : exists c1, convOf id (step s a) = Some c1).
  { destruct a as [[]| | | |]; simpl in Ha; try contradiction;
      try (now exists c); unfold convOf in *;
      cbn [step conversations applyUpdater];
      (rewrite find_map_id;
       [rewrite Hc; simpl; eauto
       |intros c0; destruct (conv_id c0 =? convId); reflexivity]). }
  destruct Hstep as [c1 Hc1]. exact (IH _ _ Hc1).
Qed.

Lemma sendPrologue_present s text files sendMode env k conv :
  resultOf (sendPrologue s text files sendMode env k) = Ok conv ->
  exists c,
    convOf (conv_id conv)
      (run (logOf (sendPrologue s text files sendMode env k)) s) = Some c.
Proof.
  destruct (currentConversation s) as [c0|] eqn:Hc.
  - rewrite (sendPrologue_existing _ _ _ _ _ _ _ Hc). intros H.
    rewrite resultOf_mk in H. inversion H; subst conv.
    rewrite logOf_mk. unfold run, convOf.
    cbn [fold_left step conversations applyUpdater].
    rewrite find_map_id.
    + rewrite (currentConversation_id _ _ Hc). simpl. eauto.
    + intros c'. unfold updateWithUserMessage.
      destruct (conv_id c' =? conv_id c0); reflexivity.
  - pose proof (sendPrologue_new s text files sendMode env k Hc) as Hp.
    cbv zeta in Hp. rewrite Hp. intros H.
    rewrite resultOf_mk in H. inversion H; subst conv.
    rewrite logOf_mk. unfold run, convOf.
    cbn [fold_left step conversations applyUpdater find withMessages conv_id].
    rewrite String.eqb_refl. eauto.
Qed.

(** A log that ends by reporting an error, appending a turn to a
    conversation that is present, and clearing the flag: the turn is then
    the last one of that conversation. *)
Lemma apology_lands (id label : string) (e : Error) (m : Message)
    (l : list Action) (s : Store) (c : Conversation) :
  convOf id (run l s) = Some c ->
  convOf id
    (run (l ++ [ConsoleError label e;
                SetConversations (UAppendMessage id m);
                SetIsThinking false]) s)
  = Some (withMessages c (conv_messages c ++ [m])).
Proof.
  intros Hc. rewrite run_app. unfold run at 1.
  cbn [fold_left].
  change (step (run l s) (ConsoleError label e)) with (run l s).
  rewrite <- (append_lands id m (run l s) c Hc).
  reflexivity.
Qed.

(** C4, as the code has it.  When the [try] block of [handleSendMessage]
    throws, whatever the mode and the error, the handler logs the error,
    appends to the conversation of the send one model turn whose text is
    [apologySend], clears the flag, and settles without an exception; no
    other model turn of the send has that text, and the apology is then the
    last turn of that conversation.  [handleEditImage] does the same with its
    own text, [apologyEdit], and then the apology is the only model turn of
    the edit. *)
Theorem failure_appends_one_apology
    (s : Store) (settings : Settings) (text : string)
    (files : list UploadedFile) (sendMode : SendMode)
    (prompt : string) (fileToEdit : UploadedFile)
    (env : Env) (k : nat) (e : Error) :
  (forall conv,
      resultOf (sendPrologue s text files sendMode env k) = Ok conv ->
      let body :=
        sendBody (conv_messages conv) (conv_id conv) text files settings
          sendMode env (tickOf (sendPrologue s text files sendMode env k)) in
      resultOf body = Throw e ->
      let out := handleSendMessage s settings text files sendMode env k in
      let apology :=
        errorBotMessage (clock env (tickOf body)) (clock env (S (tickOf body)))
          apologySend in
      resultOf out = Ok tt
      /\ (exists pre,
            logOf out
            = pre ++ [ ConsoleError "Error processing message:" e;
                       SetConversations (UAppendMessage (conv_id conv) apology);
                       SetIsThinking false ])
      /\ apologiesIn apologySend (logOf out) = [apology]
      /\ (exists c before,
            convOf (conv_id conv) (run (logOf out) s) = Some c
            /\ conv_messages c = before ++ [apology]))
  /\ (forall conv,
        currentConversation s = Some conv ->
        let body := editBody (conv_id conv) prompt fileToEdit env (S (S k)) in
        resultOf body = Throw e ->
        let out := handleEditImage s prompt fileToEdit env k in
        let apology :=
          errorBotMessage (clock env (tickOf body)) (clock env (S (tickOf body)))
            apologyEdit in
        resultOf out = Ok tt
        /\ (exists pre,
              logOf out
              = pre ++ [ ConsoleError "Error editing image:" e;
                         SetConversations (UAppendMessage (conv_id conv) apology);
                         SetIsThinking false ])
        /\ modelTurnsAdded (logOf out) = [apology]
        /\ (exists c before,
              convOf (conv_id conv) (run (logOf out) s) = Some c
              /\ conv_messages c = before ++ [apology])).
Proof.
  split.
  - intros conv Hconv body Hbody out apology. subst out.
    rewrite (handleSendMessage_run _ _ _ _ _ _ _ _ Hconv).
    rewrite guarded_run. fold body. rewrite Hbody.
    rewrite !logOf_mk, resultOf_mk.
    split; [reflexivity|]. split; [|split].
    + exists (logOf (sendPrologue s text files sendMode env k) ++ logOf body).
      now rewrite <- app_assoc.
    + destruct (sendPrologue_shape s text files sendMode env k)
        as [pre [Hpre [_ [_ Hpm]]]].
      assert (Hm : filter (fun m => msg_text m =? apologySend)
                     (modelTurnsAdded (logOf body)) = []).
      { unfold modelTurnsAdded. apply no_apology_among_empty; [discriminate|].
        apply (sendBody_throw_added _ _ _ _ _ _ _ _ _ Hbody). }
      unfold apologiesIn. rewrite Hpre.
      rewrite !modelTurnsAdded_app, Hpm, !filter_app, Hm. reflexivity.
    + destruct (sendPrologue_present _ _ _ _ _ _ _ Hconv) as [c0 Hc0].
      destruct (benign_present (conv_id conv) (logOf body)
                  (sendBody_benign _ _ _ _ _ _ env _) _ _ Hc0) as [c1 Hc1].
      rewrite <- run_app in Hc1. rewrite app_assoc.
      rewrite (apology_lands _ _ _ apology _ _ _ Hc1).
      now exists (withMessages c1 (conv_messages c1 ++ [apology])),
        (conv_messages c1).
  - intros conv Hc body Hbody out apology. subst out.
    rewrite (handleEditImage_run _ _ _ _ _ _ Hc).
    rewrite guarded_run. fold body. rewrite Hbody.
    rewrite !logOf_mk, resultOf_mk.
    split; [reflexivity|]. split; [|split].
    + eexists (_ :: _ :: logOf body). reflexivity.
    + assert (Hm : modelTurnsAdded (logOf body) = []).
      { unfold modelTurnsAdded, body.
        now rewrite (editBody_throw _ _ _ _ _ _ Hbody). }
      rewrite !modelTurnsAdded_app, Hm. reflexivity.
    + pose proof (append_lands (conv_id conv)
                    (userMessage (clock env k) (clock env (S k)) prompt
                       [fileToEdit]) s conv (currentConversation_id _ _ Hc))
        as Hc0.
      set (s1 := run [SetConversations
                        (UAppendMessage (conv_id conv)
                           (userMessage (clock env k) (clock env (S k)) prompt
                              [fileToEdit]));
                      SetIsThinking true] s).
      assert (Hs1 : exists c0, convOf (conv_id conv) s1 = Some c0).
      { subst s1. unfold run. cbn [fold_left]. eexists. exact Hc0. }
      destruct Hs1 as [c0 Hs1].
      destruct (benign_present (conv_id conv) (logOf body)
                  (editBody_benign _ _ _ env _) _ _ Hs1) as [c1 Hc1].
      subst s1. rewrite <- run_app in Hc1. rewrite app_assoc.
      rewrite (apology_lands _ _ _ apology _ _ _ Hc1).
      now exists (withMessages c1 (conv_messages c1 ++ [apology])),
        (conv_messages c1).
Qed.

(** Three kinds of failure of a send, and a failure of the editing
    shortcut: each ends in one apology turn. *)
Lemma failure_appends_one_apology_witness :
  map msg_text
    (apologiesIn apologySend
       (logOf (handleSendMessage Sample.store1 Sample.settingsOn "query" []
                 ModeDefault (Sample.failing (BackendRequestError "quota")) 0)))
  = [apologySend]
  /\ map msg_text
       (apologiesIn apologySend
          (logOf (handleSendMessage Sample.store1 Sample.settingsOn "brighter"
                    [Sample.png] ModeImage Sample.noImage 0)))
     = [apologySend]
  /\ map msg_text
       (apologiesIn apologySend
          (logOf (handleSendMessage Sample.store1 Sample.settingsOn "look"
                    [Sample.broken] ModeDefault Sample.env 0)))
     = [apologySend]
  /\ map msg_text
       (modelTurnsAdded
          (logOf (handleEditImage Sample.store1 "brighter" Sample.png
                    (Sample.failing (BackendRequestError "quota")) 0)))
     = [apologyEdit].
Proof.
  split; [|split; [|split]].
  - destruct (proj1 (failure_appends_one_apology Sample.store1
                       Sample.settingsOn "query" [] ModeDefault "brighter"
                       Sample.png
                       (Sample.failing (BackendRequestError "quota")) 0
                       (BackendRequestError "quota"))
                Sample.conv1 eq_refl eq_refl) as [_ [_ [H _]]].
    rewrite H. reflexivity.
  - destruct (proj1 (failure_appends_one_apology Sample.store1
                       Sample.settingsOn "brighter" [Sample.png] ModeImage
                       "brighter" Sample.png Sample.noImage 0 NoImageReturned)
                Sample.conv1 eq_refl eq_refl) as [_ [_ [H _]]].
    rewrite H. reflexivity.
  - destruct (proj1 (failure_appends_one_apology Sample.store1
                       Sample.settingsOn "look" [Sample.broken] ModeDefault
                       "brighter" Sample.png Sample.env 0 TypeError)
                Sample.conv1 eq_refl eq_refl) as [_ [_ [H _]]].
    rewrite H. reflexivity.
  - destruct (proj2 (failure_appends_one_apology Sample.store1
                       Sample.settingsOn "query" [] ModeDefault "brighter"
                       Sample.png
                       (Sample.failing (BackendRequestError "quota")) 0
                       (BackendRequestError "quota"))
                Sample.conv1 eq_refl eq_refl) as [_ [_ [H _]]].
    rewrite H. reflexivity.
Defined.

(** C4 as stated fails: the same failure of the same image edit is reported
    with one text by [handleSendMessage] and with another by
    [handleEditImage]. *)
Lemma apology_differs_between_send_paths :
  map msg_text
    (modelTurnsAdded
       (logOf (handleSendMessage Sample.store1 Sample.settingsOff "brighter"
                 [Sample.png] ModeImage
                 (Sample.failing (BackendRequestError "quota")) 0)))
  = ["Sorry, something went wrong. Please try again."]
  /\ map msg_text
       (modelTurnsAdded
          (logOf (handleEditImage Sample.store1 "brighter" Sample.png
                    (Sample.failing (BackendRequestError "quota")) 0)))
     = ["Sorry, I couldn't edit that image. Please try again."]
  /\ "Sorry, something went wrong. Please try again."
     <> "Sorry, I couldn't edit that image. Please try again.".
Proof. repeat split; try reflexivity. discriminate. Qed.

(* ===================================================================== *)
(** ** Image modes *)
(* ===================================================================== *)

Lemma generateImage_run prompt env k :
  generateImage prompt env k
  = match models_generateImages env (imageRequest prompt) with
    | Ok response =>
        match generatedImages response with
        | [] => ([Await (GenerateImages (imageRequest prompt))], k, Throw TypeError)
        | g :: _ =>
            ([Await (GenerateImages (imageRequest prompt))], S k,
             Ok (generatedFile prompt (clock env k) (imageBytes (image g))))
        end
    | Throw e => ([Await (GenerateImages (imageRequest prompt))], k, Throw e)
    end.
Proof.
  unfold generateImage, bind, await_generateImages, throw, now, ret.
  destruct (models_generateImages env (imageRequest prompt)) as [resp|e];
    [|reflexivity].
  destruct (generatedImages resp); reflexivity.
Qed.

Lemma imageGenerateBranch_log convId text env k :
  exists post,
    logOf (imageGenerateBranch convId text env k)
    = Await (GenerateImages (imageRequest text)) :: post
    /\ awaited post = []
    /\ (forall resp g gs,
          models_generateImages env (imageRequest text) = Ok resp ->
          generatedImages resp = g :: gs ->
          post = [ SetConversations
                     (UAppendMessage convId
                        (botMessage "-bot-img" (clock env (S k))
                           (clock env (S (S k))) EmptyString
                           (Some [generatedFile text (clock env k)
                                    (imageBytes (image g))]) None)) ]
          /\ resultOf (imageGenerateBranch convId text env k) = Ok tt).
Proof.
  unfold imageGenerateBranch, bind. rewrite generateImage_run.
  destruct (models_generateImages env (imageRequest text)) as [resp|e].
  - destruct (generatedImages resp) as [|g gs] eqn:Hg.
    + exists []. split; [reflexivity|]. split; [reflexivity|].
      intros resp' g' gs' Hresp Hg'. inversion Hresp; subst resp'.
      rewrite Hg in Hg'. discriminate.
    + eexists. split; [reflexivity|]. split; [reflexivity|].
      intros resp' g' gs' Hresp Hg'. inversion Hresp; subst resp'.
      rewrite Hg in Hg'. inversion Hg'; subst. split; reflexivity.
  - exists []. split; [reflexivity|]. split; [reflexivity|].
    intros resp' g' gs' Hresp. discriminate.
Qed.

Lemma editImage_log prompt imageFile env k :
  logOf (editImage prompt imageFile env k)
  = match splitData (file_data imageFile) with
    | Ok b => [Await (GenerateContent (editRequest prompt b))]
    | Throw _ => []
    end.
Proof.
  unfold editImage, bind, lift, await_generateContent, throw, ret, logOf.
  destruct (splitData (file_data imageFile)) as [b|e]; [|reflexivity].
  destruct (models_generateContent env (editRequest prompt b))
    as [response|e]; [|reflexivity].
  destruct (candidates response) as [[|c cs]|]; try reflexivity.
  destruct (content c) as [ct|]; try reflexivity.
  pose proof (editLoop_silent prompt imageFile (parts ct) EmptyString None env k)
    as Hsilent.
  unfold logOf in Hsilent.
  destruct (editLoop prompt imageFile (parts ct) EmptyString None env k)
    as [[l k'] [[rt [f|]]|e]]; simpl in *; subst; reflexivity.
Qed.

Lemma sendPrologue_quiet s text files sendMode env k :
  awaited (logOf (sendPrologue s text files sendMode env k)) = []
  /\ modelTurnsAdded (logOf (sendPrologue s text files sendMode env k)) = [].
Proof.
  destruct (sendPrologue_shape s text files sendMode env k)
    as [pre [Hpre [Hpa [_ Hpm]]]].
  rewrite Hpre, awaited_app, modelTurnsAdded_app, Hpa, Hpm. split; reflexivity.
Qed.

(** The log of the guarded block of a send, after the log of its body. *)
Lemma guarded_tail (body : M unit) label errorMessage convId env k :
  exists tail,
    logOf (tryFinally (tryCatch body (catchBlock label errorMessage convId))
             (emit (SetIsThinking false)) env k)
    = logOf (body env k) ++ tail
    /\ awaited tail = []
    /\ (resultOf (body env k) = Ok tt -> tail = [SetIsThinking false])
    /\ resultOf (tryFinally (tryCatch body (catchBlock label errorMessage convId))
                   (emit (SetIsThinking false)) env k) = Ok tt.
Proof.
  rewrite guarded_run.
  destruct (resultOf (body env k)) as [[]|e]; eexists;
    (split; [reflexivity|]); (split; [reflexivity|]); split;
    try reflexivity; discriminate.
Qed.

(* ===================================================================== *)
(** ** The store after a send *)
(* ===================================================================== *)

Lemma current_convOf (s : Store) (id : string) :
  currentConversationId s = Some id -> currentConversation s = convOf id s.
Proof. unfold currentConversation, convOf. now intros ->. Qed.

Lemma currentConversation_active (s : Store) (c : Conversation) :
  currentConversation s = Some c -> currentConversationId s = Some (conv_id c).
Proof.
  unfold currentConversation.
  destruct (currentConversationId s) as [id|]; [|discriminate].
  intros H. apply find_some in H. destruct H as [_ Heq].
  apply String.eqb_eq in Heq. now rewrite Heq.
Qed.

Lemma convOf_user id userMessage text s c :
  convOf id s = Some c ->
  convOf id (step s (SetConversations (UUserMessage id userMessage text)))
  = Some (updateWithUserMessage id userMessage text c).
Proof.
  unfold convOf. intros Hc. cbn [step conversations applyUpdater].
  rewrite find_map_id.
  - now rewrite Hc.
  - intros c'. unfold updateWithUserMessage.
    destruct (conv_id c' =? id); reflexivity.
Qed.

Lemma editImage_quiet prompt imageFile env k s :
  run (logOf (editImage prompt imageFile env k)) s = s.
Proof.
  rewrite editImage_log.
  destruct (splitData (file_data imageFile)); reflexivity.
Qed.

(** The store after the prologue of a send: the conversation of the send
    is the active one, and it holds the turns that it had in the render of
    the send followed by the user turn. *)
Lemma sendPrologue_store s text files sendMode env k conv :
  resultOf (sendPrologue s text files sendMode env k) = Ok conv ->
  exists t timestamp,
    convOf (conv_id conv)
      (run (logOf (sendPrologue s text files sendMode env k)) s)
    = Some (updateWithUserMessage (conv_id conv)
              (userMessage t timestamp text files) text conv)
    /\ currentConversationId
         (run (logOf (sendPrologue s text files sendMode env k)) s)
       = Some (conv_id conv)
    /\ conv_messages conv = historyOf s
    /\ added (logOf (sendPrologue s text files sendMode env k))
       = [userMessage t timestamp text files].
Proof.
  unfold historyOf.
  destruct (currentConversation s) as [c0|] eqn:Hc.
  - rewrite (sendPrologue_existing _ _ _ _ _ _ _ Hc). intros H.
    rewrite resultOf_mk in H. inversion H; subst conv.
    rewrite logOf_mk. exists (clock env k), (clock env (S k)).
    unfold run. cbn [fold_left].
    split; [|split; [|split]]; try reflexivity.
    + change (convOf (conv_id c0) (step ?x (SetIsThinking true)))
        with (convOf (conv_id c0) x).
      apply convOf_user. exact (currentConversation_id _ _ Hc).
    + cbn [step currentConversationId].
      exact (currentConversation_active _ _ Hc).
  - pose proof (sendPrologue_new s text files sendMode env k Hc) as Hp.
    cbv zeta in Hp. rewrite Hp. intros H.
    rewrite resultOf_mk in H. inversion H; subst conv.
    rewrite logOf_mk.
    exists (clock env (S (S k))), (clock env (S (S (S k)))).
    split; [|split; [|split]]; try reflexivity.
    unfold run, convOf, updateWithUserMessage.
    cbn [fold_left step conversations applyUpdater find withMessages conv_id
         conv_messages conv_title conv_createdAt length Nat.eqb app].
    rewrite !String.eqb_refl. reflexivity.
Qed.

Lemma user_turn_messages id um text conv :
  conv_messages (updateWithUserMessage (conv_id conv) um text conv)
  = conv_messages conv ++ [um]
  /\ conv_id (updateWithUserMessage id um text conv) = conv_id conv.
Proof.
  unfold updateWithUserMessage. rewrite String.eqb_refl.
  split; [reflexivity|]. destruct (conv_id conv =? id); reflexivity.
Qed.

(** A log that ends with actions that leave the store alone, then appends a
    turn to the active conversation and clears the flag: the turn is then
    the last one of the current conversation. *)
Lemma appended_current (id : string) (m : Message) (l mid : list Action)
    (s : Store) (c : Conversation) :
  run mid (run l s) = run l s ->
  currentConversationId (run l s) = Some id ->
  convOf id (run l s) = Some c ->
  currentConversation
    (run (l ++ mid ++ [SetConversations (UAppendMessage id m);
                       SetIsThinking false]) s)
  = Some (withMessages c (conv_messages c ++ [m])).
Proof.
  intros Hmid Hid Hc. rewrite !run_app, Hmid. unfold run at 1.
  cbn [fold_left].
  rewrite (current_convOf _ id) by (cbn [step currentConversationId]; exact Hid).
  change (convOf id (step ?x (SetIsThinking false))) with (convOf id x).
  now apply append_lands.
Qed.

(** C6.  A send in 'image' mode with no file and a non-empty text makes one
    backend request, a text-to-image request whose prompt is that text.
    When the request is made, the current conversation of the store holds
    the turns it had in the render of the send and the user turn, and no
    other turn: no model turn has been added.  When the backend returns an
    image, the send adds exactly one model turn, after the request: its text
    is empty and it holds exactly one attachment, the returned image; in the
    store after the send it is the last turn of the current conversation,
    right after the user turn. *)
Theorem text_to_image_send
    (s : Store) (settings : Settings) (text : string) (env : Env) (k : nat) :
  text <> EmptyString ->
  let out := handleSendMessage s settings text [] ModeImage env k in
  gi_prompt (imageRequest text) = text
  /\ (exists pre post t timestamp c0,
        logOf out = pre ++ Await (GenerateImages (imageRequest text)) :: post
        /\ awaited pre = [] /\ modelTurnsAdded pre = []
        /\ awaited post = []
        /\ currentConversation (run pre s) = Some c0
        /\ conv_messages c0 = historyOf s ++ [userMessage t timestamp text []]
        /\ (forall resp g gs,
              models_generateImages env (imageRequest text) = Ok resp ->
              generatedImages resp = g :: gs ->
              exists m f c',
                modelTurnsAdded post = [m]
                /\ msg_role m = model
                /\ msg_text m = EmptyString
                /\ msg_files m = Some [f]
                /\ file_type f = "image/png"
                /\ file_data f
                   = ("data:image/png;base64," ++ imageBytes (image g))%string
                /\ resultOf out = Ok tt
                /\ currentConversation (run (logOf out) s) = Some c'
                /\ conv_id c' = conv_id c0
                /\ conv_messages c'
                   = historyOf s ++ [userMessage t timestamp text []; m])).
Proof.
  intros _ out. split; [reflexivity|]. subst out.
  destruct (sendPrologue_ok s text [] ModeImage env k) as [conv Hconv].
  rewrite (handleSendMessage_run _ _ _ _ _ _ _ _ Hconv).
  rewrite logOf_mk, resultOf_mk.
  destruct (sendPrologue_quiet s text [] ModeImage env k) as [Hpa Hpm].
  destruct (sendPrologue_store s text [] ModeImage env k conv Hconv)
    as (t & timestamp & Hstore & Hcid & Hhist & _).
  set (k1 := tickOf (sendPrologue s text [] ModeImage env k)).
  destruct (guarded_tail
              (sendBody (conv_messages conv) (conv_id conv) text [] settings
                 ModeImage)
              "Error processing message:" apologySend (conv_id conv) env k1)
    as [tail [Hg [Hta [Htail Hres]]]].
  rewrite Hg, Hres.
  change (sendBody (conv_messages conv) (conv_id conv) text [] settings
            ModeImage)
    with (imageGenerateBranch (conv_id conv) text) in *.
  destruct (imageGenerateBranch_log (conv_id conv) text env k1)
    as [post [Hb [Hpost Hok]]].
  rewrite Hb.
  set (um := userMessage t timestamp text []) in *.
  destruct (user_turn_messages (conv_id conv) um text conv) as [Hmsgs Hcv].
  rewrite Hhist in Hmsgs.
  exists (logOf (sendPrologue s text [] ModeImage env k)), (post ++ tail),
    t, timestamp, (updateWithUserMessage (conv_id conv) um text conv).
  split; [reflexivity|]. split; [exact Hpa|]. split; [exact Hpm|].
  split; [now rewrite awaited_app, Hpost, Hta|].
  split; [now rewrite (current_convOf _ _ Hcid)|].
  split; [exact Hmsgs|].
  intros resp g gs Hresp Hgs.
  destruct (Hok resp g gs Hresp Hgs) as [Hpost' Hbody].
  rewrite (Htail Hbody), Hpost'.
  eexists _, _, _.
  do 7 (split; [reflexivity|]).
  split.
  - exact (appended_current (conv_id conv) _
             (logOf (sendPrologue s text [] ModeImage env k))
             [Await (GenerateImages (imageRequest text))] s _
             eq_refl Hcid Hstore).
  - split; [reflexivity|].
    cbn [withMessages conv_messages]. rewrite Hmsgs, <- app_assoc.
    reflexivity.
Qed.

(** The scenario of the specification: send of "a red bicycle" in image
    mode against a backend that returns one image. *)
Lemma text_to_image_send_witness :
  let out := handleSendMessage Sample.store1 Sample.settingsOff "a red bicycle"
               [] ModeImage Sample.env 0 in
  awaited (logOf out) = [GenerateImages (imageRequest "a red bicycle")]
  /\ gi_prompt (imageRequest "a red bicycle") = "a red bicycle"
  /\ exists pre post m f c',
       logOf out
       = pre ++ Await (GenerateImages (imageRequest "a red bicycle")) :: post
       /\ modelTurnsAdded pre = []
       /\ modelTurnsAdded post = [m]
       /\ msg_text m = EmptyString
       /\ msg_files m = Some [f]
       /\ file_data f = "data:image/png;base64,CCCC"
       /\ currentConversation (run (logOf out) Sample.store1) = Some c'
       /\ map msg_role (conv_messages c') = [user; model]
       /\ map msg_text (conv_messages c') = ["a red bicycle"; EmptyString].
Proof.
  assert (Hne : "a red bicycle" <> EmptyString) by discriminate.
  destruct (text_to_image_send Sample.store1 Sample.settingsOff "a red bicycle"
              Sample.env 0 Hne)
    as [Hprompt (pre & post & t & ts & c0 & Hlog & _ & Hpm & _ & _ & _ & Hok)].
  split; [reflexivity|]. split; [exact Hprompt|].
  destruct (Hok {| generatedImages := [ {| image := {| imageBytes := "CCCC" |} |} ] |}
              {| image := {| imageBytes := "CCCC" |} |} [] eq_refl eq_refl)
    as (m & f & c' & Hm & Hrole & Htext & Hfiles & _ & Hdata & _ & Hcur & _
        & Hmsgs).
  exists pre, post, m, f, c'.
  do 7 (split; [assumption|]).
  rewrite Hmsgs. change (historyOf Sample.store1) with (@nil Message).
  cbn [map app userMessage msg_role msg_text]. rewrite Hrole, Htext.
  split; reflexivity.
Defined.

(** What the loop of [editImage] returns: the text accumulated so far
    followed by the text parts of the response; and, as the image, either
    the one it started with or one built from an image part of the
    response. *)
Lemma editLoop_result prompt imageFile ps :
  forall responseText newImageFile env k rt nf,
    resultOf (editLoop prompt imageFile ps responseText newImageFile env k)
    = Ok (rt, nf) ->
    rt = (responseText ++ responseTextOf ps)%string
    /\ (nf = newImageFile
        \/ exists part blob d t,
             In part ps /\ inlineData part = Some blob /\ data blob = Some d
             /\ nf = Some (editedFile prompt imageFile t (mimeType blob) d)).
Proof.
  induction ps as [|part rest IH];
    intros responseText newImageFile env k rt nf H.
  - simpl in H. inversion H; subst. split; [|now left].
    simpl. clear. induction rt; simpl; congruence.
  - simpl in H. simpl responseTextOf.
    destruct (JS.truthyOpt (text part)) eqn:Ht.
    + destruct (IH _ _ _ _ _ _ H) as [Hrt Hnf]. split.
      * rewrite Hrt. clear.
        induction responseText; simpl; [reflexivity|]. now f_equal.
      * destruct Hnf as [Hnf | [p [blob [d [t [Hin Hrest]]]]]]; [now left|].
        right. exists p, blob, d, t. split; [now right | exact Hrest].
    + destruct (inlineData part) as [blob|] eqn:Hblob.
      * rewrite resultOf_bind in H. simpl in H.
        destruct (data blob) as [d|] eqn:Hd; [|discriminate].
        destruct (IH _ _ _ _ _ _ H) as [Hrt Hnf]. split; [exact Hrt|].
        right. destruct Hnf as [Hnf | [p [blob' [d' [t [Hin Hrest]]]]]].
        -- exists part, blob, d, (clock env k).
           split; [now left|]. repeat split; assumption.
        -- exists p, blob', d', t. split; [now right | exact Hrest].
      * destruct (IH _ _ _ _ _ _ H) as [Hrt Hnf]. split; [exact Hrt|].
        destruct Hnf as [Hnf | [p [blob [d [t [Hin Hrest]]]]]]; [now left|].
        right. exists p, blob, d, t. split; [now right | exact Hrest].
Qed.

(** What [editImage] returns, when it returns: the request was built from the
    data of the image file and the prompt, the backend answered it, the
    returned text is the text of the first candidate, and the returned file
    was built from an image part of that candidate. *)
Lemma editImage_result prompt imageFile env k rt ef :
  resultOf (editImage prompt imageFile env k) = Ok (rt, ef) ->
  exists b response c cs ct,
    splitData (file_data imageFile) = Ok b
    /\ models_generateContent env (editRequest prompt b) = Ok response
    /\ candidates response = Some (c :: cs)
    /\ content c = Some ct
    /\ rt = responseTextOf (parts ct)
    /\ exists part blob d t,
         In part (parts ct) /\ inlineData part = Some blob
         /\ data blob = Some d
         /\ ef = editedFile prompt imageFile t (mimeType blob) d.
Proof.
  unfold editImage. rewrite resultOf_bind. unfold lift at 1 2.
  rewrite resultOf_mk.
  destruct (splitData (file_data imageFile)) as [b|e]; [|discriminate].
  rewrite resultOf_bind.
  change (resultOf (await_generateContent ?r env ?k'))
    with (models_generateContent env r).
  destruct (models_generateContent env (editRequest prompt b))
    as [response|e] eqn:Hresp; [|discriminate].
  rewrite resultOf_bind.
  destruct (candidates response) as [[|c cs]|] eqn:Hc; try discriminate.
  destruct (content c) as [ct|] eqn:Hct; [|discriminate].
  change (resultOf (ret (parts ct) env ?k')) with (Ok (parts ct)).
  cbv beta iota. rewrite resultOf_bind.
  destruct (resultOf (editLoop prompt imageFile (parts ct) EmptyString None env _))
    as [[rt' [f|]]|e] eqn:Hloop; try discriminate.
  intros H. change (Ok (rt', f) = Ok (rt, ef)) in H. inversion H; subst.
  destruct (editLoop_result _ _ _ _ _ _ _ _ _ Hloop) as [Hrt Hnf].
  exists b, response, c, cs, ct. repeat split; try assumption.
  destruct Hnf as [Hnf | [part [blob [d [t [Hin [Hb [Hd Hf]]]]]]]];
    [discriminate|].
  inversion Hf; subst. exists part, blob, d, t. repeat split; assumption.
Qed.

Lemma imageEditBranch_log convId text file0 env k :
  logOf (imageEditBranch convId text file0 env k)
  = logOf (editImage text file0 env k)
    ++ match resultOf (editImage text file0 env k) with
       | Ok (responseText, editedFile) =>
           [ SetConversations
               (UAppendMessage convId
                  (botMessage "-bot-img-edit"
                     (clock env (tickOf (editImage text file0 env k)))
                     (clock env (S (tickOf (editImage text file0 env k))))
                     responseText (Some [editedFile]) None)) ]
       | Throw _ => []
       end.
Proof.
  unfold imageEditBranch. rewrite logOf_bind.
  destruct (resultOf (editImage text file0 env k)) as [[rt ef]|e]; reflexivity.
Qed.





(* ===================================================================== *)
(** ** The title of a conversation *)
(* ===================================================================== *)

Lemma titleOf_map (f : Conversation -> Conversation) (id : string)
    (l : list Conversation) :
  (forall c, conv_id (f c) = conv_id c) ->
  (forall c, conv_title (f c) = conv_title c) ->
  titleOf id (map f l) = titleOf id l.
Proof.
  intros Hid Htitle. unfold titleOf. rewrite find_map_id by exact Hid.
  destruct (find _ l); simpl; [now rewrite Htitle | reflexivity].
Qed.

(** Benign actions keep the title of every conversation. *)
Lemma benign_titleOf (id : string) (l : list Action) :
  Forall benign l ->
  forall s, titleOf id (conversations (run l s)) = titleOf id (conversations s).
Proof.
  unfold run. induction 1 as [|a l Ha _ IH]; intros s; [reflexivity|].
  cbn [fold_left]. rewrite IH.
  destruct a as [[]| | | |]; simpl in Ha; try contradiction;
    try reflexivity; cbn [step conversations applyUpdater];
    apply titleOf_map; intros c; destruct (conv_id c =? convId); reflexivity.
Qed.

Lemma titleFrom_nonempty (text : string) :
  text <> EmptyString ->
  titleFrom text = String.substring 0 30 text
  /\ String.length (titleFrom text) <= 30.
Proof.
  intros Hne. destruct text as [|c rest]; [congruence|].
  split; [reflexivity|].
  change (titleFrom (String c rest)) with (String.substring 0 30 (String c rest)).
  generalize (String c rest) as t. generalize 30 as n.
  induction n as [|n IH]; intros t; destruct t; simpl; try lia.
  specialize (IH t). lia.
Qed.

(** C7, as the code has it.  After a send, the conversation that received
    the send as its first turn (an active conversation without turns, or the
    conversation created by the send when none is active) has the title
    derived from the text of the turn: its first 30 characters, or the
    placeholder when the text is empty.  For the text "Explain quantum
    tunneling in simple terms" that title is "Explain quantum tunneling in
    s", which has 30 characters. *)
Theorem first_turn_title
    (s : Store) (settings : Settings) (text : string)
    (files : list UploadedFile) (sendMode : SendMode) (env : Env) (k : nat) :
  let out := handleSendMessage s settings text files sendMode env k in
  let s' := run (logOf out) s in
  (forall c,
      currentConversation s = Some c -> conv_messages c = [] ->
      titleOf (conv_id c) (conversations s') = Some (titleFrom text))
  /\ (currentConversation s = None ->
      titleOf ("conv-" ++ JS.ofNumber (clock env k)) (conversations s')
      = Some (titleFrom text))
  /\ (text <> EmptyString ->
      titleFrom text = String.substring 0 30 text
      /\ String.length (titleFrom text) <= 30)
  /\ (text = EmptyString -> titleFrom text = "New Conversation")
  /\ titleFrom "Explain quantum tunneling in simple terms"
     = "Explain quantum tunneling in s".
Proof.
  intros out s'.
  assert (Hrun : forall conv,
             resultOf (sendPrologue s text files sendMode env k) = Ok conv ->
             forall id,
               titleOf id (conversations s')
               = titleOf id
                   (conversations
                      (run (logOf (sendPrologue s text files sendMode env k)) s))).
  { intros conv Hconv id. subst s' out.
    rewrite (handleSendMessage_run _ _ _ _ _ _ _ _ Hconv), logOf_mk, run_app.
    destruct (guarded_shape
                (sendBody (conv_messages conv) (conv_id conv) text files
                   settings sendMode)
                "Error processing message:" apologySend (conv_id conv) env
                (tickOf (sendPrologue s text files sendMode env k))
                (sendBody_benign _ _ _ _ _ _))
      as [mid [Hmid [Hben _]]].
    rewrite Hmid, run_app. unfold run at 1. cbn [fold_left step conversations].
    now apply benign_titleOf. }
  split; [|split; [|split; [|split]]].
  - intros c Hc Hempty.
    pose proof (sendPrologue_existing s text files sendMode env k c Hc) as Hp.
    rewrite (Hrun c) by now rewrite Hp.
    rewrite Hp, logOf_mk. unfold run. cbn [fold_left step conversations applyUpdater].
    unfold titleOf. rewrite find_map_id.
    + rewrite (currentConversation_id _ _ Hc). simpl.
      unfold updateWithUserMessage. rewrite String.eqb_refl, Hempty.
      reflexivity.
    + intros c'. unfold updateWithUserMessage.
      destruct (conv_id c' =? conv_id c); reflexivity.
  - intros Hc.
    pose proof (sendPrologue_new s text files sendMode env k Hc) as Hp.
    cbv zeta in Hp.
    rewrite (Hrun _ ltac:(rewrite Hp; reflexivity)).
    rewrite Hp, logOf_mk. unfold run, titleOf.
    cbn [fold_left step conversations applyUpdater find withMessages conv_id].
    now rewrite String.eqb_refl.
  - apply titleFrom_nonempty.
  - intros ->. reflexivity.
  - reflexivity.
Qed.

(** The text of the specification's example as the first turn of an empty
    active conversation, and a send without text when no conversation is
    active. *)
Lemma first_turn_title_witness :
  titleOf "conv-1"
    (conversations
       (run (logOf (handleSendMessage Sample.store1 Sample.settingsOff
                      "Explain quantum tunneling in simple terms" []
                      ModeDefault Sample.env 0))
            Sample.store1))
  = Some "Explain quantum tunneling in s"
  /\ titleOf "conv-100"
       (conversations
          (run (logOf (handleSendMessage Sample.storeNone Sample.settingsOff
                         EmptyString [Sample.png] ModeDefault Sample.env 0))
               Sample.storeNone))
     = Some "New Conversation".
Proof.
  split.
  - exact (proj1 (first_turn_title Sample.store1 Sample.settingsOff
                    "Explain quantum tunneling in simple terms" []
                    ModeDefault Sample.env 0)
             Sample.conv1 eq_refl eq_refl).
  - exact (proj1 (proj2 (first_turn_title Sample.storeNone Sample.settingsOff
                           EmptyString [Sample.png] ModeDefault Sample.env 0))
             eq_refl).
Defined.

(** C7 as stated fails: the title derived from the example's text is not the
    32-character string of the specification, while the truncation is to 30
    characters; and an empty text yields the placeholder, not the empty
    truncation. *)
Lemma first_turn_title_example_differs :
  let s' :=
    run (logOf (handleSendMessage Sample.store1 Sample.settingsOff
                  "Explain quantum tunneling in simple terms" []
                  ModeDefault Sample.env 0))
        Sample.store1 in
  titleOf "conv-1" (conversations s') = Some "Explain quantum tunneling in s"
  /\ titleOf "conv-1" (conversations s')
     <> Some "Explain quantum tunneling in sim"
  /\ String.length "Explain quantum tunneling in sim" = 32
  /\ titleFrom EmptyString <> String.substring 0 30 EmptyString.
Proof.
  cbv zeta. repeat split; try reflexivity.
  - vm_compute. discriminate.
  - vm_compute. discriminate.
Qed.

(* ===================================================================== *)
(** ** The streaming fold and grounding references *)
(* ===================================================================== *)

(** The patch of a fragment without grounding chunks carries the list of the
    model turn as it was built before the stream started, whatever the
    fragments before it carried. *)
Lemma streamLoop_fallback convId modelMessage chunk rest streamedText env k :
  chunkGrounding chunk = None ->
  hd_error (logOf (streamLoop convId modelMessage (StreamChunk chunk rest)
                     streamedText env k))
  = Some (SetConversations
            (UPatchMessage convId (msg_id modelMessage)
               (streamedText ++ JS.ofOpt (resp_text chunk))%string
               (msg_groundingChunks modelMessage))).
Proof.
  intros Hnone. cbn [streamLoop]. rewrite Hnone, logOf_bind. reflexivity.
Qed.

Lemma streamLoop_replace convId modelMessage chunk rest streamedText env k g :
  chunkGrounding chunk = Some g ->
  hd_error (logOf (streamLoop convId modelMessage (StreamChunk chunk rest)
                     streamedText env k))
  = Some (SetConversations
            (UPatchMessage convId (msg_id modelMessage)
               (streamedText ++ JS.ofOpt (resp_text chunk))%string (Some g))).
Proof.
  intros Hsome. cbn [streamLoop]. rewrite Hsome, logOf_bind. reflexivity.
Qed.

(** C3, evaluated.  A stream of two fragments, the first with one grounding
    reference and the second with none: after the first fragment the model
    turn holds the reference; the patch of the second fragment carries the
    empty list, and after it the model turn holds no reference, where the
    claim has it keep the last-received list. *)
Theorem stream_fragment_without_references_resets_list :
  let out := handleSendMessage Sample.store1 Sample.settingsOn "query" []
               ModeSearch Sample.env 0 in
  let before := firstn 5 (logOf out) in
  let after := skipn 5 (logOf out) in
  referencesOf (run before Sample.store1)
  = [[None; Some [Sample.source]]; [None; None]]
  /\ after
     = [ SetConversations (UPatchMessage "conv-1" "msg-102-bot" "ab" (Some []));
         SetIsThinking false ]
  /\ referencesOf (run (logOf out) Sample.store1)
     = [[None; Some []]; [None; None]]
  /\ referencesOf (run (logOf out) Sample.store1)
     <> [[None; Some [Sample.source]]; [None; None]].
Proof.
  cbv zeta. repeat split; try reflexivity.
  vm_compute. discriminate.
Qed.

(** Deleting the active conversation of two makes the other one active;
    deleting the only conversation leaves none active; deleting another
    conversation keeps the active one. *)
Lemma delete_reassigns_active_witness :
  currentConversationId
    (run (logOf (handleDeleteConversation Sample.store1 "conv-1" Sample.env 0))
         Sample.store1)
  = Some "conv-2"
  /\ currentConversationId
       (run (logOf (handleDeleteConversation Sample.store1 "conv-2" Sample.env 0))
            Sample.store1)
     = Some "conv-1"
  /\ (let only := {| conversations := [Sample.conv2];
                     currentConversationId := Some "conv-2";
                     isThinking := false |} in
      currentConversationId
        (run (logOf (handleDeleteConversation only "conv-2" Sample.env 0)) only)
      = None).
Proof.
  split; [|split].
  - exact (proj1 (proj2 (proj2 (delete_reassigns_active Sample.store1 "conv-1"
                                  Sample.env 0))) eq_refl).
  - apply (proj2 (proj2 (proj2 (delete_reassigns_active Sample.store1 "conv-2"
                                  Sample.env 0)))).
    discriminate.
  - exact (proj1 (proj2 (proj2 (delete_reassigns_active
                                  {| conversations := [Sample.conv2];
                                     currentConversationId := Some "conv-2";
                                     isThinking := false |}
                                  "conv-2" Sample.env 0))) eq_refl).
Defined.

(* ===================================================================== *)
(** ** Further properties of the request builder *)
(* ===================================================================== *)

Lemma splitData_splittable (d : string) :
  (exists b, splitData d = Ok b) <-> splittable d = true.
Proof. apply splitData_ok_iff. Qed.

Lemma splitData_not_splittable (d : string) :
  splittable d = false -> splitData d = Throw TypeError.
Proof.
  intros H. unfold splitData.
  destruct (nth_error (JS.split ":"%char (hd EmptyString (JS.split ","%char d))) 1)
    eqn:E; [|reflexivity].
  assert (Hs : splittable d = true).
  { apply splitData_splittable. unfold splitData. rewrite E. eauto. }
  congruence.
Qed.

Lemma splitAll_ok_iff (files : list UploadedFile) :
  (exists blobs, splitAll files = Ok blobs)
  <-> forallb (fun f => splittable (file_data f)) files = true.
Proof.
  unfold splitAll. induction files as [|f fs IH]; simpl.
  - split; eauto.
  - destruct (splitData (file_data f)) as [b|e] eqn:Hb; simpl.
    + assert (Hs : splittable (file_data f) = true)
        by (apply splitData_splittable; eauto).
      rewrite Hs. simpl. rewrite <- IH.
      destruct (rmap _ fs) as [bs|e]; simpl; split;
        intros [x H]; try discriminate; eauto.
    + split; [intros [x H]; discriminate|].
      intros H. apply andb_true_iff in H. destruct H as [Hs _].
      apply splitData_splittable in Hs. destruct Hs as [b Hs]. congruence.
Qed.

Lemma pushFiles_ok_iff (files : list UploadedFile) (acc : list Part) :
  (exists ps, pushFiles files acc = Ok ps) <-> exists blobs, splitAll files = Ok blobs.
Proof.
  destruct (splitAll files) as [blobs|e] eqn:H.
  - rewrite (pushFiles_ok _ _ acc H). split; eauto.
  - rewrite (pushFiles_throw _ _ acc H). split; intros [x Hx]; discriminate.
Qed.

Lemma mapMessage_ok_iff (m : Message) :
  (exists c, mapMessage m = Ok c) <-> turnReadable m = true.
Proof.
  unfold mapMessage, turnReadable.
  destruct (isUser (msg_role m) && hasFiles m); simpl.
  - rewrite <- splitAll_ok_iff, <- (pushFiles_ok_iff (filesOf m) []).
    destruct (pushFiles (filesOf m) []) as [ps|e]; simpl; split;
      intros [x H]; try discriminate; eauto.
  - split; eauto.
Qed.

Lemma mapHistoryToGenAI_ok_iff (history : list Message) :
  (exists cs, mapHistoryToGenAI history = Ok cs)
  <-> forallb turnReadable history = true.
Proof.
  unfold mapHistoryToGenAI. induction history as [|m h IH]; simpl.
  - split; eauto.
  - destruct (mapMessage m) as [c|e] eqn:Hm; simpl.
    + assert (Hr : turnReadable m = true) by (apply mapMessage_ok_iff; eauto).
      rewrite Hr. simpl. rewrite <- IH.
      destruct (rmap mapMessage h) as [cs|e]; simpl; split;
        intros [x H]; try discriminate; eauto.
    + split; [intros [x H]; discriminate|].
      intros H. apply andb_true_iff in H. destruct H as [Hr _].
      apply mapMessage_ok_iff in Hr. destruct Hr as [c Hc]. congruence.
Qed.

(** X1.  The projection of a history keeps the number of turns, their order
    and their roles: when it returns, the roles of the contents are the
    roles of the turns, one for one. *)
Theorem mapHistoryToGenAI_roles (history : list Message) (cs : list Content) :
  mapHistoryToGenAI history = Ok cs ->
  map role cs = map (fun m => Some (msg_role m)) history
  /\ length cs = length history.
Proof.
  intros H. apply mapHistoryToGenAI_pointwise in H.
  induction H as [|m c h cs' Hm _ IH]; [split; reflexivity|].
  destruct IH as [IH1 IH2]. simpl. rewrite IH1, IH2.
  split; [|reflexivity]. f_equal.
  unfold mapMessage in Hm.
  destruct (isUser (msg_role m) && hasFiles m).
  - destruct (pushFiles (filesOf m) []); simpl in Hm; [|discriminate].
    now inversion Hm.
  - now inversion Hm.
Qed.

Lemma mapHistoryToGenAI_roles_witness :
  exists cs,
    mapHistoryToGenAI [Sample.userTurn (Some [Sample.png]) "look";
                       Sample.modelTurn None "a cat"] = Ok cs
    /\ map role cs = [Some user; Some model].
Proof.
  eexists. split; [reflexivity|].
  exact (proj1 (mapHistoryToGenAI_roles
                  [Sample.userTurn (Some [Sample.png]) "look";
                   Sample.modelTurn None "a cat"] _ eq_refl)).
Defined.

(** X2.  The request builder returns a request exactly when every data
    string it reads can be taken apart: those of the files of the new turn,
    and those of the files of the user turns of the history.  The files of
    model turns are not read, and neither the text, the settings nor the mode
    can make the builder throw. *)
Theorem buildRequest_ok_iff
    (history : list Message) (newText : string) (newFiles : list UploadedFile)
    (settings : Settings) (sendMode : SendMode) :
  (exists req, buildRequest history newText newFiles settings sendMode = Ok req)
  <-> forallb turnReadable history = true
      /\ forallb (fun f => splittable (file_data f)) newFiles = true.
Proof.
  rewrite <- mapHistoryToGenAI_ok_iff, <- splitAll_ok_iff,
    <- (pushFiles_ok_iff newFiles []).
  unfold buildRequest.
  destruct (mapHistoryToGenAI history) as [hs|e]; simpl.
  - destruct (pushFiles newFiles []) as [ps|e]; simpl.
    + split; eauto.
    + split; [intros [x H]; discriminate | intros [_ [x H]]; discriminate].
  - split; [intros [x H]; discriminate | intros [[x H] _]; discriminate].
Qed.

(** X3.  A request that the builder returns holds the projection of the
    history followed by one content for the new turn, which is its last
    content and has the role [user]: for each new file its preface and its
    data, then the text when it is not empty.  So the new turn has twice as
    many parts as files, and one more when there is a text. *)
Theorem buildRequest_contents
    (history : list Message) (newText : string) (newFiles : list UploadedFile)
    (settings : Settings) (sendMode : SendMode) (req : GenerateContentParameters) :
  buildRequest history newText newFiles settings sendMode = Ok req ->
  exists hs blobs,
    mapHistoryToGenAI history = Ok hs
    /\ splitAll newFiles = Ok blobs
    /\ gc_contents req
       = hs ++ [ {| role := Some user;
                    parts := interleaved newFiles blobs
                             ++ (if JS.truthy newText
                                 then [textPart newText] else []) |} ]
    /\ length (gc_contents req) = length history + 1
    /\ length (interleaved newFiles blobs
               ++ (if JS.truthy newText then [textPart newText] else []))
       = 2 * length newFiles + (if JS.truthy newText then 1 else 0)
    /\ gc_model req = textModel.
Proof.
  unfold buildRequest. intros H.
  destruct (mapHistoryToGenAI history) as [hs|e] eqn:Hh; simpl in H;
    [|discriminate].
  destruct (splitAll newFiles) as [blobs|e] eqn:Hs.
  - rewrite (pushFiles_ok _ _ [] Hs) in H. simpl in H.
    inversion H; subst; clear H. exists hs, blobs. simpl.
    split; [reflexivity|]. split; [reflexivity|]. split.
    + destruct (JS.truthy newText); [reflexivity | now rewrite app_nil_r].
    + split; [|split; [|reflexivity]].
      * apply mapHistoryToGenAI_pointwise in Hh.
        rewrite length_app, <- (Forall2_length Hh). reflexivity.
      * rewrite length_app, interleaved_length
          by exact (rmap_length _ _ _ Hs).
        destruct (JS.truthy newText); reflexivity.
  - rewrite (pushFiles_throw _ _ [] Hs) in H. discriminate.
Qed.

(** The scenario of one image and a text: three parts for the new turn, and
    no search tool although the settings prefer search. *)
Lemma buildRequest_contents_witness :
  exists req ps,
    buildRequest [] "describe this" [Sample.png] Sample.settingsOn ModeDefault
    = Ok req
    /\ gc_contents req = [ {| role := Some user; parts := ps |} ]
    /\ length ps = 3
    /\ tools (gc_config req) = None.
Proof.
  destruct (buildRequest_contents [] "describe this" [Sample.png]
              Sample.settingsOn ModeDefault _ eq_refl)
    as [hs [blobs [Hh [Hs [Hc [_ [Hl _]]]]]]].
  inversion Hh; subst hs. eexists _, _.
  split; [reflexivity|]. split; [exact Hc|]. split; [exact Hl | reflexivity].
Defined.

(** X4.  In a request that the builder returns, the thinking budget is set,
    to zero, exactly in the mode 'no-thinking'; the system instruction is the
    system prompt of the settings, and is absent when that prompt is empty;
    no response modality is asked for; and the search tool and the thinking
    budget are never set together. *)
Theorem buildRequest_config
    (history : list Message) (newText : string) (newFiles : list UploadedFile)
    (settings : Settings) (sendMode : SendMode) (req : GenerateContentParameters) :
  buildRequest history newText newFiles settings sendMode = Ok req ->
  (thinkingConfig (gc_config req) = Some {| thinkingBudget := 0 |}
   <-> sendMode = ModeNoThinking)
  /\ (sendMode <> ModeNoThinking -> thinkingConfig (gc_config req) = None)
  /\ (systemPrompt settings <> EmptyString ->
      systemInstruction (gc_config req) = Some (systemPrompt settings))
  /\ (systemPrompt settings = EmptyString ->
      systemInstruction (gc_config req) = None)
  /\ responseModalities (gc_config req) = None
  /\ ~ (tools (gc_config req) <> None /\ thinkingConfig (gc_config req) <> None).
Proof.
  unfold buildRequest. intros H.
  destruct (mapHistoryToGenAI history) as [hs|e]; simpl in H; [|discriminate].
  destruct (pushFiles newFiles []) as [ps|e]; simpl in H; [|discriminate].
  inversion H; subst; clear H. simpl.
  split; [|split; [|split; [|split; [|split]]]].
  - destruct sendMode; split; intros H; try reflexivity; discriminate.
  - destruct sendMode; intros H; try reflexivity. congruence.
  - intros Hp. now rewrite (truthy_true _ Hp).
  - intros ->. reflexivity.
  - reflexivity.
  - unfold useSearchFlag.
    destruct sendMode, (useSearch settings); simpl; intros [H1 H2];
      first [now apply H1 | now apply H2].
Qed.

Lemma buildRequest_config_witness :
  exists req,
    buildRequest [] "quick" [] Sample.settingsOn ModeNoThinking = Ok req
    /\ thinkingConfig (gc_config req) = Some {| thinkingBudget := 0 |}
    /\ tools (gc_config req) = None.
Proof.
  eexists. split; [reflexivity|].
  destruct (buildRequest_config [] "quick" [] Sample.settingsOn ModeNoThinking
              _ eq_refl) as [[_ Ht] _].
  split; [now apply Ht | reflexivity].
Defined.

(* ===================================================================== *)
(** ** Further properties of the image services *)
(* ===================================================================== *)

Lemma string_length_app (a b : string) :
  String.length (a ++ b) = String.length a + String.length b.
Proof. induction a as [|c a IH]; simpl; [reflexivity | now rewrite IH]. Qed.

Lemma substring0_length (n : nat) (s : string) :
  String.length (JS.substring0 n s) <= n.
Proof.
  unfold JS.substring0. revert s.
  induction n as [|n IH]; intros s; destruct s; simpl; try lia.
  specialize (IH s). lia.
Qed.

Lemma trimStart_length (s : string) :
  String.length (JS.trimStart s) <= String.length s.
Proof.
  induction s as [|c s IH]; simpl; [lia|].
  destruct (JS.isSpace c); simpl; lia.
Qed.

Lemma trimEnd_length (s : string) :
  String.length (JS.trimEnd s) <= String.length s.
Proof.
  induction s as [|c s IH]; simpl; [lia|].
  destruct (JS.trimEnd s); [destruct (JS.isSpace c)|]; simpl in *; lia.
Qed.

Lemma replaceSpaces_length (s : string) :
  String.length (JS.replaceSpaces s) = String.length s.
Proof. induction s as [|c s IH]; simpl; [reflexivity | now rewrite IH]. Qed.

Lemma contains_not_space (c x : ascii) :
  JS.isSpace c = true -> JS.isSpace x = false -> Ascii.eqb x c = false.
Proof.
  intros Hc Hx. destruct (Ascii.eqb x c) eqn:E; [|reflexivity].
  apply Ascii.eqb_eq in E. congruence.
Qed.

Lemma replaceSpaces_no_space (c : ascii) (s : string) :
  JS.isSpace c = true -> JS.contains c (JS.replaceSpaces s) = false.
Proof.
  intros Hc. induction s as [|x s IH]; simpl; [reflexivity|].
  rewrite IH, orb_false_r.
  destruct (JS.isSpace x) eqn:Hx.
  - now apply contains_not_space.
  - now apply contains_not_space.
Qed.

Lemma contains_png (c : ascii) :
  JS.isSpace c = true -> JS.contains c ".png" = false.
Proof.
  destruct c as [[] [] [] [] [] [] [] []]; intros H; try reflexivity;
    vm_compute in H; discriminate.
Qed.

Lemma endsWith_app (suffix s : string) : endsWith suffix (s ++ suffix) = true.
Proof.
  induction s as [|c s IH].
  - change (EmptyString ++ suffix)%string with suffix.
    destruct suffix; cbn [endsWith]; now rewrite String.eqb_refl.
  - change (String c s ++ suffix)%string with (String c (s ++ suffix)).
    cbn [endsWith]. rewrite IH. apply orb_true_r.
Qed.

(** X5.  [generateImage] returns a file exactly when the backend answers
    with at least one image.  The file is a PNG whose data string is
    [data:image/png;base64,] followed by the bytes of the first image, and
    whose size is the length of these bytes; when the bytes hold no comma the
    data string is taken apart again into [image/png] and the bytes.  The
    name of the file ends in [.png], holds no whitespace, and has at most 34
    characters. *)
Theorem generateImage_file (prompt : string) (env : Env) (k : nat) :
  ((exists f, resultOf (generateImage prompt env k) = Ok f)
   <-> exists resp g gs,
         models_generateImages env (imageRequest prompt) = Ok resp
         /\ generatedImages resp = g :: gs)
  /\ (forall f,
        resultOf (generateImage prompt env k) = Ok f ->
        exists resp g gs,
          models_generateImages env (imageRequest prompt) = Ok resp
          /\ generatedImages resp = g :: gs
          /\ file_type f = "image/png"
          /\ file_data f = dataUri "image/png" (imageBytes (image g))
          /\ file_size f = String.length (imageBytes (image g))
          /\ (JS.contains ","%char (imageBytes (image g)) = false ->
              splitData (file_data f)
              = Ok {| mimeType := "image/png";
                      data := Some (imageBytes (image g)) |})
          /\ String.length (file_name f) <= 34
          /\ endsWith ".png" (file_name f) = true
          /\ (forall c, JS.isSpace c = true ->
                        JS.contains c (file_name f) = false)).
Proof.
  rewrite generateImage_run.
  destruct (models_generateImages env (imageRequest prompt)) as [resp|e].
  - destruct (generatedImages resp) as [|g gs] eqn:Hg.
    + split.
      * split; [intros [f H]; discriminate|].
        intros [r [g [gs [Hr Hgs]]]]. inversion Hr; subst. congruence.
      * intros f H. discriminate.
    + split.
      * split; [intros _; now exists resp, g, gs | intros _; eexists; reflexivity].
      * intros f H. rewrite resultOf_mk in H. inversion H; subst f; clear H.
        exists resp, g, gs. split; [reflexivity|]. split; [exact Hg|].
        split; [reflexivity|]. split; [reflexivity|]. split; [reflexivity|].
        split; [|split; [|split]].
        -- intros Hb. apply (splitData_dataUri "image/png" _); try reflexivity.
           exact Hb.
        -- cbn [file_name generatedFile]. rewrite string_length_app.
           rewrite replaceSpaces_length.
           pose proof (substring0_length 30 prompt).
           pose proof (trimStart_length (JS.substring0 30 prompt)).
           pose proof (trimEnd_length (JS.trimStart (JS.substring0 30 prompt))).
           unfold JS.trim. simpl String.length. lia.
        -- apply endsWith_app.
        -- intros c Hc. cbn [file_name generatedFile].
           rewrite contains_app, replaceSpaces_no_space by exact Hc.
           now rewrite contains_png.
  - split.
    + split; [intros [f H]; discriminate|].
      intros [r [g [gs [Hr _]]]]. discriminate.
    + intros f H. discriminate.
Qed.

Lemma generateImage_file_witness :
  exists f,
    resultOf (generateImage "  a red   bicycle " Sample.env 0) = Ok f
    /\ file_name f = "a_red___bicycle.png"
    /\ splitData (file_data f)
       = Ok {| mimeType := "image/png"; data := Some "CCCC" |}.
Proof.
  destruct (proj2 (generateImage_file "  a red   bicycle " Sample.env 0)
              _ eq_refl)
    as [resp [g [gs [Hr [Hg [_ [_ [_ [Hsplit _]]]]]]]]].
  eexists. split; [reflexivity|]. split; [reflexivity|].
  inversion Hr; subst resp. inversion Hg; subst g. now apply Hsplit.
Defined.

Lemma lastImagePart_image (ps : list Part) (p : Part) :
  lastImagePart ps = Some p -> In p ps /\ isImagePart p = true.
Proof.
  induction ps as [|q rest IH]; simpl; [discriminate|].
  destruct (lastImagePart rest) as [r|].
  - intros H. inversion H; subst. destruct (IH eq_refl). auto.
  - destruct (isImagePart q) eqn:Hq; [|discriminate].
    intros H. inversion H; subst. auto.
Qed.

Lemma lastImagePart_none (ps : list Part) :
  lastImagePart ps = None -> filter isImagePart ps = [].
Proof.
  induction ps as [|q rest IH]; simpl; [reflexivity|].
  destruct (lastImagePart rest) as [r|]; [discriminate|].
  destruct (isImagePart q); [discriminate|]. intros _. now apply IH.
Qed.

Lemma image_not_broken (ps : list Part) (q : Part) :
  existsb isBrokenImagePart ps = false -> In q ps -> isImagePart q = true ->
  exists blob d, inlineData q = Some blob /\ data blob = Some d.
Proof.
  intros Hok Hin Himg.
  assert (Hq : isBrokenImagePart q = false).
  { destruct (isBrokenImagePart q) eqn:E; [|reflexivity].
    assert (existsb isBrokenImagePart ps = true)
      by (apply existsb_exists; eauto).
    congruence. }
  unfold isBrokenImagePart in Hq. rewrite Himg in Hq. simpl in Hq.
  unfold isImagePart in Himg. apply andb_true_iff in Himg.
  destruct Himg as [_ Himg].
  destruct (inlineData q) as [blob|]; [|discriminate].
  destruct (data blob) as [d|] eqn:Hd; [|discriminate].
  exists blob, d. split; [reflexivity | exact Hd].
Qed.

(** What the loop of [editImage] does on a response without a broken image
    part: it reads the clock once for each image part, returns the
    accumulated text followed by the text of the response, and as the image
    the one built from the last image part, or the one it started with when
    the response has no image part. *)
Lemma editLoop_outcome prompt imageFile (ps : list Part) :
  forall responseText newImageFile env k,
    existsb isBrokenImagePart ps = false ->
    editLoop prompt imageFile ps responseText newImageFile env k
    = ([], k + length (filter isImagePart ps),
       Ok ((responseText ++ responseTextOf ps)%string,
           match lastImagePart ps with
           | None => newImageFile
           | Some part =>
               match inlineData part with
               | Some blob =>
                   match data blob with
                   | Some d =>
                       Some (editedFile prompt imageFile
                               (clock env (k + length (filter isImagePart ps) - 1))
                               (mimeType blob) d)
                   | None => newImageFile
                   end
               | None => newImageFile
               end
           end)).
Proof.
  induction ps as [|p rest IH]; intros responseText newImageFile env k Hok.
  - simpl. unfold ret. rewrite Nat.add_0_r. repeat f_equal.
    clear. induction responseText; simpl; congruence.
  - pose proof Hok as Hall.
    simpl in Hok. apply orb_false_iff in Hok. destruct Hok as [Hp Hrest].
    cbn [editLoop responseTextOf filter lastImagePart].
    destruct (isImagePart p) eqn:Hip.
    + (* an image part: the clock is read, the image is replaced *)
      destruct (image_not_broken (p :: rest) p Hall (or_introl eq_refl) Hip)
        as [blob [d [Hblob Hd]]].
      unfold isImagePart in Hip. apply andb_true_iff in Hip.
      destruct Hip as [Ht _]. apply negb_true_iff in Ht.
      rewrite Ht, Hblob. unfold bind, now. rewrite Hd.
      rewrite (IH _ _ _ _ Hrest). cbn [length app].
      replace (S k + length (filter isImagePart rest))
        with (k + S (length (filter isImagePart rest))) by lia.
      destruct (lastImagePart rest) as [q|] eqn:Hq.
      * destruct (lastImagePart_image _ _ Hq) as [Hin Himg].
        destruct (image_not_broken _ _ Hrest Hin Himg) as [bq [dq [Hbq Hdq]]].
        assert (Hlen : length (filter isImagePart rest) <> 0).
        { intros H0. apply length_zero_iff_nil in H0.
          assert (Hq' : In q (filter isImagePart rest))
            by (apply filter_In; auto).
          rewrite H0 in Hq'. contradiction. }
        rewrite Hbq, Hdq.
        replace (k + S (length (filter isImagePart rest)) - 1)
          with (S k + length (filter isImagePart rest) - 1) by lia.
        reflexivity.
      * rewrite Hblob, Hd, (lastImagePart_none _ Hq). cbn [length].
        replace (k + 1 - 1) with k by lia. reflexivity.
    + (* a text part, or a part without text and without image *)
      assert (Hstep :
                (if JS.truthyOpt (text p)
                 then editLoop prompt imageFile rest
                        (responseText ++ JS.ofOpt (text p)) newImageFile
                 else match inlineData p with
                      | Some blob0 =>
                          bind now (fun t =>
                            match data blob0 with
                            | Some b =>
                                editLoop prompt imageFile rest responseText
                                  (Some (editedFile prompt imageFile t
                                           (mimeType blob0) b))
                            | None => throw TypeError
                            end)
                      | None =>
                          editLoop prompt imageFile rest responseText
                            newImageFile
                      end) env k
                = editLoop prompt imageFile rest
                    (responseText
                     ++ (if JS.truthyOpt (text p)
                         then JS.ofOpt (text p) else EmptyString))
                    newImageFile env k).
      { unfold isImagePart in Hip.
        destruct (JS.truthyOpt (text p)); [reflexivity|].
        destruct (inlineData p); [discriminate|].
        f_equal. clear. induction responseText; simpl; congruence. }
      rewrite Hstep, (IH _ _ _ _ Hrest), string_app_assoc.
      destruct (JS.truthyOpt (text p));
        destruct (lastImagePart rest); reflexivity.
Qed.

Lemma editLoop_broken prompt imageFile (ps : list Part) :
  forall responseText newImageFile env k,
    existsb isBrokenImagePart ps = true ->
    resultOf (editLoop prompt imageFile ps responseText newImageFile env k)
    = Throw TypeError.
Proof.
  induction ps as [|p rest IH]; intros responseText newImageFile env k Hb;
    [discriminate|].
  cbn [editLoop]. simpl in Hb.
  destruct (JS.truthyOpt (text p)) eqn:Ht.
  - unfold isBrokenImagePart, isImagePart in Hb. rewrite Ht in Hb.
    simpl in Hb. now apply IH.
  - destruct (inlineData p) as [blob|] eqn:Hblob.
    + rewrite resultOf_bind. simpl.
      destruct (data blob) as [d|] eqn:Hd; [|reflexivity].
      unfold isBrokenImagePart, isImagePart in Hb.
      rewrite Ht, Hblob, Hd in Hb. simpl in Hb. now apply IH.
    + unfold isBrokenImagePart, isImagePart in Hb. rewrite Ht, Hblob in Hb.
      simpl in Hb. now apply IH.
Qed.

(** [editImage] once the backend has answered with a first candidate that
    has a content. *)
Lemma editImage_answered prompt imageFile env k b response c cs ct :
  splitData (file_data imageFile) = Ok b ->
  models_generateContent env (editRequest prompt b) = Ok response ->
  candidates response = Some (c :: cs) ->
  content c = Some ct ->
  resultOf (editImage prompt imageFile env k)
  = match resultOf (editLoop prompt imageFile (parts ct) EmptyString None env k) with
    | Ok (rt, Some f) => Ok (rt, f)
    | Ok (_, None) => Throw NoImageReturned
    | Throw e => Throw e
    end.
Proof.
  intros Hb Hresp Hc Hct.
  unfold editImage, bind, lift, await_generateContent, throw, ret, resultOf.
  rewrite Hb, Hresp, Hc, Hct. simpl.
  destruct (editLoop prompt imageFile (parts ct) EmptyString None env k)
    as [[l k'] [[rt [f|]]|e]]; reflexivity.
Qed.

(** X6.  [editImage] on an answer of the backend whose first candidate has a
    content.  When an image part of the content lacks its data, the call
    throws a [TypeError].  Otherwise, when the content has no image part, the
    call throws the no-image error, whatever text the content holds.
    Otherwise the call returns the text parts of the content, concatenated in
    order, and the file built from the last image part; a part that holds
    both a text and an image counts as text only. *)
Theorem editImage_outcome
    (prompt : string) (imageFile : UploadedFile) (env : Env) (k : nat)
    (b : Blob) (response : GenerateContentResponse)
    (c : Candidate) (cs : list Candidate) (ct : Content) :
  splitData (file_data imageFile) = Ok b ->
  models_generateContent env (editRequest prompt b) = Ok response ->
  candidates response = Some (c :: cs) ->
  content c = Some ct ->
  (existsb isBrokenImagePart (parts ct) = true ->
   resultOf (editImage prompt imageFile env k) = Throw TypeError)
  /\ (existsb isBrokenImagePart (parts ct) = false ->
      lastImagePart (parts ct) = None ->
      resultOf (editImage prompt imageFile env k) = Throw NoImageReturned)
  /\ (existsb isBrokenImagePart (parts ct) = false ->
      forall part,
        lastImagePart (parts ct) = Some part ->
        exists blob d,
          inlineData part = Some blob /\ data blob = Some d
          /\ resultOf (editImage prompt imageFile env k)
             = Ok (responseTextOf (parts ct),
                   editedFile prompt imageFile
                     (clock env (k + length (filter isImagePart (parts ct)) - 1))
                     (mimeType blob) d))
  /\ (forall p, JS.truthyOpt (text p) = true -> isImagePart p = false).
Proof.
  intros Hb Hresp Hc Hct.
  rewrite (editImage_answered _ _ _ _ _ _ _ _ _ Hb Hresp Hc Hct).
  split; [|split; [|split]].
  - intros Hbroken. now rewrite editLoop_broken.
  - intros Hok Hnone. rewrite (editLoop_outcome _ _ _ _ _ _ _ Hok), Hnone.
    reflexivity.
  - intros Hok part Hlast.
    destruct (lastImagePart_image _ _ Hlast) as [Hin Himg].
    destruct (image_not_broken _ _ Hok Hin Himg) as [blob [d [Hblob Hd]]].
    exists blob, d. split; [exact Hblob|]. split; [exact Hd|].
    rewrite (editLoop_outcome _ _ _ _ _ _ _ Hok), Hlast, Hblob, Hd.
    reflexivity.
  - intros p Ht. unfold isImagePart. now rewrite Ht.
Qed.

(** A response with a text, an image, a second text and a second image: the
    texts are concatenated and the second image is returned.  A response
    with a text only: the no-image error. *)
Lemma editImage_outcome_witness :
  (let twoImages : Env :=
     {| clock := fun n => N.of_nat n;
        models_generateImages := fun _ => Throw TypeError;
        models_generateContent := fun _ =>
          Ok {| resp_text := Some EmptyString;
                candidates :=
                  Some [ {| content :=
                              Some {| role := Some model;
                                      parts := [ textPart "a";
                                                 dataPart "image/png" (Some "X");
                                                 textPart "b";
                                                 dataPart "image/jpeg" (Some "Y") ] |};
                            groundingMetadata := None |} ] |};
        models_generateContentStream := fun _ => Throw TypeError |} in
   resultOf (editImage "brighter" Sample.png twoImages 0)
   = Ok ("ab", editedFile "brighter" Sample.png 1 "image/jpeg" "Y"))
  /\ resultOf (editImage "brighter" Sample.png Sample.noImage 0)
     = Throw NoImageReturned.
Proof.
  split.
  - cbv zeta.
    match goal with
    | |- resultOf (editImage _ _ ?env _) = _ =>
        destruct (proj1 (proj2 (proj2
                   (editImage_outcome "brighter" Sample.png env 0
                      {| mimeType := "image/png"; data := Some "AAAA" |}
                      _ _ [] _ eq_refl eq_refl eq_refl eq_refl)))
                   eq_refl (dataPart "image/jpeg" (Some "Y")) eq_refl)
          as [blob [d [Hblob [Hd H]]]]
    end.
    inversion Hblob; subst blob. inversion Hd; subst d. exact H.
  - exact (proj1 (proj2 (editImage_outcome "brighter" Sample.png Sample.noImage 0
                           {| mimeType := "image/png"; data := Some "AAAA" |}
                           _ _ [] _ eq_refl eq_refl eq_refl eq_refl))
             eq_refl eq_refl).
Defined.

(** X7.  The file that [editImage] returns is named after the file it was
    given, with the prefix [edited_]; its data string is
    [data:<type>;base64,<data>] for the media type and the data of an image
    part of the response, and its size is the length of that data.  When the
    media type holds no colon, semicolon or comma and the data no comma, the
    data string is taken apart again into that type and that data: editing
    the returned file sends exactly the returned image to the backend. *)
Theorem editImage_file_roundtrip
    (prompt : string) (imageFile : UploadedFile) (env : Env) (k : nat)
    (rt : string) (ef : UploadedFile) :
  resultOf (editImage prompt imageFile env k) = Ok (rt, ef) ->
  file_name ef = ("edited_" ++ file_name imageFile)%string
  /\ exists d,
       file_data ef = dataUri (file_type ef) d
       /\ file_size ef = String.length d
       /\ (JS.contains ","%char (file_type ef) = false ->
           JS.contains ":"%char (file_type ef) = false ->
           JS.contains ";"%char (file_type ef) = false ->
           JS.contains ","%char d = false ->
           splitData (file_data ef)
           = Ok {| mimeType := file_type ef; data := Some d |}
           /\ forall prompt' env' k',
                logOf (editImage prompt' ef env' k')
                = [Await (GenerateContent
                            (editRequest prompt'
                               {| mimeType := file_type ef; data := Some d |}))]).
Proof.
  intros H.
  destruct (editImage_result _ _ _ _ _ _ H)
    as (b & resp & c & cs & ct & _ & _ & _ & _ & _ & part & blob & d & t
        & _ & _ & _ & Hef).
  subst ef. split; [reflexivity|]. exists d.
  split; [reflexivity|]. split; [reflexivity|].
  intros H1 H2 H3 H4.
  assert (Hsplit : splitData (file_data (editedFile prompt imageFile t (mimeType blob) d))
                   = Ok {| mimeType := mimeType blob; data := Some d |})
    by (now apply splitData_dataUri).
  split; [exact Hsplit|].
  intros prompt' env' k'. rewrite editImage_log, Hsplit. reflexivity.
Qed.

Lemma editImage_file_roundtrip_witness :
  exists rt ef,
    resultOf (editImage "brighter" Sample.png Sample.env 0) = Ok (rt, ef)
    /\ file_name ef = "edited_cat.png"
    /\ splitData (file_data ef)
       = Ok {| mimeType := "image/png"; data := Some "DDDD" |}.
Proof.
  eexists _, _. split; [reflexivity|].
  destruct (editImage_file_roundtrip "brighter" Sample.png Sample.env 0 _ _
              eq_refl) as [Hname [d [Hdata [_ Hsplit]]]].
  split; [exact Hname|].
  reflexivity.
Defined.

(* ===================================================================== *)
(** ** Further properties of the store handlers *)
(* ===================================================================== *)

(** X8.  [handleNewConversation] puts a new conversation, without turns and
    with the placeholder title, at the head of the list, leaves the other
    conversations as they are, and makes the new one active: it is the
    current conversation of the next render, also when an older conversation
    has the same id. *)
Theorem handleNewConversation_activates (s : Store) (env : Env) (k : nat) :
  let out := handleNewConversation env k in
  let s' := run (logOf out) s in
  exists c,
    conversations s' = c :: conversations s
    /\ conv_id c = ("conv-" ++ JS.ofNumber (clock env k))%string
    /\ conv_title c = "New Conversation"
    /\ conv_messages c = []
    /\ currentConversationId s' = Some (conv_id c)
    /\ currentConversation s' = Some c
    /\ activeValid s'
    /\ isThinking s' = isThinking s
    /\ resultOf out = Ok tt.
Proof.
  cbv zeta. eexists. unfold handleNewConversation, bind, now, emit, logOf, run.
  cbn [fst snd app fold_left step conversations currentConversationId
       isThinking applyUpdater].
  repeat (split; [reflexivity|]).
  split; [|split; [|split]]; try reflexivity.
  - unfold currentConversation. cbn. now rewrite String.eqb_refl.
  - unfold activeValid, convOf. cbn. rewrite String.eqb_refl. discriminate.
Qed.

Lemma map_patch_absent (messageId : string) (ms : list Message) :
  Forall (fun m => msg_id m <> messageId) ms ->
  filter (fun m => negb (msg_id m =? messageId)) ms = ms.
Proof.
  induction 1 as [|m l Hm _ IH]; simpl; [reflexivity|].
  apply String.eqb_neq in Hm. now rewrite Hm, IH.
Qed.

Lemma filter_filter_same {A} (f : A -> bool) (l : list A) :
  filter f (filter f l) = filter f l.
Proof.
  induction l as [|a l IH]; simpl; [reflexivity|].
  destruct (f a) eqn:E; simpl; [now rewrite E, IH | exact IH].
Qed.

(** X9.  [handleDeleteMessage] removes from the conversations with the
    active id every turn with the given id and keeps their other turns in
    order; it keeps the ids, titles and number of the conversations, the
    conversations with another id, the active id and the flag.  Deleting the
    same turn again changes nothing, and without an active id nothing is
    done. *)
Theorem handleDeleteMessage_removes
    (s : Store) (messageId : string) (env : Env) (k : nat) :
  let out := handleDeleteMessage s messageId env k in
  let s' := run (logOf out) s in
  resultOf out = Ok tt
  /\ map conv_id (conversations s') = map conv_id (conversations s)
  /\ map conv_title (conversations s') = map conv_title (conversations s)
  /\ currentConversationId s' = currentConversationId s
  /\ isThinking s' = isThinking s
  /\ (forall cur,
        currentConversationId s = Some cur -> cur <> EmptyString ->
        others cur (conversations s') = others cur (conversations s)
        /\ (forall c c',
              convOf cur s = Some c -> convOf cur s' = Some c' ->
              conv_messages c'
              = filter (fun m => negb (msg_id m =? messageId)) (conv_messages c))
        /\ (forall c', In c' (conversations s') -> conv_id c' = cur ->
              Forall (fun m => msg_id m <> messageId) (conv_messages c')))
  /\ run (logOf (handleDeleteMessage s' messageId env k)) s' = s'
  /\ (currentConversationId s = None -> s' = s).
Proof.
  cbv zeta. unfold handleDeleteMessage.
  destruct (currentConversationId s) as [cur|] eqn:Hcur.
  2:{ unfold ret, logOf, resultOf, run. simpl. rewrite Hcur. simpl.
      do 5 (split; [reflexivity|]).
      split; [intros cur Hc; discriminate|]. split; reflexivity. }
  destruct (JS.truthy cur) eqn:Htruthy.
  2:{ destruct cur as [|a cur']; [|discriminate].
      unfold ret, logOf, resultOf, run. simpl. rewrite Hcur. simpl.
      do 5 (split; [reflexivity|]).
      split; [intros cur Hc Hne; inversion Hc; congruence|].
      split; [reflexivity | discriminate]. }
  unfold emit, logOf, resultOf, run.
  cbn [fst snd fold_left step conversations currentConversationId isThinking
       applyUpdater].
  rewrite Hcur, Htruthy.
  cbn [fst snd fold_left step conversations currentConversationId isThinking
       applyUpdater].
  set (del := fun c : Conversation =>
                if conv_id c =? cur
                then withMessages c
                       (filter (fun m => negb (msg_id m =? messageId))
                          (conv_messages c))
                else c).
  assert (Hid : forall c, conv_id (del c) = conv_id c)
    by (intros c; unfold del; destruct (conv_id c =? cur); reflexivity).
  assert (Htitle : forall c, conv_title (del c) = conv_title c)
    by (intros c; unfold del; destruct (conv_id c =? cur); reflexivity).
  split; [reflexivity|].
  split; [rewrite map_map; apply map_ext; exact Hid|].
  split; [rewrite map_map; apply map_ext; exact Htitle|].
  split; [reflexivity|]. split; [reflexivity|].
  split; [|split].
  - intros cur' Hc Hne. inversion Hc; subst cur'. split; [|split].
    + unfold others. induction (conversations s) as [|c l IH]; simpl;
        [reflexivity|].
      rewrite Hid. destruct (conv_id c =? cur) eqn:E; simpl; [exact IH|].
      unfold del at 1. rewrite E. now rewrite IH.
    + intros c c' Hfind Hfind'. unfold convOf in *. simpl in Hfind'.
      rewrite find_map_id in Hfind' by exact Hid.
      rewrite Hfind in Hfind'. simpl in Hfind'. inversion Hfind'; subst c'.
      apply find_some in Hfind. destruct Hfind as [_ E].
      unfold del. rewrite E. reflexivity.
    + intros c' Hin Hc'. apply in_map_iff in Hin.
      destruct Hin as [c [Hdel Hin]]. subst c'. rewrite Hid in Hc'.
      unfold del. apply String.eqb_eq in Hc'. rewrite Hc'. simpl.
      apply Forall_forall. intros m Hm. apply filter_In in Hm.
      destruct Hm as [_ Hm]. apply negb_true_iff in Hm.
      now apply String.eqb_neq.
  - f_equal. rewrite map_map. apply map_ext. intros c. unfold del.
    destruct (conv_id c =? cur) eqn:E; [|now rewrite E].
    simpl. rewrite E. unfold withMessages. simpl.
    now rewrite filter_filter_same.
  - discriminate.
Qed.

Lemma handleDeleteMessage_removes_witness :
  let s' := run (logOf (handleDeleteMessage
                          {| conversations := [Sample.conv1; Sample.conv2];
                             currentConversationId := Some "conv-2";
                             isThinking := false |} "msg-1" Sample.env 0))
                {| conversations := [Sample.conv1; Sample.conv2];
                   currentConversationId := Some "conv-2";
                   isThinking := false |} in
  map (fun c => map msg_id (conv_messages c)) (conversations s')
  = [[]; ["msg-2-bot"]]
  /\ others "conv-2" (conversations s') = [Sample.conv1].
Proof.
  split; [reflexivity|].
  refine (proj1 (proj1 (proj2 (proj2 (proj2 (proj2 (proj2
            (handleDeleteMessage_removes
               {| conversations := [Sample.conv1; Sample.conv2];
                  currentConversationId := Some "conv-2";
                  isThinking := false |} "msg-1" Sample.env 0))))))
            "conv-2" eq_refl _)).
  discriminate.
Defined.

(* ===================================================================== *)
(** ** The active conversation stays valid *)
(* ===================================================================== *)

Lemma benign_current (l : list Action) :
  Forall benign l ->
  forall s, currentConversationId (run l s) = currentConversationId s.
Proof.
  unfold run. induction 1 as [|a l Ha _ IH]; intros s; [reflexivity|].
  cbn [fold_left]. rewrite IH.
  destruct a as [[]| | | |]; simpl in Ha; try contradiction; reflexivity.
Qed.

Lemma benign_activeValid (l : list Action) (s : Store) :
  Forall benign l -> activeValid s -> activeValid (run l s).
Proof.
  intros Hl Hs. unfold activeValid in *. rewrite (benign_current _ Hl).
  destruct (currentConversationId s) as [id|]; [|exact I].
  destruct (convOf id s) as [c|] eqn:Hc; [|congruence].
  destruct (benign_present id l Hl s c Hc) as [c' Hc']. congruence.
Qed.

Lemma thinking_activeValid (b : bool) (s : Store) :
  activeValid s -> activeValid (step s (SetIsThinking b)).
Proof. intros H. exact H. Qed.

Lemma find_filter_other (cur id : string) (prev : list Conversation) :
  cur <> id ->
  find (fun c => conv_id c =? cur) prev <> None ->
  find (fun c => conv_id c =? cur)
       (filter (fun c => negb (conv_id c =? id)) prev) <> None.
Proof.
  intros Hne. induction prev as [|c l IH]; simpl; [congruence|].
  destruct (conv_id c =? cur) eqn:Ec.
  - intros _. apply String.eqb_eq in Ec.
    assert (Eid : (conv_id c =? id) = false)
      by (apply String.eqb_neq; congruence).
    rewrite Eid. simpl. apply String.eqb_eq in Ec. rewrite Ec. discriminate.
  - intros H. destruct (conv_id c =? id); simpl; [now apply IH|].
    rewrite Ec. now apply IH.
Qed.

Lemma guarded_activeValid (body : M unit) label errorMessage convId env k s :
  emits benign body ->
  activeValid s ->
  activeValid
    (run (logOf (tryFinally (tryCatch body (catchBlock label errorMessage convId))
                   (emit (SetIsThinking false)) env k)) s).
Proof.
  intros Hb Hs.
  destruct (guarded_shape body label errorMessage convId env k Hb)
    as [mid [Hmid [Hben _]]].
  rewrite Hmid, run_app. unfold run at 1. cbn [fold_left].
  apply thinking_activeValid. now apply benign_activeValid.
Qed.

(** X10.  The active id never dangles.  After [handleNewConversation] and
    after [handleSendMessage] the active id is the id of a conversation of
    the list, whatever the state before (a send with a dangling active id
    creates a conversation and makes it active).  After
    [handleDeleteConversation] of the active conversation the active id is
    none or the id of a conversation that remains.  The other handlers
    ([handleDeleteConversation] of another conversation,
    [handleDeleteMessage], [handleEditImage]) keep the active id valid when
    it was. *)
Theorem active_id_stays_valid
    (s : Store) (settings : Settings) (text : string)
    (files : list UploadedFile) (sendMode : SendMode)
    (prompt : string) (fileToEdit : UploadedFile) (id messageId : string)
    (env : Env) (k : nat) :
  activeValid (run (logOf (handleNewConversation env k)) s)
  /\ activeValid
       (run (logOf (handleSendMessage s settings text files sendMode env k)) s)
  /\ currentConversationId
       (run (logOf (handleSendMessage s settings text files sendMode env k)) s)
     <> None
  /\ (currentConversationId s = Some id ->
      activeValid (run (logOf (handleDeleteConversation s id env k)) s))
  /\ (activeValid s ->
      activeValid (run (logOf (handleDeleteConversation s id env k)) s)
      /\ activeValid (run (logOf (handleDeleteMessage s messageId env k)) s)
      /\ activeValid (run (logOf (handleEditImage s prompt fileToEdit env k)) s)).
Proof.
  assert (Hsend :
            activeValid
              (run (logOf (handleSendMessage s settings text files sendMode
                             env k)) s)
            /\ currentConversationId
                 (run (logOf (handleSendMessage s settings text files sendMode
                                env k)) s) <> None).
  { destruct (sendPrologue_ok s text files sendMode env k) as [conv Hconv].
    rewrite (handleSendMessage_run _ _ _ _ _ _ _ _ Hconv), logOf_mk, run_app.
    assert (Hp : activeValid
                   (run (logOf (sendPrologue s text files sendMode env k)) s)
                 /\ currentConversationId
                      (run (logOf (sendPrologue s text files sendMode env k)) s)
                    <> None).
    { destruct (currentConversation s) as [c|] eqn:Hc.
      - rewrite (sendPrologue_existing _ _ _ _ _ _ _ Hc), logOf_mk.
        unfold run, activeValid, convOf.
        cbn [fold_left step conversations currentConversationId applyUpdater].
        unfold currentConversation in Hc.
        destruct (currentConversationId s) as [cur|]; [|discriminate].
        split; [|discriminate].
        rewrite find_map_id.
        + rewrite Hc. discriminate.
        + intros c'. unfold updateWithUserMessage.
          destruct (conv_id c' =? conv_id c); reflexivity.
      - pose proof (sendPrologue_new s text files sendMode env k Hc) as Hp.
        cbv zeta in Hp. rewrite Hp, logOf_mk.
        unfold run, activeValid, convOf.
        cbn [fold_left step conversations currentConversationId applyUpdater
             find withMessages conv_id].
        rewrite String.eqb_refl. split; discriminate. }
    destruct Hp as [Hp1 Hp2]. split.
    - apply guarded_activeValid; [apply sendBody_benign | exact Hp1].
    - destruct (guarded_shape
                  (sendBody (conv_messages conv) (conv_id conv) text files
                     settings sendMode)
                  "Error processing message:" apologySend (conv_id conv) env
                  (tickOf (sendPrologue s text files sendMode env k))
                  (sendBody_benign _ _ _ _ _ _)) as [mid [Hmid [Hben _]]].
      rewrite Hmid, run_app. unfold run at 1. cbn [fold_left step
        currentConversationId]. now rewrite (benign_current _ Hben). }
  split; [|split; [exact (proj1 Hsend)|split; [exact (proj2 Hsend)|split]]].
  - unfold handleNewConversation, bind, now, emit, logOf, run, activeValid,
      convOf. cbn. rewrite String.eqb_refl. discriminate.
  - intros Hcur. unfold handleDeleteConversation, bind, emit, logOf.
    rewrite Hcur, String.eqb_refl. unfold run, activeValid, convOf. cbn.
    destruct (filter (fun c => negb (conv_id c =? id)) (conversations s))
      as [|h t]; [exact I|].
    cbn. rewrite String.eqb_refl. discriminate.
  - intros Hs. split; [|split].
    + unfold handleDeleteConversation, bind, emit, logOf.
      destruct (currentConversationId s) as [cur|] eqn:Hcur.
      * destruct (cur =? id) eqn:E.
        -- unfold run, activeValid, convOf. cbn.
           destruct (filter (fun c => negb (conv_id c =? id)) (conversations s))
             as [|h t]; [exact I|].
           cbn. rewrite String.eqb_refl. discriminate.
        -- unfold run, activeValid, convOf in *. cbn. rewrite Hcur in *.
           apply find_filter_other; [|exact Hs].
           now apply String.eqb_neq.
      * unfold run, activeValid. cbn. now rewrite Hcur.
    + unfold handleDeleteMessage.
      destruct (currentConversationId s) as [cur|] eqn:Hcur;
        [|unfold run, activeValid; cbn; now rewrite Hcur].
      destruct (JS.truthy cur); [|exact Hs].
      unfold emit, logOf, run, activeValid, convOf in *. cbn.
      rewrite Hcur in *. rewrite find_map_id.
      * destruct (find _ (conversations s)); [discriminate | congruence].
      * intros c. destruct (conv_id c =? cur); reflexivity.
    + destruct (currentConversation s) as [conv|] eqn:Hc.
      * rewrite (handleEditImage_run _ _ _ _ _ _ Hc), logOf_mk, run_app.
        apply guarded_activeValid; [apply editBody_benign|].
        unfold run. cbn [fold_left]. apply thinking_activeValid.
        apply (benign_activeValid
                 [SetConversations
                    (UAppendMessage (conv_id conv)
                       (userMessage (clock env k) (clock env (S k)) prompt
                          [fileToEdit]))] s);
          [repeat constructor | exact Hs].
      * unfold handleEditImage. rewrite Hc. exact Hs.
Qed.

(** A send while the active id names a deleted conversation: a conversation
    is created and becomes the active one. *)
Lemma active_id_stays_valid_witness :
  let dangling := {| conversations := [Sample.conv2];
                     currentConversationId := Some "conv-9";
                     isThinking := false |} in
  ~ activeValid dangling
  /\ activeValid
       (run (logOf (handleSendMessage dangling Sample.settingsOff "hello" []
                      ModeDefault Sample.env 0)) dangling)
  /\ activeValid
       (run (logOf (handleDeleteConversation Sample.store1 "conv-2" Sample.env 0))
            Sample.store1).
Proof.
  cbv zeta. split; [|split].
  - intros H. now apply H.
  - exact (proj1 (proj2 (active_id_stays_valid _ Sample.settingsOff "hello" []
                           ModeDefault "p" Sample.png "conv-2" "m"
                           Sample.env 0))).
  - assert (Hv : activeValid Sample.store1) by (cbv; discriminate).
    exact (proj1 (proj2 (proj2 (proj2 (proj2
             (active_id_stays_valid Sample.store1 Sample.settingsOff "hello" []
                ModeDefault "p" Sample.png "conv-2" "m" Sample.env 0)))) Hv)).
Defined.

(* ===================================================================== *)
(** ** A send touches one conversation *)
(* ===================================================================== *)

Lemma others_map (f : Conversation -> Conversation) (id : string)
    (l : list Conversation) :
  (forall c, conv_id (f c) = conv_id c) ->
  (forall c, (conv_id c =? id) = false -> f c = c) ->
  others id (map f l) = others id l.
Proof.
  intros Hid Hsame. unfold others.
  induction l as [|c l IH]; simpl; [reflexivity|].
  rewrite Hid. destruct (conv_id c =? id) eqn:E; simpl; [exact IH|].
  now rewrite (Hsame c E), IH.
Qed.

Lemma touches_step (id : string) (a : Action) (s : Store) :
  touchesOnly id a ->
  others id (conversations (step s a)) = others id (conversations s).
Proof.
  destruct a as [[c|d|convId mid|convId m|convId m t|convId mid t g]| | | |];
    simpl; intros H; try reflexivity; try contradiction; subst.
  - unfold others. simpl. now rewrite String.eqb_refl.
  - apply others_map; intros c; [destruct (conv_id c =? id); reflexivity|].
    now intros ->.
  - apply others_map; intros c; [destruct (conv_id c =? id); reflexivity|].
    now intros ->.
  - apply others_map; intros c; unfold updateWithUserMessage;
      [destruct (conv_id c =? id); reflexivity|].
    now intros ->.
  - apply others_map; intros c; [destruct (conv_id c =? id); reflexivity|].
    now intros ->.
Qed.

Lemma touches_run (id : string) (l : list Action) :
  Forall (touchesOnly id) l ->
  forall s, others id (conversations (run l s)) = others id (conversations s).
Proof.
  unfold run. induction 1 as [|a l Ha _ IH]; intros s; [reflexivity|].
  cbn [fold_left]. rewrite IH. now apply touches_step.
Qed.

Lemma benign_length (l : list Action) :
  Forall benign l ->
  forall s, length (conversations (run l s)) = length (conversations s).
Proof.
  unfold run. induction 1 as [|a l Ha _ IH]; intros s; [reflexivity|].
  cbn [fold_left]. rewrite IH.
  destruct a as [[]| | | |]; simpl in Ha; try contradiction;
    try reflexivity; simpl; apply length_map.
Qed.

Lemma sendBody_touches history convId text files settings sendMode :
  emits (touchesOnly convId)
    (sendBody history convId text files settings sendMode).
Proof.
  assert (HA : forall c, touchesOnly convId (Await c)) by (intros; exact I).
  unfold sendBody.
  assert (Hgen : emits (touchesOnly convId) (imageGenerateBranch convId text)).
  { unfold imageGenerateBranch.
    apply emits_bind; [now apply emits_generateImage | intros f].
    repeat emits_step. }
  destruct (isImageMode sendMode).
  - destruct files as [|file0 rest]; [exact Hgen|].
    destruct (JS.startsWith "image/" (file_type file0)); [|exact Hgen].
    unfold imageEditBranch.
    apply emits_bind; [now apply emits_editImage | intros [rt ef]].
    repeat emits_step.
  - unfold streamBranch.
    apply emits_bind; [apply emits_now | intros t].
    apply emits_bind; [apply emits_now | intros ts].
    apply emits_bind; [apply emits_emit; reflexivity | intros _].
    apply emits_bind; [now apply emits_streamResponse | intros st].
    intros env k. eapply Forall_impl; [|apply streamLoop_patches].
    intros a [t' [g Ha]]. subst a. reflexivity.
Qed.

Lemma editBody_touches convId prompt fileToEdit :
  emits (touchesOnly convId) (editBody convId prompt fileToEdit).
Proof.
  unfold editBody.
  apply emits_bind; [apply emits_editImage; intros; exact I | intros [rt ef]].
  repeat emits_step.
Qed.

Lemma guarded_touches (body : M unit) label errorMessage convId env k :
  emits (touchesOnly convId) body ->
  Forall (touchesOnly convId)
    (logOf (tryFinally (tryCatch body (catchBlock label errorMessage convId))
              (emit (SetIsThinking false)) env k)).
Proof.
  intros Hb. rewrite guarded_run. specialize (Hb env k).
  destruct (resultOf (body env k)) as [[]|e]; rewrite logOf_mk;
    apply Forall_app; split; try exact Hb; repeat constructor.
Qed.

(** X11.  A send changes no conversation but its own: the conversations
    whose id is not the id of the conversation of the send are the same
    after the send, in the same order.  The list grows by one conversation
    when the send had to create one, and keeps its length otherwise.  The
    editing shortcut likewise changes the active conversation only. *)
Theorem send_touches_one_conversation
    (s : Store) (settings : Settings) (text : string)
    (files : list UploadedFile) (sendMode : SendMode)
    (prompt : string) (fileToEdit : UploadedFile)
    (env : Env) (k : nat) (conv : Conversation) :
  (resultOf (sendPrologue s text files sendMode env k) = Ok conv ->
   let s' := run (logOf (handleSendMessage s settings text files sendMode
                           env k)) s in
   others (conv_id conv) (conversations s')
   = others (conv_id conv) (conversations s)
   /\ length (conversations s')
      = length (conversations s)
        + match currentConversation s with Some _ => 0 | None => 1 end)
  /\ (currentConversation s = Some conv ->
      let s' := run (logOf (handleEditImage s prompt fileToEdit env k)) s in
      others (conv_id conv) (conversations s')
      = others (conv_id conv) (conversations s)
      /\ length (conversations s') = length (conversations s)).
Proof.
  split.
  - intros Hconv s'. subst s'.
    rewrite (handleSendMessage_run _ _ _ _ _ _ _ _ Hconv), logOf_mk, run_app.
    set (p := sendPrologue s text files sendMode env k) in *.
    split.
    + rewrite touches_run
        by (apply guarded_touches; apply sendBody_touches).
      apply touches_run. subst p.
      destruct (currentConversation s) as [c|] eqn:Hc.
      * rewrite (sendPrologue_existing _ _ _ _ _ _ _ Hc) in *.
        rewrite resultOf_mk in Hconv. inversion Hconv; subst c.
        rewrite logOf_mk. repeat constructor.
      * pose proof (sendPrologue_new s text files sendMode env k Hc) as Hp.
        cbv zeta in Hp. rewrite Hp in *.
        rewrite resultOf_mk in Hconv. inversion Hconv; subst conv.
        rewrite logOf_mk. repeat constructor.
    + destruct (guarded_shape
                  (sendBody (conv_messages conv) (conv_id conv) text files
                     settings sendMode)
                  "Error processing message:" apologySend (conv_id conv) env
                  (tickOf p) (sendBody_benign _ _ _ _ _ _))
        as [mid [Hmid [Hben _]]].
      rewrite Hmid, run_app. unfold run at 1.
      cbn [fold_left step conversations]. rewrite (benign_length _ Hben).
      subst p. destruct (currentConversation s) as [c|] eqn:Hc.
      * rewrite (sendPrologue_existing _ _ _ _ _ _ _ Hc), logOf_mk.
        unfold run. cbn [fold_left step conversations applyUpdater].
        rewrite length_map. lia.
      * pose proof (sendPrologue_new s text files sendMode env k Hc) as Hp.
        cbv zeta in Hp. rewrite Hp, logOf_mk.
        unfold run. cbn [fold_left step conversations applyUpdater length].
        lia.
  - intros Hc s'. subst s'.
    rewrite (handleEditImage_run _ _ _ _ _ _ Hc), logOf_mk, run_app.
    split.
    + rewrite touches_run by (apply guarded_touches; apply editBody_touches).
      apply touches_run. repeat constructor.
    + destruct (guarded_shape (editBody (conv_id conv) prompt fileToEdit)
                  "Error editing image:" apologyEdit (conv_id conv) env
                  (S (S k)) (editBody_benign _ _ _))
        as [mid [Hmid [Hben _]]].
      rewrite Hmid, run_app. unfold run at 1.
      cbn [fold_left step conversations]. rewrite (benign_length _ Hben).
      unfold run. cbn [fold_left step conversations applyUpdater].
      apply length_map.
Qed.

Lemma send_touches_one_conversation_witness :
  let s' := run (logOf (handleSendMessage Sample.store1 Sample.settingsOn
                          "query" [] ModeSearch Sample.env 0)) Sample.store1 in
  others "conv-1" (conversations s') = [Sample.conv2]
  /\ length (conversations s') = 2.
Proof.
  exact (proj1 (send_touches_one_conversation Sample.store1 Sample.settingsOn
                  "query" [] ModeSearch "p" Sample.png Sample.env 0
                  Sample.conv1) eq_refl).
Defined.

(* ===================================================================== *)
(** ** The streaming fold *)
(* ===================================================================== *)

Lemma patchMessage_twice messageId t1 g1 t2 g2 (m : Message) :
  patchMessage messageId t2 g2 (patchMessage messageId t1 g1 m)
  = patchMessage messageId t2 g2 m.
Proof.
  unfold patchMessage. destruct (msg_id m =? messageId) eqn:E; simpl;
    now rewrite E.
Qed.

(** Of two patches of the same turn, the second one wins. *)
Lemma patch_twice convId messageId t1 g1 t2 g2 (s : Store) :
  step (step s (SetConversations (UPatchMessage convId messageId t1 g1)))
       (SetConversations (UPatchMessage convId messageId t2 g2))
  = step s (SetConversations (UPatchMessage convId messageId t2 g2)).
Proof.
  unfold step. cbn [conversations currentConversationId isThinking applyUpdater].
  f_equal. rewrite map_map. apply map_ext. intros c.
  destruct (conv_id c =? convId) eqn:E; [|now rewrite E].
  simpl. rewrite E. unfold withMessages. simpl. f_equal.
  rewrite map_map. apply map_ext. intros m. apply patchMessage_twice.
Qed.

Lemma string_app_empty (a : string) : (a ++ EmptyString)%string = a.
Proof. induction a as [|c a IH]; simpl; [reflexivity | now rewrite IH]. Qed.

Lemma streamLoop_result convId modelMessage (st : Stream) :
  forall acc env k,
    resultOf (streamLoop convId modelMessage st acc env k)
    = match streamError st with None => Ok tt | Some e => Throw e end.
Proof.
  induction st as [| e | chunk rest IH]; intros acc env k;
    try reflexivity.
  cbn [streamLoop streamError]. rewrite resultOf_bind. simpl. apply IH.
Qed.

Lemma streamLoop_length convId modelMessage (st : Stream) :
  forall acc env k,
    length (logOf (streamLoop convId modelMessage st acc env k))
    = length (chunksOf st).
Proof.
  induction st as [| e | chunk rest IH]; intros acc env k;
    try reflexivity.
  cbn [streamLoop chunksOf]. rewrite logOf_bind. simpl. now rewrite IH.
Qed.

(** The store after the streaming loop is the store after one patch, which
    carries the whole text received and the grounding chunks that go with
    the last fragment. *)
Lemma streamLoop_run convId modelMessage (st : Stream) :
  forall acc env k s,
    run (logOf (streamLoop convId modelMessage st acc env k)) s
    = match lastChunk st with
      | None => s
      | Some c =>
          step s (SetConversations
                    (UPatchMessage convId (msg_id modelMessage)
                       (acc ++ joinTexts (chunksOf st))%string
                       (groundingFor modelMessage c)))
      end.
Proof.
  induction st as [| e | chunk rest IH]; intros acc env k s;
    try reflexivity.
  cbn [streamLoop chunksOf lastChunk]. rewrite logOf_bind.
  cbn [resultOf emit snd fst logOf tickOf].
  change (run ([?a] ++ ?l) s) with (run l (step s a)).
  rewrite IH. unfold joinTexts. cbn [fold_right].
  destruct (lastChunk rest) as [c|] eqn:Hl.
  - rewrite patch_twice. now rewrite string_app_assoc.
  - assert (Hnone : chunksOf rest = []).
    { destruct rest as [| e |c' rest']; try reflexivity.
      simpl in Hl. destruct (lastChunk rest'); discriminate. }
    rewrite Hnone. cbn [fold_right]. rewrite string_app_empty. reflexivity.
Qed.

(** X12.  The streaming loop emits one patch for each fragment, and ends
    normally or with the exception that ends the stream.  Its effect on the
    store is that of its last patch alone, which carries what [+=] has made
    of the texts of all the fragments received (also when the stream then
    fails): their concatenation, in which a fragment without text stands as
    the text [undefined]; and the grounding chunks computed for the last
    fragment.  Without a fragment the store is unchanged.  Applying the
    patches of the loop a second time changes nothing. *)
Theorem stream_fold_last_patch_wins
    (convId : string) (modelMessage : Message) (st : Stream)
    (acc : string) (env : Env) (k : nat) (s : Store) :
  let loop := streamLoop convId modelMessage st acc env k in
  resultOf loop = match streamError st with None => Ok tt | Some e => Throw e end
  /\ length (logOf loop) = length (chunksOf st)
  /\ run (logOf loop) s
     = match lastChunk st with
       | None => s
       | Some c =>
           step s (SetConversations
                     (UPatchMessage convId (msg_id modelMessage)
                        (acc ++ joinTexts (chunksOf st))%string
                        (groundingFor modelMessage c)))
       end
  /\ run (logOf loop ++ logOf loop) s = run (logOf loop) s.
Proof.
  cbv zeta. split; [apply streamLoop_result|].
  split; [apply streamLoop_length|]. split; [apply streamLoop_run|].
  rewrite run_app, !streamLoop_run.
  destruct (lastChunk st); [apply patch_twice | reflexivity].
Qed.

Lemma stream_fold_last_patch_wins_witness :
  let st := StreamChunk (Sample.fragment "a" (Some [Sample.source]))
              (StreamChunk {| resp_text := None; candidates := None |}
                 (StreamThrow (BackendRequestError "reset"))) in
  let loop := streamLoop "conv-2" (Sample.modelTurn None "hi") st EmptyString
                Sample.env 0 in
  resultOf loop = Throw (BackendRequestError "reset")
  /\ run (logOf loop) Sample.store1
     = step Sample.store1
         (SetConversations
            (UPatchMessage "conv-2" "msg-2-bot" "aundefined" None))
  /\ option_map (fun c => map msg_text (conv_messages c))
       (convOf "conv-2" (run (logOf loop) Sample.store1))
     = Some ["hello"; "aundefined"].
Proof.
  cbv zeta.
  destruct (stream_fold_last_patch_wins "conv-2" (Sample.modelTurn None "hi")
              (StreamChunk (Sample.fragment "a" (Some [Sample.source]))
                 (StreamChunk {| resp_text := None; candidates := None |}
                    (StreamThrow (BackendRequestError "reset"))))
              EmptyString Sample.env 0 Sample.store1) as [H1 [_ [H3 _]]].
  split; [exact H1|]. split; [exact H3|]. rewrite H3. reflexivity.
Defined.

(* ===================================================================== *)
(** ** Streamed sends, end to end *)
(* ===================================================================== *)

Lemma convOf_patch id messageId t g s c :
  convOf id s = Some c ->
  convOf id (step s (SetConversations (UPatchMessage id messageId t g)))
  = Some (withMessages c (map (patchMessage messageId t g) (conv_messages c))).
Proof.
  unfold convOf. intros Hc. cbn [step conversations applyUpdater].
  rewrite find_map_id.
  - rewrite Hc. simpl. apply find_some in Hc. destruct Hc as [_ E].
    now rewrite E.
  - intros c'. destruct (conv_id c' =? id); reflexivity.
Qed.

(** The streaming branch when the request can be built and the backend
    answers with a stream. *)
Lemma streamBranch_run history convId text files settings sendMode env k req st :
  buildRequest history text files settings sendMode = Ok req ->
  models_generateContentStream env req = Ok st ->
  let mm := botMessage "-bot" (clock env k) (clock env (S k)) EmptyString
              None (Some []) in
  let loop := streamLoop convId mm st EmptyString env (S (S k)) in
  streamBranch history convId text files settings sendMode env k
  = ([SetConversations (UAppendMessage convId mm);
      Await (GenerateContentStream req)] ++ logOf loop,
     tickOf loop, resultOf loop).
Proof.
  intros Hreq Hst. cbv zeta.
  unfold streamBranch, streamResponse, bind, now, emit, lift,
    await_generateContentStream, logOf, tickOf, resultOf.
  rewrite Hreq, Hst.
  destruct (streamLoop convId _ st EmptyString env (S (S k))) as [[l k'] r].
  reflexivity.
Qed.

Lemma streamLoop_tick convId modelMessage (st : Stream) :
  forall acc env k, tickOf (streamLoop convId modelMessage st acc env k) = k.
Proof.
  induction st as [| e | chunk rest IH]; intros acc env k; try reflexivity.
  cbn [streamLoop]. unfold bind, emit, tickOf in *.
  specialize (IH (acc ++ JS.ofOpt (resp_text chunk))%string env k).
  destruct (streamLoop convId modelMessage rest _ env k) as [[l k'] r].
  exact IH.
Qed.

(** X13.  A streamed send on the active conversation, when the request can be
    built and the backend answers with a stream.  One request is made.
    Afterwards the conversation holds its turns of before, then the user
    turn, then the model turn; when at least one fragment arrived, the turns
    with the id of the model turn carry what [+=] has made of the texts of
    all fragments (their concatenation, in which a fragment without text
    stands as the text [undefined]) and the grounding chunks computed for
    the last fragment; when the stream failed, the apology follows as a
    further model turn, and the text received before the failure is kept.
    The title changes only when the conversation had no turn. *)
Theorem streamed_send_result
    (s : Store) (settings : Settings) (text : string)
    (files : list UploadedFile) (sendMode : SendMode) (env : Env) (k : nat)
    (c : Conversation) (req : GenerateContentParameters) (st : Stream) :
  currentConversation s = Some c ->
  isImageMode sendMode = false ->
  buildRequest (conv_messages c) text files settings sendMode = Ok req ->
  models_generateContentStream env req = Ok st ->
  let um := userMessage (clock env k) (clock env (S k)) text files in
  let mm := botMessage "-bot" (clock env (2 + k)) (clock env (3 + k))
              EmptyString None (Some []) in
  let out := handleSendMessage s settings text files sendMode env k in
  awaited (logOf out) = [GenerateContentStream req]
  /\ convOf (conv_id c) (run (logOf out) s)
     = Some {| conv_id := conv_id c;
               conv_title := if (length (conv_messages c) =? 0)%nat
                             then titleFrom text else conv_title c;
               conv_messages :=
                 match lastChunk st with
                 | None => conv_messages c ++ [um; mm]
                 | Some lc =>
                     map (patchMessage (msg_id mm) (joinTexts (chunksOf st))
                            (groundingFor mm lc))
                         (conv_messages c ++ [um; mm])
                 end
                 ++ match streamError st with
                    | None => []
                    | Some _ =>
                        [errorBotMessage (clock env (4 + k)) (clock env (5 + k))
                           apologySend]
                    end;
               conv_createdAt := conv_createdAt c |}.
Proof.
  intros Hc Hmode Hreq Hst um mm out. subst out.
  pose proof (sendPrologue_existing s text files sendMode env k c Hc) as Hp.
  assert (Hconv : resultOf (sendPrologue s text files sendMode env k) = Ok c)
    by now rewrite Hp.
  set (loop := logOf (streamLoop (conv_id c) mm st EmptyString env (4 + k))).
  assert (Hloop_aw : awaited loop = []).
  { subst loop.
    generalize (streamLoop_patches (conv_id c) mm st EmptyString env (4 + k)).
    generalize (logOf (streamLoop (conv_id c) mm st EmptyString env (4 + k))).
    intros l Hall.
    induction Hall as [|a l [t [g Ha]] _ IH]; [reflexivity|].
    subst a. exact IH. }
  set (tail := match streamError st with
               | None => [SetIsThinking false]
               | Some e =>
                   [ConsoleError "Error processing message:" e;
                    SetConversations
                      (UAppendMessage (conv_id c)
                         (errorBotMessage (clock env (4 + k)) (clock env (5 + k))
                            apologySend));
                    SetIsThinking false]
               end).
  assert (Hlog : logOf (handleSendMessage s settings text files sendMode env k)
                 = ([SetConversations (UUserMessage (conv_id c) um text);
                     SetIsThinking true;
                     SetConversations (UAppendMessage (conv_id c) mm);
                     Await (GenerateContentStream req)] ++ loop) ++ tail).
  { assert (Hbody : sendBody (conv_messages c) (conv_id c) text files settings
                      sendMode env (S (S k))
                    = ([SetConversations (UAppendMessage (conv_id c) mm);
                        Await (GenerateContentStream req)] ++ loop,
                       4 + k,
                       match streamError st with
                       | None => Ok tt
                       | Some e => Throw e
                       end)).
    { unfold sendBody. rewrite Hmode.
      rewrite (streamBranch_run _ _ _ _ _ _ _ _ _ _ Hreq Hst).
      rewrite streamLoop_result, streamLoop_tick. reflexivity. }
    rewrite (handleSendMessage_run _ _ _ _ _ _ _ _ Hconv), guarded_run.
    rewrite Hp. replace (tickOf _) with (S (S k)) by reflexivity.
    rewrite Hbody. subst tail.
    destruct (streamError st) as [e|]; unfold logOf, tickOf, resultOf;
      cbn [fst snd app]; rewrite <- ?app_assoc; reflexivity. }
  rewrite Hlog.
  split.
  { rewrite !awaited_app, Hloop_aw. cbn [awaited app].
    subst tail. destruct (streamError st); reflexivity. }
  assert (Hc0 : convOf (conv_id c) s = Some c)
    by exact (currentConversation_id _ _ Hc).
  pose proof (convOf_user (conv_id c) um text s c Hc0) as H1.
  set (s1 := step s (SetConversations (UUserMessage (conv_id c) um text))) in *.
  set (c1 := updateWithUserMessage (conv_id c) um text c) in *.
  pose proof (append_lands (conv_id c) mm
                (step s1 (SetIsThinking true)) c1 H1) as H2.
  set (s2 := step (step s1 (SetIsThinking true))
               (SetConversations (UAppendMessage (conv_id c) mm))) in *.
  set (c2 := withMessages c1 (conv_messages c1 ++ [mm])) in *.
  set (c3 := match lastChunk st with
             | None => c2
             | Some lc =>
                 withMessages c2
                   (map (patchMessage (msg_id mm) (joinTexts (chunksOf st))
                           (groundingFor mm lc)) (conv_messages c2))
             end).
  assert (H3 : convOf (conv_id c)
                 (run ([SetConversations (UUserMessage (conv_id c) um text);
                        SetIsThinking true;
                        SetConversations (UAppendMessage (conv_id c) mm);
                        Await (GenerateContentStream req)] ++ loop) s)
               = Some c3).
  { rewrite run_app. change (run [_; _; _; _] s) with s2.
    subst loop c3. rewrite streamLoop_run.
    destruct (lastChunk st) as [lc|]; [|exact H2].
    now apply convOf_patch. }
  assert (Hc2 : conv_messages c2 = conv_messages c ++ [um; mm]).
  { subst c2 c1. unfold updateWithUserMessage. rewrite String.eqb_refl.
    simpl. now rewrite <- app_assoc. }
  assert (Hrec : forall ms,
             withMessages c2 ms
             = {| conv_id := conv_id c;
                  conv_title := if (length (conv_messages c) =? 0)%nat
                                then titleFrom text else conv_title c;
                  conv_messages := ms;
                  conv_createdAt := conv_createdAt c |}).
  { intros ms. subst c2 c1. unfold updateWithUserMessage.
    rewrite String.eqb_refl. reflexivity. }
  assert (Hc3 : c3 = {| conv_id := conv_id c;
                        conv_title := if (length (conv_messages c) =? 0)%nat
                                      then titleFrom text else conv_title c;
                        conv_messages :=
                          match lastChunk st with
                          | None => conv_messages c ++ [um; mm]
                          | Some lc =>
                              map (patchMessage (msg_id mm)
                                     (joinTexts (chunksOf st))
                                     (groundingFor mm lc))
                                  (conv_messages c ++ [um; mm])
                          end;
                        conv_createdAt := conv_createdAt c |}).
  { subst c3. destruct (lastChunk st) as [lc|].
    - now rewrite Hrec, Hc2.
    - rewrite <- Hc2, <- Hrec. subst c2. reflexivity. }
  subst tail. destruct (streamError st) as [e|].
  - rewrite (apology_lands _ _ _ _ _ _ _ H3). rewrite Hc3. reflexivity.
  - rewrite run_app. unfold run at 1. cbn [fold_left].
    change (convOf (conv_id c) (step ?x (SetIsThinking false)))
      with (convOf (conv_id c) x).
    rewrite H3, Hc3, app_nil_r. reflexivity.
Qed.

Lemma streamed_send_result_witness :
  exists c',
    convOf "conv-1"
      (run (logOf (handleSendMessage Sample.store1 Sample.settingsOn "query" []
                     ModeSearch Sample.textless 0)) Sample.store1) = Some c'
    /\ conv_title c' = "query"
    /\ map msg_role (conv_messages c') = [user; model]
    /\ map msg_text (conv_messages c') = ["query"; "aundefined"].
Proof.
  destruct (streamed_send_result Sample.store1 Sample.settingsOn "query" []
              ModeSearch Sample.textless 0 Sample.conv1 _
              (StreamChunk (Sample.fragment "a" None)
                 (StreamChunk {| resp_text := None; candidates := None |}
                    StreamEnd))
              eq_refl eq_refl eq_refl eq_refl) as [_ H].
  eexists. split; [exact H|]. repeat split.
Defined.

(** X14.  In a mode other than 'image', a send makes at most one backend
    request: the streaming request built from the turns that the
    conversation had in the render of the send (none for a conversation
    created by the send), the new text and the new files.  The user turn
    added by the send is not part of that history, so the new turn occurs in
    the request once, as its last content.  When the request cannot be
    built, no request is made. *)
Theorem streamed_send_request
    (s : Store) (settings : Settings) (text : string)
    (files : list UploadedFile) (sendMode : SendMode) (env : Env) (k : nat) :
  isImageMode sendMode = false ->
  let history := match currentConversation s with
                 | Some c => conv_messages c
                 | None => []
                 end in
  let out := handleSendMessage s settings text files sendMode env k in
  awaited (logOf out)
  = match buildRequest history text files settings sendMode with
    | Ok req => [GenerateContentStream req]
    | Throw _ => []
    end
  /\ (forall req,
        In (GenerateContentStream req) (awaited (logOf out)) ->
        length (gc_contents req) = length history + 1
        /\ exists ps,
             last (gc_contents req) {| role := None; parts := [] |}
             = {| role := Some user; parts := ps |}).
Proof.
  intros Hmode history out.
  assert (Haw : awaited (logOf out)
                = match buildRequest history text files settings sendMode with
                  | Ok req => [GenerateContentStream req]
                  | Throw _ => []
                  end).
  { subst out.
    destruct (sendPrologue_ok s text files sendMode env k) as [conv Hconv].
    rewrite (handleSendMessage_run _ _ _ _ _ _ _ _ Hconv), logOf_mk.
    destruct (sendPrologue_quiet s text files sendMode env k) as [Hpa _].
    destruct (guarded_tail
                (sendBody (conv_messages conv) (conv_id conv) text files
                   settings sendMode)
                "Error processing message:" apologySend (conv_id conv) env
                (tickOf (sendPrologue s text files sendMode env k)))
      as [tail [Hg [Hta _]]].
    rewrite Hg, !awaited_app, Hpa, Hta, app_nil_r. cbn [app].
    assert (Hhist : conv_messages conv = history).
    { subst history. destruct (currentConversation s) as [c|] eqn:Hc.
      - rewrite (sendPrologue_existing _ _ _ _ _ _ _ Hc), resultOf_mk in Hconv.
        now inversion Hconv.
      - pose proof (sendPrologue_new s text files sendMode env k Hc) as Hp.
        cbv zeta in Hp. rewrite Hp, resultOf_mk in Hconv.
        now inversion Hconv. }
    rewrite Hhist. unfold sendBody. rewrite Hmode. unfold streamBranch.
    rewrite logOf_bind. cbn [logOf now fst resultOf snd tickOf app].
    rewrite logOf_bind. cbn [logOf now fst resultOf snd tickOf app].
    rewrite logOf_bind. cbn [logOf emit fst resultOf snd tickOf].
    rewrite awaited_app. cbn [awaited app].
    rewrite logOf_bind, awaited_app, streamResponse_awaited.
    destruct (buildRequest history text files settings sendMode) as [req|e]
      eqn:Hreq.
    - destruct (resultOf (streamResponse history text files settings sendMode
                            env _)) as [st|e].
      + assert (Hnone : forall l,
                   Forall (fun a => exists t g,
                             a = SetConversations
                                   (UPatchMessage (conv_id conv)
                                      (msg_id (botMessage "-bot"
                                                 (clock env (tickOf (sendPrologue s text files sendMode env k)))
                                                 (clock env (S (tickOf (sendPrologue s text files sendMode env k))))
                                                 EmptyString None (Some [])))
                                      t g)) l ->
                   awaited l = []).
        { induction 1 as [|a l [t [g Ha]] _ IH]; [reflexivity|].
          subst a. exact IH. }
        rewrite (Hnone _ (streamLoop_patches _ _ _ _ _ _)). reflexivity.
      + reflexivity.
    - destruct (resultOf (streamResponse history text files settings sendMode
                            env _)) as [st|e']; [|reflexivity].
      assert (Hsilent : forall l,
                 Forall (fun a => exists t g,
                           a = SetConversations
                                 (UPatchMessage (conv_id conv)
                                    (msg_id (botMessage "-bot"
                                               (clock env (tickOf (sendPrologue s text files sendMode env k)))
                                               (clock env (S (tickOf (sendPrologue s text files sendMode env k))))
                                               EmptyString None (Some [])))
                                    t g)) l ->
                 awaited l = []).
      { induction 1 as [|a l [t [g Ha]] _ IH]; [reflexivity|].
        subst a. exact IH. }
      rewrite (Hsilent _ (streamLoop_patches _ _ _ _ _ _)). reflexivity. }
  split; [exact Haw|].
  intros req Hin. rewrite Haw in Hin.
  destruct (buildRequest history text files settings sendMode) as [req'|e]
    eqn:Hreq; [|contradiction].
  destruct Hin as [Hin | []]. inversion Hin; subst req'.
  unfold buildRequest in Hreq.
  destruct (mapHistoryToGenAI history) as [hs|e] eqn:Hh; simpl in Hreq;
    [|discriminate].
  destruct (pushFiles files []) as [ps|e]; simpl in Hreq; [|discriminate].
  inversion Hreq; subst; clear Hreq. cbn [gc_contents]. split.
  - rewrite length_app. apply mapHistoryToGenAI_pointwise in Hh.
    rewrite <- (Forall2_length Hh). reflexivity.
  - rewrite last_last. eexists. reflexivity.
Qed.

(** The first send without an active conversation: the request holds the new
    turn only. *)
Lemma streamed_send_request_witness :
  exists req,
    awaited (logOf (handleSendMessage Sample.storeNone Sample.settingsOff
                      "hello" [] ModeDefault Sample.env 0))
    = [GenerateContentStream req]
    /\ length (gc_contents req) = 1.
Proof.
  eexists. split; [reflexivity|].
  refine (proj1 (proj2 (streamed_send_request Sample.storeNone
                          Sample.settingsOff "hello" [] ModeDefault Sample.env 0
                          eq_refl) _ _)).
  left. reflexivity.
Defined.

(* ===================================================================== *)
(** ** The editing shortcut and the turns of a send *)
(* ===================================================================== *)

(** X15.  [handleEditImage] without a current conversation does nothing: no
    state change and no backend request.  With a current conversation it
    makes one image-editing request when the data of the file can be taken
    apart, and none otherwise.  When [editImage] returns, the conversation
    holds afterwards its turns of before, then the user turn with the prompt
    and the file, then one model turn with the text of the response and the
    edited file; its title is unchanged, also when it had no turn before. *)
Theorem handleEditImage_outcome
    (s : Store) (prompt : string) (fileToEdit : UploadedFile)
    (env : Env) (k : nat) :
  let out := handleEditImage s prompt fileToEdit env k in
  (currentConversation s = None ->
   logOf out = [] /\ resultOf out = Ok tt /\ run (logOf out) s = s)
  /\ (forall conv,
        currentConversation s = Some conv ->
        awaited (logOf out)
        = match splitData (file_data fileToEdit) with
          | Ok b => [GenerateContent (editRequest prompt b)]
          | Throw _ => []
          end
        /\ forall rt ef,
             resultOf (editImage prompt fileToEdit env (2 + k)) = Ok (rt, ef) ->
             exists t timestamp,
               convOf (conv_id conv) (run (logOf out) s)
               = Some {| conv_id := conv_id conv;
                         conv_title := conv_title conv;
                         conv_messages :=
                           conv_messages conv
                           ++ [ userMessage (clock env k) (clock env (S k))
                                  prompt [fileToEdit];
                                botMessage "-bot-edit" t timestamp rt
                                  (Some [ef]) None ];
                         conv_createdAt := conv_createdAt conv |}).
Proof.
  intros out. subst out. split.
  - intros Hc. unfold handleEditImage. rewrite Hc. repeat split.
  - intros conv Hc.
    rewrite (handleEditImage_run _ _ _ _ _ _ Hc), logOf_mk, guarded_run.
    assert (Hlog : logOf (editBody (conv_id conv) prompt fileToEdit env (S (S k)))
                   = logOf (editImage prompt fileToEdit env (S (S k)))
                     ++ match resultOf (editImage prompt fileToEdit env (S (S k))) with
                        | Ok (rt, ef) =>
                            [SetConversations
                               (UAppendMessage (conv_id conv)
                                  (botMessage "-bot-edit"
                                     (clock env (tickOf (editImage prompt fileToEdit env (S (S k)))))
                                     (clock env (S (tickOf (editImage prompt fileToEdit env (S (S k))))))
                                     rt (Some [ef]) None))]
                        | Throw _ => []
                        end).
    { unfold editBody. rewrite logOf_bind.
      destruct (resultOf (editImage prompt fileToEdit env (S (S k))))
        as [[rt ef]|e]; reflexivity. }
    assert (Hres : resultOf (editBody (conv_id conv) prompt fileToEdit env (S (S k)))
                   = match resultOf (editImage prompt fileToEdit env (S (S k))) with
                     | Ok _ => Ok tt
                     | Throw e => Throw e
                     end).
    { unfold editBody. rewrite resultOf_bind.
      destruct (resultOf (editImage prompt fileToEdit env (S (S k))))
        as [[rt ef]|e]; reflexivity. }
    split.
    + rewrite Hres, Hlog.
      destruct (resultOf (editImage prompt fileToEdit env (S (S k))))
        as [[rt ef]|e]; rewrite logOf_mk, !awaited_app, editImage_log;
        destruct (splitData (file_data fileToEdit)); reflexivity.
    + intros rt ef Hedit. change (2 + k) with (S (S k)) in Hedit.
      rewrite Hres, Hlog, Hedit, logOf_mk.
      set (ke := tickOf (editImage prompt fileToEdit env (S (S k)))).
      exists (clock env ke), (clock env (S ke)).
      set (m := botMessage "-bot-edit" (clock env ke) (clock env (S ke)) rt
                  (Some [ef]) None).
      set (u := userMessage (clock env k) (clock env (S k)) prompt [fileToEdit]).
      rewrite !run_app. unfold run at 1. cbn [fold_left].
      unfold run at 1. cbn [fold_left].
      rewrite editImage_quiet.
      set (s1 := run _ s).
      change (convOf (conv_id conv)
                (step s1 (SetConversations (UAppendMessage (conv_id conv) m)))
              = Some {| conv_id := conv_id conv;
                        conv_title := conv_title conv;
                        conv_messages := conv_messages conv ++ [u; m];
                        conv_createdAt := conv_createdAt conv |}).
      rewrite (append_lands (conv_id conv) m s1
                 (withMessages conv (conv_messages conv ++ [u]))).
      * unfold withMessages. simpl. now rewrite <- app_assoc.
      * subst s1. unfold run. cbn [fold_left].
        exact (append_lands (conv_id conv) _ s conv
                 (currentConversation_id _ _ Hc)).
Qed.

Lemma handleEditImage_outcome_witness :
  exists c',
    convOf "conv-2"
      (run (logOf (handleEditImage
                     {| conversations := [Sample.conv1; Sample.conv2];
                        currentConversationId := Some "conv-2";
                        isThinking := false |} "brighter" Sample.png
                     Sample.env 0))
           {| conversations := [Sample.conv1; Sample.conv2];
              currentConversationId := Some "conv-2";
              isThinking := false |}) = Some c'
    /\ map msg_text (conv_messages c') = ["hello"; "hi"; "brighter"; "done"]
    /\ conv_title c' = "Older".
Proof.
  destruct (proj2 (handleEditImage_outcome
                     {| conversations := [Sample.conv1; Sample.conv2];
                        currentConversationId := Some "conv-2";
                        isThinking := false |} "brighter" Sample.png
                     Sample.env 0) Sample.conv2 eq_refl) as [_ H].
  destruct (H _ _ eq_refl) as [t [ts Hc]].
  eexists. split; [exact Hc|]. split; reflexivity.
Defined.

Lemma sendBody_adds_models history convId text files settings sendMode :
  emits (fun a => Forall (fun m => isModel m = true) (addedBy a))
    (sendBody history convId text files settings sendMode).
Proof.
  set (P := fun a => Forall (fun m => isModel m = true) (addedBy a)).
  assert (HA : forall c, P (Await c)) by (intros; constructor).
  assert (Happ : forall suffix t ts txt fs g,
             P (SetConversations
                  (UAppendMessage convId (botMessage suffix t ts txt fs g))))
    by (intros; repeat constructor).
  unfold sendBody.
  assert (Hgen : emits P (imageGenerateBranch convId text)).
  { unfold imageGenerateBranch.
    apply emits_bind; [now apply emits_generateImage | intros f].
    apply emits_bind; [apply emits_now | intros t].
    apply emits_bind; [apply emits_now | intros ts].
    apply emits_emit. apply Happ. }
  destruct (isImageMode sendMode).
  - destruct files as [|file0 rest]; [exact Hgen|].
    destruct (JS.startsWith "image/" (file_type file0)); [|exact Hgen].
    unfold imageEditBranch.
    apply emits_bind; [now apply emits_editImage | intros [rt ef]].
    apply emits_bind; [apply emits_now | intros t].
    apply emits_bind; [apply emits_now | intros ts].
    apply emits_emit. apply Happ.
  - unfold streamBranch.
    apply emits_bind; [apply emits_now | intros t].
    apply emits_bind; [apply emits_now | intros ts].
    apply emits_bind; [apply emits_emit; apply Happ | intros _].
    apply emits_bind; [now apply emits_streamResponse | intros st].
    apply emits_streamLoop. intros; constructor.
Qed.

Lemma added_models (l : list Action) :
  Forall (fun a => Forall (fun m => isModel m = true) (addedBy a)) l ->
  Forall (fun m => isModel m = true) (added l).
Proof.
  induction 1 as [|a l Ha _ IH]; [constructor|].
  unfold added. simpl. apply Forall_app. split; assumption.
Qed.

Lemma string_of_uint_no_dash (d : Decimal.uint) :
  JS.contains "-"%char (NilEmpty.string_of_uint d) = false.
Proof. induction d; simpl; auto. Qed.

(** The id of a user turn is not the id of a streamed model turn. *)
Lemma userMessage_not_bot t timestamp text files mid :
  botId mid -> msg_id (userMessage t timestamp text files) <> mid.
Proof.
  intros [t' Hmid] E. subst mid. cbn [userMessage msg_id] in E.
  assert (E' : JS.ofNumber t = (JS.ofNumber t' ++ "-bot")%string).
  { simpl in E. now inversion E. }
  pose proof (string_of_uint_no_dash (N.to_uint t)) as Hno.
  unfold JS.ofNumber in E'. rewrite E', contains_app in Hno.
  rewrite orb_true_r in Hno. discriminate.
Qed.

Lemma patchMessage_other mid t g m :
  msg_id m <> mid -> patchMessage mid t g m = m.
Proof.
  intros H. unfold patchMessage. apply String.eqb_neq in H. now rewrite H.
Qed.

Lemma patchMessage_sameTurns mid t g (ms history : list Message) :
  sameTurns ms history -> sameTurns (map (patchMessage mid t g) ms) history.
Proof.
  unfold sameTurns. intros (Hi & Hr & Hf & Ht). rewrite !map_map.
  rewrite <- Hi, <- Hr, <- Hf, <- Ht.
  repeat split; apply map_ext; intros m; unfold patchMessage;
    destruct (msg_id m =? mid)%string; reflexivity.
Qed.

Lemma patchMessage_models mid t g (ms : list Message) :
  Forall (fun m => isModel m = true) ms ->
  Forall (fun m => isModel m = true) (map (patchMessage mid t g) ms).
Proof.
  intros H. apply Forall_map. eapply Forall_impl; [|exact H].
  intros m Hm. unfold patchMessage, isModel in *.
  destruct (msg_id m =? mid)%string; exact Hm.
Qed.

(** One action of the blocks of a send keeps the conversation in the shape
    of a history, the user turn, and model turns. *)
Lemma modelWrite_step (id : string) (um : Message) (history : list Message)
    (a : Action) (s : Store) (c : Conversation)
    (before models : list Message) :
  (forall mid, botId mid -> msg_id um <> mid) ->
  modelWrite a ->
  convOf id s = Some c ->
  conv_messages c = before ++ um :: models ->
  sameTurns before history ->
  Forall (fun m => isModel m = true) models ->
  exists c' before' models',
    convOf id (step s a) = Some c'
    /\ currentConversationId (step s a) = currentConversationId s
    /\ conv_id c' = conv_id c
    /\ conv_messages c' = before' ++ um :: models'
    /\ sameTurns before' history
    /\ Forall (fun m => isModel m = true) models'.
Proof.
  intros Hum Ha Hc Hms Hsame Hmodels.
  destruct a as [[c1 | cid | cid mid | cid m | cid m txt | cid mid t g]
                | cid | b | r | lbl e];
    cbn [modelWrite] in Ha; try contradiction;
    try (exists c, before, models;
         split; [exact Hc|]; split; [reflexivity|]; split; [reflexivity|];
         split; [exact Hms|]; split; assumption).
  - unfold convOf in *. cbn [step conversations applyUpdater currentConversationId].
    rewrite find_map_id by (intros; apply appendTo_id). rewrite Hc.
    cbn [option_map].
    destruct (conv_id c =? cid)%string.
    + exists (withMessages c (conv_messages c ++ [m])), before, (models ++ [m]).
      split; [reflexivity|]. split; [reflexivity|]. split; [reflexivity|].
      cbn [withMessages conv_messages]. rewrite Hms, <- app_assoc.
      split; [reflexivity|]. split; [exact Hsame|].
      apply Forall_app. split; [exact Hmodels | now constructor].
    + exists c, before, models.
      split; [reflexivity|]. split; [reflexivity|]. split; [reflexivity|].
      split; [exact Hms|]. split; assumption.
  - unfold convOf in *. cbn [step conversations applyUpdater currentConversationId].
    rewrite find_map_id
      by (intros c0; destruct (conv_id c0 =? cid)%string; reflexivity).
    rewrite Hc. cbn [option_map].
    destruct (conv_id c =? cid)%string.
    + exists (withMessages c (map (patchMessage mid t g) (conv_messages c))),
        (map (patchMessage mid t g) before),
        (map (patchMessage mid t g) models).
      split; [reflexivity|]. split; [reflexivity|]. split; [reflexivity|].
      cbn [withMessages conv_messages]. rewrite Hms, map_app. cbn [map].
      rewrite (patchMessage_other mid t g um (Hum mid Ha)).
      split; [reflexivity|].
      split; [now apply patchMessage_sameTurns
             | now apply patchMessage_models].
    + exists c, before, models.
      split; [reflexivity|]. split; [reflexivity|]. split; [reflexivity|].
      split; [exact Hms|]. split; assumption.
Qed.

Lemma modelWrite_run (id : string) (um : Message) (history : list Message)
    (l : list Action) :
  (forall mid, botId mid -> msg_id um <> mid) ->
  Forall modelWrite l ->
  forall (s : Store) (c : Conversation) (before models : list Message),
    convOf id s = Some c ->
    conv_messages c = before ++ um :: models ->
    sameTurns before history ->
    Forall (fun m => isModel m = true) models ->
    exists c' before' models',
      convOf id (run l s) = Some c'
      /\ currentConversationId (run l s) = currentConversationId s
      /\ conv_id c' = conv_id c
      /\ conv_messages c' = before' ++ um :: models'
      /\ sameTurns before' history
      /\ Forall (fun m => isModel m = true) models'.
Proof.
  intros Hum. unfold run.
  induction 1 as [|a l Ha _ IH]; intros s c before models Hc Hms Hsame Hmod.
  - exists c, before, models.
    split; [exact Hc|]. split; [reflexivity|]. split; [reflexivity|].
    split; [exact Hms|]. split; assumption.
  - cbn [fold_left].
    destruct (modelWrite_step id um history a s c before models
                Hum Ha Hc Hms Hsame Hmod)
      as (c1 & b1 & m1 & Hc1 & Hid1 & Hcid1 & Hms1 & Hsame1 & Hmod1).
    destruct (IH _ _ _ _ Hc1 Hms1 Hsame1 Hmod1)
      as (c2 & b2 & m2 & Hc2 & Hid2 & Hcid2 & Hms2 & Hsame2 & Hmod2).
    exists c2, b2, m2. split; [exact Hc2|].
    split; [now rewrite Hid2|]. split; [now rewrite Hcid2|].
    split; [exact Hms2|]. split; assumption.
Qed.

Lemma emits_streamLoop_id (P : Action -> Prop) convId modelMessage
    responseStream acc :
  (forall t g,
      P (SetConversations (UPatchMessage convId (msg_id modelMessage) t g))) ->
  emits P (streamLoop convId modelMessage responseStream acc).
Proof.
  intros HP env k.
  eapply Forall_impl; [|apply streamLoop_patches].
  intros a [t [g Ha]]. subst a. apply HP.
Qed.

(** The [try] block of a send appends model turns and patches turns with
    the id of a streamed model turn; it writes nothing else to the store. *)
Lemma sendBody_modelWrite history convId text files settings sendMode :
  emits modelWrite (sendBody history convId text files settings sendMode).
Proof.
  assert (HA : forall c, modelWrite (Await c)) by (intros; exact I).
  assert (Happ : forall suffix t ts txt fs g,
             modelWrite
               (SetConversations
                  (UAppendMessage convId (botMessage suffix t ts txt fs g))))
    by (intros; reflexivity).
  unfold sendBody.
  assert (Hgen : emits modelWrite (imageGenerateBranch convId text)).
  { unfold imageGenerateBranch.
    apply emits_bind; [now apply emits_generateImage | intros f].
    apply emits_bind; [apply emits_now | intros t].
    apply emits_bind; [apply emits_now | intros ts].
    apply emits_emit. apply Happ. }
  destruct (isImageMode sendMode).
  - destruct files as [|file0 rest]; [exact Hgen|].
    destruct (JS.startsWith "image/" (file_type file0)); [|exact Hgen].
    unfold imageEditBranch.
    apply emits_bind; [now apply emits_editImage | intros [rt ef]].
    apply emits_bind; [apply emits_now | intros t].
    apply emits_bind; [apply emits_now | intros ts].
    apply emits_emit. apply Happ.
  - unfold streamBranch.
    apply emits_bind; [apply emits_now | intros t].
    apply emits_bind; [apply emits_now | intros ts].
    apply emits_bind; [apply emits_emit; apply Happ | intros _].
    apply emits_bind; [now apply emits_streamResponse | intros st].
    apply emits_streamLoop_id. intros t0 g. exists t. reflexivity.
Qed.

Lemma guarded_modelWrite (body : M unit) label errorMessage convId env k :
  emits modelWrite body ->
  Forall modelWrite
    (logOf (tryFinally (tryCatch body (catchBlock label errorMessage convId))
              (emit (SetIsThinking false)) env k)).
Proof.
  intros Hb. rewrite guarded_run. specialize (Hb env k).
  destruct (resultOf (body env k)) as [[]|e]; rewrite logOf_mk;
    apply Forall_app; (split; [exact Hb|]); repeat constructor.
Qed.

(** X16.  Every send adds exactly one user turn, as the first thing it does
    to the conversation list and before any backend request: the turn holds
    the text and all the files of the send, in every mode.  In the store,
    when the first request is made (or the send ends without one), the
    current conversation holds the turns that it had in the render of the
    send followed by that user turn.  After the send the current
    conversation is the same conversation; it holds those turns, one for
    one with their ids, roles, files and timestamps, then the user turn as
    it was added, then model turns only. *)
Theorem send_adds_user_turn_first
    (s : Store) (settings : Settings) (text : string)
    (files : list UploadedFile) (sendMode : SendMode) (env : Env) (k : nat) :
  let out := handleSendMessage s settings text files sendMode env k in
  exists pre post t timestamp c0 c' before models,
    logOf out = pre ++ post
    /\ added pre = [userMessage t timestamp text files]
    /\ awaited pre = []
    /\ Forall (fun m => isModel m = true) (added post)
    /\ filter (fun m => negb (isModel m)) (added (logOf out))
       = [userMessage t timestamp text files]
    /\ currentConversation (run pre s) = Some c0
    /\ conv_messages c0 = historyOf s ++ [userMessage t timestamp text files]
    /\ currentConversation (run (logOf out) s) = Some c'
    /\ conv_id c' = conv_id c0
    /\ conv_messages c'
       = before ++ userMessage t timestamp text files :: models
    /\ sameTurns before (historyOf s)
    /\ Forall (fun m => isModel m = true) models.
Proof.
  cbv zeta.
  destruct (sendPrologue_ok s text files sendMode env k) as [conv Hconv].
  rewrite (handleSendMessage_run _ _ _ _ _ _ _ _ Hconv), logOf_mk.
  destruct (sendPrologue_quiet s text files sendMode env k) as [Hpa _].
  destruct (sendPrologue_store s text files sendMode env k conv Hconv)
    as (t & ts & Hstore & Hcid & Hhist & Hpre).
  set (p := sendPrologue s text files sendMode env k) in *.
  set (g := tryFinally
              (tryCatch
                 (sendBody (conv_messages conv) (conv_id conv) text files
                    settings sendMode)
                 (catchBlock "Error processing message:" apologySend
                    (conv_id conv)))
              (emit (SetIsThinking false)) env (tickOf p)).
  set (um := userMessage t ts text files) in *.
  assert (Hpost : Forall (fun m => isModel m = true) (added (logOf g))).
  { apply added_models. subst g. rewrite guarded_run.
    pose proof (sendBody_adds_models (conv_messages conv) (conv_id conv) text
                  files settings sendMode env (tickOf p)) as Hb.
    destruct (resultOf (sendBody _ _ _ _ _ _ env (tickOf p))) as [[]|e];
      rewrite logOf_mk; apply Forall_app; split; try exact Hb;
      repeat constructor. }
  assert (Hwrites : Forall modelWrite (logOf g)).
  { subst g. apply guarded_modelWrite, sendBody_modelWrite. }
  destruct (user_turn_messages (conv_id conv) um text conv) as [Hmsgs Hcv].
  rewrite Hhist in Hmsgs.
  destruct (modelWrite_run (conv_id conv) um (historyOf s) (logOf g)
              (fun mid => userMessage_not_bot t ts text files mid) Hwrites
              (run (logOf p) s) _ (historyOf s) [] Hstore Hmsgs
              (conj eq_refl (conj eq_refl (conj eq_refl eq_refl)))
              (Forall_nil _))
    as (c' & before & models & Hc' & Hid' & Hcid' & Hms' & Hsame & Hmod).
  exists (logOf p), (logOf g), t, ts,
    (updateWithUserMessage (conv_id conv) um text conv), c', before, models.
  split; [reflexivity|]. split; [exact Hpre|]. split; [exact Hpa|].
  split; [exact Hpost|]. split.
  { rewrite added_app, filter_app, Hpre.
    assert (Hnone : forall l, Forall (fun m => isModel m = true) l ->
                              filter (fun m => negb (isModel m)) l = []).
    { induction 1 as [|m l Hm _ IH]; [reflexivity|]. simpl. now rewrite Hm. }
    rewrite (Hnone _ Hpost). reflexivity. }
  split; [now rewrite (current_convOf _ _ Hcid)|].
  split; [exact Hmsgs|].
  split.
  { rewrite run_app, (current_convOf _ (conv_id conv)); [exact Hc'|].
    now rewrite Hid'. }
  split; [exact Hcid'|]. split; [exact Hms'|]. split; assumption.
Qed.

(** An image send with two files: the user turn keeps both, the request
    reads the first one only. *)
Lemma send_adds_user_turn_first_witness :
  let out := handleSendMessage Sample.store1 Sample.settingsOff "brighter"
               [Sample.png; Sample.pdf] ModeImage Sample.env 0 in
  map (fun m => option_map (@length _) (msg_files m))
      (filter (fun m => negb (isModel m)) (added (logOf out)))
  = [Some 2]
  /\ option_map
       (fun c => map (fun m => (msg_role m, option_map (@length _) (msg_files m)))
                   (conv_messages c))
       (currentConversation (run (logOf out) Sample.store1))
     = Some [(user, Some 2); (model, Some 1)].
Proof.
  cbv zeta.
  destruct (send_adds_user_turn_first Sample.store1 Sample.settingsOff
              "brighter" [Sample.png; Sample.pdf] ModeImage Sample.env 0)
    as (pre & post & t & ts & c0 & c' & before & models & _ & _ & _ & _ & H
        & _).
  rewrite H. split; reflexivity.
Defined.

(* ===================================================================== *)
(** ** The backend requests of a handler *)
(* ===================================================================== *)

Lemma patches_awaited convId messageId (l : list Action) :
  Forall (fun a => exists t g,
            a = SetConversations (UPatchMessage convId messageId t g)) l ->
  awaited l = [].
Proof.
  induction 1 as [|a l [t [g Ha]] _ IH]; [reflexivity|].
  subst a. exact IH.
Qed.

Lemma streamBranch_awaited history convId text files settings sendMode env k :
  awaited (logOf (streamBranch history convId text files settings sendMode
                    env k))
  = match buildRequest history text files settings sendMode with
    | Ok req => [GenerateContentStream req]
    | Throw _ => []
    end.
Proof.
  unfold streamBranch.
  rewrite logOf_bind. cbn [logOf now fst resultOf snd tickOf app].
  rewrite logOf_bind. cbn [logOf now fst resultOf snd tickOf app].
  rewrite logOf_bind. cbn [logOf emit fst resultOf snd tickOf].
  rewrite awaited_app. cbn [awaited app].
  rewrite logOf_bind, awaited_app, streamResponse_awaited.
  destruct (buildRequest history text files settings sendMode) as [req|e];
    destruct (resultOf (streamResponse history text files settings sendMode
                          env _)) as [st|e'];
    rewrite ?(patches_awaited _ _ _ (streamLoop_patches _ _ _ _ _ _));
    reflexivity.
Qed.

Lemma sendBody_awaited history convId text files settings sendMode env k :
  awaited (logOf (sendBody history convId text files settings sendMode env k))
  = requestsOfSend history text files settings sendMode.
Proof.
  assert (Hgen : awaited (logOf (imageGenerateBranch convId text env k))
                 = [GenerateImages (imageRequest text)]).
  { destruct (imageGenerateBranch_log convId text env k)
      as [post [Hb [Hpost _]]].
    rewrite Hb. cbn [awaited]. now rewrite Hpost. }
  unfold requestsOfSend, sendBody.
  destruct (isImageMode sendMode); [|apply streamBranch_awaited].
  destruct files as [|file0 rest]; [exact Hgen|].
  destruct (JS.startsWith "image/" (file_type file0)); [|exact Hgen].
  rewrite imageEditBranch_log, awaited_app, editImage_log.
  destruct (splitData (file_data file0)) as [b|e];
    destruct (resultOf (editImage text file0 env k)) as [[rt ef]|e'];
    reflexivity.
Qed.

Lemma sendPrologue_history s text files sendMode env k conv :
  resultOf (sendPrologue s text files sendMode env k) = Ok conv ->
  conv_messages conv = historyOf s.
Proof.
  intros Hconv. unfold historyOf.
  destruct (currentConversation s) as [c|] eqn:Hc.
  - rewrite (sendPrologue_existing _ _ _ _ _ _ _ Hc), resultOf_mk in Hconv.
    now inversion Hconv.
  - pose proof (sendPrologue_new s text files sendMode env k Hc) as Hp.
    cbv zeta in Hp. rewrite Hp, resultOf_mk in Hconv.
    now inversion Hconv.
Qed.

Lemma handleSendMessage_awaited s settings text files sendMode env k :
  awaited (logOf (handleSendMessage s settings text files sendMode env k))
  = requestsOfSend (historyOf s) text files settings sendMode.
Proof.
  destruct (sendPrologue_ok s text files sendMode env k) as [conv Hconv].
  rewrite (handleSendMessage_run _ _ _ _ _ _ _ _ Hconv), logOf_mk.
  destruct (sendPrologue_quiet s text files sendMode env k) as [Hpa _].
  destruct (guarded_tail
              (sendBody (conv_messages conv) (conv_id conv) text files
                 settings sendMode)
              "Error processing message:" apologySend (conv_id conv) env
              (tickOf (sendPrologue s text files sendMode env k)))
    as [tail [Hg [Hta _]]].
  rewrite Hg, !awaited_app, Hpa, Hta, app_nil_r. cbn [app].
  rewrite sendBody_awaited.
  now rewrite (sendPrologue_history _ _ _ _ _ _ _ Hconv).
Qed.

Lemma handleEditImage_awaited s prompt fileToEdit env k :
  awaited (logOf (handleEditImage s prompt fileToEdit env k))
  = match currentConversation s with
    | None => []
    | Some _ =>
        match splitData (file_data fileToEdit) with
        | Ok b => [GenerateContent (editRequest prompt b)]
        | Throw _ => []
        end
    end.
Proof.
  destruct (currentConversation s) as [conv|] eqn:Hc.
  - rewrite (handleEditImage_run _ _ _ _ _ _ Hc), logOf_mk.
    destruct (guarded_tail (editBody (conv_id conv) prompt fileToEdit)
                "Error editing image:" apologyEdit (conv_id conv) env
                (S (S k)))
      as [tail [Hg [Hta _]]].
    rewrite awaited_app, Hg, awaited_app, Hta, app_nil_r. cbn [awaited app].
    unfold editBody. rewrite logOf_bind, awaited_app, editImage_log.
    destruct (splitData (file_data fileToEdit)) as [b|e];
      destruct (resultOf (editImage prompt fileToEdit env (S (S k))))
        as [[rt ef]|e']; reflexivity.
  - unfold handleEditImage. rewrite Hc. reflexivity.
Qed.

(* ===================================================================== *)
(** ** The composer *)
(* ===================================================================== *)

(** What a send of the composer passes on. *)
Lemma send_calls m v call :
  In call (snd (ChatView.handleSendMessage m v)) ->
  ((JS.trim (ChatView.prompt v) =? EmptyString)%string
   && (length (ChatView.uploadedFiles v) =? 0)%nat) = false
  /\ call = match ChatView.fileForEditing v with
            | Some f => OnEditImage (ChatView.prompt v) f
            | None =>
                OnSendMessage (ChatView.prompt v) (ChatView.uploadedFiles v) m
            end.
Proof.
  unfold ChatView.handleSendMessage.
  destruct ((JS.trim (ChatView.prompt v) =? EmptyString)%string
            && (length (ChatView.uploadedFiles v) =? 0)%nat);
    [intros []|].
  destruct (ChatView.fileForEditing v); simpl; intros [H|[]]; now split.
Qed.

Lemma send_edit_call m v p f :
  In (OnEditImage p f) (snd (ChatView.handleSendMessage m v)) ->
  ChatView.fileForEditing v = Some f /\ ChatView.prompt v = p.
Proof.
  intros H. apply send_calls in H. destruct H as [_ H].
  destruct (ChatView.fileForEditing v); inversion H; subst; auto.
Qed.

Lemma marked_send m v :
  ChatView.marked v -> ChatView.marked (fst (ChatView.handleSendMessage m v)).
Proof.
  intros H. unfold ChatView.handleSendMessage.
  destruct ((JS.trim (ChatView.prompt v) =? EmptyString)%string
            && (length (ChatView.uploadedFiles v) =? 0)%nat);
    [exact H|].
  unfold ChatView.marked.
  destruct (ChatView.fileForEditing v) eqn:E; simpl; [exact I|].
  rewrite E. exact I.
Qed.

Lemma marked_remove fileId v :
  ChatView.marked v -> ChatView.marked (ChatView.handleRemoveFile fileId v).
Proof.
  unfold ChatView.marked, ChatView.handleRemoveFile, ChatView.editingIs.
  destruct (ChatView.fileForEditing v) as [f|] eqn:E; intros H.
  - destruct (file_id f =? fileId)%string eqn:Hid; simpl; [exact I|].
    rewrite E. apply filter_In. split; [exact H|]. now rewrite Hid.
  - simpl. rewrite E. exact I.
Qed.

Lemma marked_save v :
  ChatView.marked v -> ChatView.marked (ChatView.handleSaveDescription v).
Proof.
  intros H. unfold ChatView.handleSaveDescription.
  destruct (ChatView.editingFileId v) as [id|]; [|exact H].
  destruct (negb (JS.truthy id)); [exact H|].
  unfold ChatView.marked, ChatView.editingIs in *.
  destruct (ChatView.fileForEditing v) as [f|] eqn:E.
  - destruct (file_id f =? id)%string eqn:Hid; simpl.
    + rewrite E. apply in_map_iff. exists f. rewrite Hid. now split.
    + rewrite E. apply in_map_iff. exists f. rewrite Hid. now split.
  - simpl. rewrite E. exact I.
Qed.

(** Every event keeps the file marked for editing among the staged files. *)
Lemma marked_step v ev :
  ChatView.marked v -> ChatView.marked (fst (ChatView.step v ev)).
Proof.
  intros H. destruct ev; cbn [ChatView.step fst]; try exact H.
  - unfold ChatView.handleKeyDown.
    destruct ((key =? "Enter")%string && negb shiftKey);
      [now apply marked_send | exact H].
  - unfold ChatView.handleSendClick.
    destruct (negb (ChatView.isSendMenuOpen v));
      [now apply marked_send | exact H].
  - unfold ChatView.optionClick.
    destruct (ChatView.isSendMenuOpen v && _);
      [now apply marked_send | exact H].
  - unfold ChatView.handleFileChange.
    destruct selectedFiles; exact H.
  - unfold ChatView.marked, ChatView.onload in *. simpl.
    destruct (ChatView.fileForEditing v); [|exact I].
    apply in_or_app. now left.
  - now apply marked_remove.
  - now apply marked_save.
  - unfold ChatView.modalDelete.
    destruct (ChatView.imageInModal v) as [[messageId file]|]; exact H.
  - unfold ChatView.marked, ChatView.modalEdit.
    destruct (ChatView.imageInModal v) as [[messageId file]|]; [|exact H].
    simpl. now left.
  - exact I.
Qed.

Lemma marked_run evs :
  forall v, ChatView.marked v -> ChatView.marked (fst (ChatView.run evs v)).
Proof.
  induction evs as [|ev rest IH]; intros v H; [exact H|].
  cbn [ChatView.run fst]. apply IH. now apply marked_step.
Qed.

Lemma marked_reachable evs :
  ChatView.marked (fst (ChatView.run evs ChatView.initial)).
Proof. apply marked_run. exact I. Qed.

Lemma marked_empty v :
  ChatView.marked v -> ChatView.uploadedFiles v = [] ->
  ChatView.fileForEditing v = None.
Proof.
  unfold ChatView.marked. intros H Hu.
  destruct (ChatView.fileForEditing v); [|reflexivity].
  rewrite Hu in H. destruct H.
Qed.

Lemma marked_single v f g :
  ChatView.marked v -> ChatView.uploadedFiles v = [f] ->
  ChatView.fileForEditing v = Some g -> g = f.
Proof.
  unfold ChatView.marked. intros H Hu Hg. rewrite Hg, Hu in H.
  destruct H as [H|[]]. now symmetry.
Qed.

(** An event passes an edit on only for the file marked for editing. *)
Lemma step_edit_call v ev p f :
  In (OnEditImage p f) (snd (ChatView.step v ev)) ->
  ChatView.fileForEditing v = Some f /\ ChatView.prompt v = p.
Proof.
  destruct ev; cbn [ChatView.step snd]; try (intros []).
  - unfold ChatView.handleKeyDown.
    destruct ((key =? "Enter")%string && negb shiftKey);
      [apply send_edit_call | intros []].
  - unfold ChatView.handleSendClick.
    destruct (negb (ChatView.isSendMenuOpen v));
      [apply send_edit_call | intros []].
  - unfold ChatView.optionClick.
    destruct (ChatView.isSendMenuOpen v && _);
      [apply send_edit_call | intros []].
  - unfold ChatView.modalDelete.
    destruct (ChatView.imageInModal v) as [[messageId file]|];
      [intros [H|[]]; discriminate | intros []].
Qed.

Lemma edit_calls_staged evs :
  forall v p f,
    ChatView.marked v ->
    In (OnEditImage p f) (snd (ChatView.run evs v)) ->
    exists before ev after,
      evs = before ++ ev :: after
      /\ ChatView.fileForEditing (fst (ChatView.run before v)) = Some f
      /\ In f (ChatView.uploadedFiles (fst (ChatView.run before v)))
      /\ ChatView.prompt (fst (ChatView.run before v)) = p
      /\ In (OnEditImage p f)
            (snd (ChatView.step (fst (ChatView.run before v)) ev)).
Proof.
  induction evs as [|ev rest IH]; intros v p f Hm Hin; [destruct Hin|].
  cbn [ChatView.run snd] in Hin. apply in_app_or in Hin.
  destruct Hin as [Hin | Hin].
  - exists [], ev, rest. cbn [ChatView.run fst app].
    destruct (step_edit_call _ _ _ _ Hin) as [Hf Hp].
    repeat split; try assumption.
    unfold ChatView.marked in Hm. now rewrite Hf in Hm.
  - destruct (IH _ p f (marked_step v ev Hm) Hin)
      as (before & ev' & after & Hevs & Hf & Hs & Hp & Hc).
    exists (ev :: before), ev', after. cbn [ChatView.run fst app].
    rewrite Hevs. repeat split; assumption.
Qed.

(** X17.  In every state that the composer can reach from its initial state,
    the file marked for editing is one of the staged files; so without a
    staged file no file is marked.  Every edit that the composer passes on to
    [App] is for the file that was marked at that time, which was staged
    then, with the prompt of that time. *)
Theorem fileForEditing_is_staged (evs : list ChatView.Event) :
  let out := ChatView.run evs ChatView.initial in
  ChatView.marked (fst out)
  /\ (ChatView.uploadedFiles (fst out) = [] ->
      ChatView.fileForEditing (fst out) = None)
  /\ forall p f,
       In (OnEditImage p f) (snd out) ->
       exists before ev after,
         evs = before ++ ev :: after
         /\ ChatView.fileForEditing
              (fst (ChatView.run before ChatView.initial)) = Some f
         /\ In f (ChatView.uploadedFiles
                    (fst (ChatView.run before ChatView.initial)))
         /\ ChatView.prompt (fst (ChatView.run before ChatView.initial)) = p
         /\ In (OnEditImage p f)
               (snd (ChatView.step
                       (fst (ChatView.run before ChatView.initial)) ev)).
Proof.
  cbv zeta. split; [apply marked_reachable|]. split.
  - apply marked_empty, marked_reachable.
  - intros p f. apply edit_calls_staged. exact I.
Qed.

Lemma fileForEditing_is_staged_witness :
  exists before ev after,
    [ChatView.ImageClick "msg-1" Sample.png; ChatView.ModalEdit;
     ChatView.PromptChange "brighter"; ChatView.KeyDown "Enter" false]
    = before ++ ev :: after
    /\ In Sample.png
          (ChatView.uploadedFiles (fst (ChatView.run before ChatView.initial))).
Proof.
  destruct (proj2 (proj2 (fileForEditing_is_staged
                            [ChatView.ImageClick "msg-1" Sample.png;
                             ChatView.ModalEdit;
                             ChatView.PromptChange "brighter";
                             ChatView.KeyDown "Enter" false]))
              "brighter" Sample.png (or_introl eq_refl))
    as (before & ev & after & Hevs & _ & Hs & _).
  exists before, ev, after. split; assumption.
Defined.

(** The entry 'Search Web' of the send menu can be clicked only without a
    staged file. *)
Lemma option_search_click v call :
  ChatView.marked v ->
  In call (snd (ChatView.optionClick ModeSearch v)) ->
  call = OnSendMessage (ChatView.prompt v) [] ModeSearch
  /\ JS.trim (ChatView.prompt v) <> EmptyString.
Proof.
  intros Hm. unfold ChatView.optionClick, ChatView.sendOptions.
  cbn [existsb ChatView.mode ChatView.disabled ChatView.sameMode andb orb].
  destruct (ChatView.isSendMenuOpen v); [|intros []].
  destruct (ChatView.uploadedFiles v) as [|u us] eqn:Hu; [|intros []].
  cbn [length Nat.ltb Nat.leb negb orb andb].
  intros Hin. apply send_calls in Hin. destruct Hin as [Hg Hc].
  rewrite (marked_empty v Hm Hu), Hu in Hc. rewrite Hu in Hg.
  split; [exact Hc|].
  intros Ht. rewrite Ht in Hg. discriminate.
Qed.

(** X18.  In every state that the composer can reach, a click on the entry
    'Search Web' of the send menu that passes anything on to [App] passes a
    send in the mode 'search' without files and with a text that is not
    blank.  The send of [App] then makes the streaming request built from
    the history and that text when the history can be read, and no request
    otherwise; the request has the search tool, whatever the settings
    say. *)
Theorem search_option_sends_search_request
    (evs : list ChatView.Event) (s : Store) (settings : Settings)
    (env : Env) (k : nat) (call : PropCall) :
  let v := fst (ChatView.run evs ChatView.initial) in
  In call (snd (ChatView.step v (ChatView.OptionClick ModeSearch))) ->
  call = OnSendMessage (ChatView.prompt v) [] ModeSearch
  /\ JS.trim (ChatView.prompt v) <> EmptyString
  /\ awaited (logOf (callProp s settings call env k))
     = match buildRequest (historyOf s) (ChatView.prompt v) [] settings
               ModeSearch with
       | Ok req => [GenerateContentStream req]
       | Throw _ => []
       end
  /\ forall req,
       In (GenerateContentStream req)
          (awaited (logOf (callProp s settings call env k))) ->
       searchEnabled req.
Proof.
  intros v Hin. cbn [ChatView.step] in Hin.
  destruct (option_search_click v call (marked_reachable evs) Hin)
    as [Hcall Hprompt].
  subst call. cbn [callProp]. rewrite handleSendMessage_awaited.
  unfold requestsOfSend. cbn [isImageMode].
  repeat split; try assumption.
  intros req Hreq.
  destruct (buildRequest (historyOf s) (ChatView.prompt v) [] settings
              ModeSearch) as [req'|e] eqn:Hb; [|destruct Hreq].
  destruct Hreq as [Hreq|[]]. inversion Hreq; subst req'.
  unfold searchEnabled. rewrite (buildRequest_tools _ _ _ _ _ _ Hb).
  reflexivity.
Qed.

Lemma search_option_sends_search_request_witness :
  exists req,
    awaited (logOf (handleSendMessage Sample.store1 Sample.settingsOff
                      "what is new" [] ModeSearch Sample.env 0))
    = [GenerateContentStream req]
    /\ searchEnabled req.
Proof.
  eexists. split; [reflexivity|].
  refine (proj2 (proj2 (proj2
            (search_option_sends_search_request
               [ChatView.PromptChange "what is new"; ChatView.LongPress]
               Sample.store1 Sample.settingsOff Sample.env 0
               (OnSendMessage "what is new" [] ModeSearch)
               (or_introl eq_refl)))) _ _).
  left. reflexivity.
Defined.

(** The entry for images of the send menu can be clicked only with a text
    that is not blank and with no staged file or with one staged image. *)
Lemma option_image_click v call :
  ChatView.marked v ->
  In call (snd (ChatView.optionClick ModeImage v)) ->
  JS.trim (ChatView.prompt v) <> EmptyString
  /\ ((ChatView.uploadedFiles v = []
       /\ call = OnSendMessage (ChatView.prompt v) [] ModeImage)
      \/ exists f,
           ChatView.uploadedFiles v = [f]
           /\ JS.startsWith "image/" (file_type f) = true
           /\ (call = OnSendMessage (ChatView.prompt v) [f] ModeImage
               \/ call = OnEditImage (ChatView.prompt v) f)).
Proof.
  intros Hm. unfold ChatView.optionClick, ChatView.sendOptions.
  cbn [existsb ChatView.mode ChatView.disabled ChatView.sameMode andb orb].
  destruct (ChatView.isSendMenuOpen v); [|intros []].
  unfold ChatView.canGenerateImage, ChatView.hasOneImage, ChatView.hasPrompt.
  destruct (JS.trim (ChatView.prompt v) =? EmptyString)%string eqn:Ht.
  { rewrite !andb_false_r. intros []. }
  assert (Hp : JS.trim (ChatView.prompt v) <> EmptyString).
  { intros E. rewrite E in Ht. discriminate. }
  destruct (ChatView.uploadedFiles v) as [|f [|g rest]] eqn:Hu.
  - cbn [length Nat.eqb negb orb andb]. intros Hin.
    apply send_calls in Hin. destruct Hin as [_ Hc].
    rewrite (marked_empty v Hm Hu), Hu in Hc.
    split; [exact Hp|]. left. now split.
  - cbn [length Nat.eqb negb orb andb].
    destruct (JS.startsWith "image/" (file_type f)) eqn:Hs; [|intros []].
    cbn [negb orb andb]. intros Hin.
    apply send_calls in Hin. destruct Hin as [_ Hc].
    split; [exact Hp|]. right. exists f.
    split; [reflexivity|]. split; [exact Hs|].
    destruct (ChatView.fileForEditing v) as [g|] eqn:Hg.
    + right. now rewrite <- (marked_single v f g Hm Hu Hg).
    + left. now rewrite Hu in Hc.
  - cbn [length Nat.eqb negb orb andb]. intros [].
Qed.

(** X19.  In every state that the composer can reach, a click on the entry
    for images of the send menu passes something on to [App] only when the
    text is not blank and either no file is staged or the one staged file is
    an image.  Without a staged file the handler of [App] makes one
    text-to-image request on the text.  With the staged image every request
    that the handler makes is an image-editing request on the data of that
    image and the text: the text-to-image request that [handleSendMessage]
    makes when the first file is no image, and which leaves the files out,
    is never reached from the menu. *)
Theorem image_option_uses_the_staged_image
    (evs : list ChatView.Event) (s : Store) (settings : Settings)
    (env : Env) (k : nat) (call : PropCall) :
  let v := fst (ChatView.run evs ChatView.initial) in
  In call (snd (ChatView.step v (ChatView.OptionClick ModeImage))) ->
  JS.trim (ChatView.prompt v) <> EmptyString
  /\ ((ChatView.uploadedFiles v = []
       /\ awaited (logOf (callProp s settings call env k))
          = [GenerateImages (imageRequest (ChatView.prompt v))])
      \/ exists f,
           ChatView.uploadedFiles v = [f]
           /\ JS.startsWith "image/" (file_type f) = true
           /\ forall bc,
                In bc (awaited (logOf (callProp s settings call env k))) ->
                exists b,
                  splitData (file_data f) = Ok b
                  /\ bc = GenerateContent
                            (editRequest (ChatView.prompt v) b)).
Proof.
  intros v Hin. cbn [ChatView.step] in Hin.
  destruct (option_image_click v call (marked_reachable evs) Hin)
    as [Hp [[Hu Hcall] | [f [Hu [Hs Hcall]]]]]; (split; [exact Hp|]).
  - left. split; [exact Hu|]. subst call. cbn [callProp].
    rewrite handleSendMessage_awaited. reflexivity.
  - right. exists f. split; [exact Hu|]. split; [exact Hs|].
    intros bc Hbc. destruct Hcall as [Hcall | Hcall]; subst call;
      cbn [callProp] in Hbc.
    + rewrite handleSendMessage_awaited in Hbc.
      unfold requestsOfSend in Hbc. cbn [isImageMode] in Hbc.
      rewrite Hs in Hbc.
      destruct (splitData (file_data f)) as [b|e]; [|destruct Hbc].
      destruct Hbc as [Hbc|[]]. exists b. now split.
    + rewrite handleEditImage_awaited in Hbc.
      destruct (currentConversation s); [|destruct Hbc].
      destruct (splitData (file_data f)) as [b|e]; [|destruct Hbc].
      destruct Hbc as [Hbc|[]]. exists b. now split.
Qed.

Lemma image_option_uses_the_staged_image_witness :
  JS.trim "make it blue" <> EmptyString
  /\ awaited (logOf (handleSendMessage Sample.store1 Sample.settingsOff
                       "make it blue" [] ModeImage Sample.env 0))
     = [GenerateImages (imageRequest "make it blue")].
Proof.
  split.
  - exact (proj1 (image_option_uses_the_staged_image
                    [ChatView.PromptChange "make it blue"; ChatView.LongPress]
                    Sample.store1 Sample.settingsOff Sample.env 0
                    (OnSendMessage "make it blue" [] ModeImage)
                    (or_introl eq_refl))).
  - reflexivity.
Defined.

(** X20.  The button 'Edit' of the modal stages the picture of the modal
    alone, whatever was staged before, and marks it for editing.  A send
    from the composer then passes on to [App] one edit of that picture with
    the prompt typed meanwhile, in every mode of the send and also when the
    prompt is blank, and leaves the composer without prompt, staged file and
    marked file.  [handleEditImage] then makes one image-editing request on
    the data of the picture when there is a current conversation and the
    data can be taken apart, and none otherwise. *)
Theorem modal_edit_then_send
    (v : ChatView.State) (messageId : string) (file : UploadedFile)
    (p : string) (m : SendMode)
    (s : Store) (settings : Settings) (env : Env) (k : nat) :
  ChatView.imageInModal v = Some (messageId, file) ->
  let v2 := fst (ChatView.run [ChatView.ModalEdit; ChatView.PromptChange p] v) in
  let out := ChatView.handleSendMessage m v2 in
  ChatView.uploadedFiles v2 = [file]
  /\ ChatView.fileForEditing v2 = Some file
  /\ snd out = [OnEditImage p file]
  /\ ChatView.prompt (fst out) = EmptyString
  /\ ChatView.uploadedFiles (fst out) = []
  /\ ChatView.fileForEditing (fst out) = None
  /\ ChatView.imageInModal (fst out) = None
  /\ forall call,
       In call (snd out) ->
       awaited (logOf (callProp s settings call env k))
       = match currentConversation s with
         | None => []
         | Some _ =>
             match splitData (file_data file) with
             | Ok b => [GenerateContent (editRequest p b)]
             | Throw _ => []
             end
         end.
Proof.
  intros Hmodal. cbv zeta.
  cbn [ChatView.run ChatView.step fst snd app].
  unfold ChatView.modalEdit. rewrite Hmodal.
  unfold ChatView.handleSendMessage.
  cbn [ChatView.setPrompt ChatView.setImageInModal ChatView.setUploadedFiles
       ChatView.setFileForEditing ChatView.setIsSendMenuOpen
       ChatView.prompt ChatView.uploadedFiles ChatView.fileForEditing
       ChatView.imageInModal length Nat.eqb fst snd].
  rewrite andb_false_r.
  cbn [ChatView.setPrompt ChatView.setImageInModal ChatView.setUploadedFiles
       ChatView.setFileForEditing ChatView.setIsSendMenuOpen
       ChatView.prompt ChatView.uploadedFiles ChatView.fileForEditing
       ChatView.imageInModal fst snd].
  repeat (split; [reflexivity|]).
  intros call [Hcall|[]]. subst call. cbn [callProp].
  apply handleEditImage_awaited.
Qed.

Lemma modal_edit_then_send_witness :
  snd (ChatView.handleSendMessage ModeSearch
         (fst (ChatView.run [ChatView.ModalEdit; ChatView.PromptChange " "]
                 SampleView.viewing)))
  = [OnEditImage " " Sample.png].
Proof.
  exact (proj1 (proj2 (proj2
           (modal_edit_then_send SampleView.viewing "msg-1" Sample.png " "
              ModeSearch Sample.store1 Sample.settingsOff Sample.env 0
              eq_refl)))).
Defined.

Lemma map_description_ext {A} (proj : UploadedFile -> A) id d
    (fs : list UploadedFile) :
  (forall f, proj (ChatView.withDescription f d) = proj f) ->
  map proj
    (map (fun f => if (file_id f =? id)%string
                   then ChatView.withDescription f d else f) fs)
  = map proj fs.
Proof.
  intros H. rewrite map_map. apply map_ext. intros f.
  destruct (file_id f =? id)%string; [apply H | reflexivity].
Qed.

(** X21.  Saving a description changes descriptions only.  The staged files
    keep their number, order, ids, names, types, sizes and data; the files
    with the id that is being edited get the description typed, the others
    keep theirs; the file marked for editing stays one of the staged files,
    so it gets the description as well when it has that id.  Afterwards no
    description is being edited, and saving once more changes nothing.  With
    an empty id nothing is saved. *)
Theorem handleSaveDescription_descriptions_only
    (v : ChatView.State) (id : string) :
  ChatView.editingFileId v = Some id ->
  ChatView.marked v ->
  let v' := ChatView.handleSaveDescription v in
  (id = EmptyString -> v' = v)
  /\ (id <> EmptyString ->
      map file_id (ChatView.uploadedFiles v')
      = map file_id (ChatView.uploadedFiles v)
      /\ map file_name (ChatView.uploadedFiles v')
         = map file_name (ChatView.uploadedFiles v)
      /\ map file_type (ChatView.uploadedFiles v')
         = map file_type (ChatView.uploadedFiles v)
      /\ map file_size (ChatView.uploadedFiles v')
         = map file_size (ChatView.uploadedFiles v)
      /\ map file_data (ChatView.uploadedFiles v')
         = map file_data (ChatView.uploadedFiles v)
      /\ map file_description (ChatView.uploadedFiles v')
         = map (fun f => if (file_id f =? id)%string
                         then ChatView.editingDescription v
                         else file_description f)
             (ChatView.uploadedFiles v)
      /\ ChatView.marked v'
      /\ (forall f, ChatView.fileForEditing v = Some f -> file_id f = id ->
            ChatView.fileForEditing v'
            = Some (ChatView.withDescription f (ChatView.editingDescription v)))
      /\ ChatView.prompt v' = ChatView.prompt v
      /\ ChatView.editingFileId v' = None
      /\ ChatView.handleSaveDescription v' = v').
Proof.
  intros Hid Hm. cbv zeta. split.
  - intros E. unfold ChatView.handleSaveDescription. rewrite Hid, E.
    reflexivity.
  - intros Hne. pose proof (marked_save v Hm) as Hm'.
    unfold ChatView.handleSaveDescription in *. rewrite Hid in *.
    assert (Ht : negb (JS.truthy id) = false)
      by (destruct id; [congruence | reflexivity]).
    rewrite Ht in *.
    unfold ChatView.editingIs in *.
    destruct (ChatView.fileForEditing v) as [g|] eqn:Hg.
    + destruct (file_id g =? id)%string eqn:Hgid;
        cbn [ChatView.setUploadedFiles ChatView.setFileForEditing
             ChatView.setEditingFileId ChatView.setEditingDescription
             ChatView.uploadedFiles ChatView.fileForEditing ChatView.prompt
             ChatView.editingFileId] in *;
        rewrite ?Hg in *;
        (repeat (split; [now apply map_description_ext|]));
        (split; [rewrite map_map; apply map_ext; intros f;
                 destruct (file_id f =? id)%string; reflexivity|]);
        (split; [exact Hm'|]); (split; [|repeat split]).
      * intros f Hf _. now inversion Hf.
      * intros f Hf Hfid. inversion Hf; subst f.
        apply String.eqb_neq in Hgid. contradiction.
    + cbn [ChatView.setUploadedFiles ChatView.setFileForEditing
           ChatView.setEditingFileId ChatView.setEditingDescription
           ChatView.uploadedFiles ChatView.fileForEditing ChatView.prompt
           ChatView.editingFileId] in *.
      (repeat (split; [now apply map_description_ext|])).
      (split; [rewrite map_map; apply map_ext; intros f;
               destruct (file_id f =? id)%string; reflexivity|]).
      split; [exact Hm'|]. split; [|repeat split].
      intros f Hf. discriminate.
Qed.

Lemma handleSaveDescription_descriptions_only_witness :
  map file_description
    (ChatView.uploadedFiles
       (ChatView.handleSaveDescription
          (fst (ChatView.run [ChatView.ModalEdit;
                              ChatView.DescriptionClick Sample.png;
                              ChatView.DescriptionChange "tabby"]
                  SampleView.viewing))))
  = [Some "tabby"].
Proof.
  exact (proj1 (proj2 (proj2 (proj2 (proj2 (proj2
           (proj2 (handleSaveDescription_descriptions_only
                     (fst (ChatView.run [ChatView.ModalEdit;
                                         ChatView.DescriptionClick Sample.png;
                                         ChatView.DescriptionChange "tabby"]
                             SampleView.viewing))
                     "file-1" eq_refl (or_introl eq_refl))
              ltac:(discriminate)))))))).
Defined.

Lemma forEach_full (full : bool) (selected : list ChatView.File) :
  forall reads alerts,
    fold_left
      (fun (acc : list ChatView.File * nat) (file : ChatView.File) =>
         if full then (fst acc, S (snd acc)) else (fst acc ++ [file], snd acc))
      selected (reads, alerts)
    = if full then (reads, alerts + length selected)
      else (reads ++ selected, alerts).
Proof.
  induction selected as [|file rest IH]; intros reads alerts; cbn [fold_left].
  - destruct full; [now rewrite Nat.add_0_r | now rewrite app_nil_r].
  - destruct full; cbn [fst snd length]; rewrite IH.
    + f_equal. lia.
    + now rewrite <- app_assoc.
Qed.

Lemma loadAll_files loads :
  forall v,
    ChatView.uploadedFiles (ChatView.loadAll loads v)
    = ChatView.uploadedFiles v
      ++ map (fun l : N * string * ChatView.File * string =>
                ChatView.newFile (fst (fst (fst l))) (snd (fst (fst l)))
                  (snd (fst l)) (snd l))
           loads.
Proof.
  induction loads as [|[[[t random] file] result] rest IH]; intros v.
  - simpl. now rewrite app_nil_r.
  - cbn [ChatView.loadAll map fst snd]. rewrite IH. unfold ChatView.onload.
    cbn [ChatView.setUploadedFiles ChatView.uploadedFiles].
    now rewrite <- app_assoc.
Qed.

(** X22.  The limit of four staged files is checked against the number of
    files staged in the render of the selection, once for the whole
    selection.  With four or more staged files no file of the selection is
    read and there is one alert for each.  With fewer, every file of the
    selection is read, whatever their number, and there is no alert; once
    the readers have loaded, the staged files are those of before followed
    by the new ones, so their number is the sum and can exceed four.  The
    selection itself stages nothing, and a new file has an empty
    description. *)
Theorem handleFileChange_limit
    (v : ChatView.State) (selected : list ChatView.File) :
  let out := ChatView.handleFileChange (Some selected) v in
  ChatView.uploadedFiles (fst (fst out)) = ChatView.uploadedFiles v
  /\ ChatView.fileForEditing (fst (fst out)) = ChatView.fileForEditing v
  /\ (4 <= length (ChatView.uploadedFiles v) ->
      snd (fst out) = [] /\ snd out = length selected)
  /\ (length (ChatView.uploadedFiles v) < 4 ->
      snd (fst out) = selected /\ snd out = 0
      /\ forall loads,
           map (fun l : N * string * ChatView.File * string => snd (fst l))
             loads = snd (fst out) ->
           let v' := ChatView.loadAll loads (fst (fst out)) in
           length (ChatView.uploadedFiles v')
           = length (ChatView.uploadedFiles v) + length selected
           /\ firstn (length (ChatView.uploadedFiles v))
                (ChatView.uploadedFiles v')
              = ChatView.uploadedFiles v
           /\ map file_name
                (skipn (length (ChatView.uploadedFiles v))
                   (ChatView.uploadedFiles v'))
              = map ChatView.name selected
           /\ Forall (fun f => file_description f = Some EmptyString)
                (skipn (length (ChatView.uploadedFiles v))
                   (ChatView.uploadedFiles v'))).
Proof.
  cbv zeta. unfold ChatView.handleFileChange.
  rewrite (forEach_full (4 <=? length (ChatView.uploadedFiles v))%nat).
  cbn [fst snd ChatView.setIsUploadMode ChatView.uploadedFiles
       ChatView.fileForEditing].
  split; [reflexivity|]. split; [reflexivity|]. split.
  - intros H. apply Nat.leb_le in H. rewrite H. now split.
  - intros H. apply Nat.leb_gt in H. rewrite H. cbn [fst snd app].
    split; [reflexivity|]. split; [reflexivity|].
    intros loads Hloads. rewrite loadAll_files.
    cbn [ChatView.uploadedFiles].
    rewrite length_app, length_map.
    rewrite <- Hloads at 1. rewrite length_map.
    split; [reflexivity|].
    rewrite firstn_app, Nat.sub_diag, firstn_all. cbn [firstn].
    rewrite app_nil_r. split; [reflexivity|].
    rewrite skipn_app, Nat.sub_diag, skipn_all. cbn [skipn app].
    split.
    + rewrite map_map. rewrite <- Hloads, map_map. reflexivity.
    + apply Forall_forall. intros f Hf. apply in_map_iff in Hf.
      destruct Hf as [l [Hl _]]. now subst f.
Qed.

Lemma handleFileChange_limit_witness :
  length
    (ChatView.uploadedFiles
       (ChatView.loadAll
          [(1%N, "0.1", SampleView.photo, "data:image/png;base64,AA");
           (2%N, "0.2", SampleView.photo, "data:image/png;base64,BB")]
          (fst (fst (ChatView.handleFileChange
                       (Some [SampleView.photo; SampleView.photo])
                       (ChatView.setUploadedFiles
                          [Sample.png; Sample.pdf; Sample.png]
                          ChatView.initial))))))
  = 5.
Proof.
  exact (proj1 (proj2 (proj2
           (proj2 (proj2 (proj2
              (handleFileChange_limit
                 (ChatView.setUploadedFiles
                    [Sample.png; Sample.pdf; Sample.png] ChatView.initial)
                 [SampleView.photo; SampleView.photo])))
              ltac:(simpl; lia)))
           [(1%N, "0.1", SampleView.photo, "data:image/png;base64,AA");
            (2%N, "0.2", SampleView.photo, "data:image/png;base64,BB")]
           eq_refl)).
Defined.
